(** * Gauntlet of Chaos bot: sheet parsing, scoreboard composition, commands

    A shallow embedding of [src/script.py] and [src/old.py].  The two files
    are two variants of one bot; what they share is declared once, what
    differs lives in [Module Script] and [Module Old].

    Python [str] values are modelled as [string]; every [ascii] stands for
    the code point of the same number, so the model covers cell texts made
    of the code points U+0000..U+00FF. *)

From Stdlib Require Import ZArith List String Ascii Bool Lia Permutation Sorted.
From Stdlib Require Import DecimalString DecimalPos.
From stdpp Require Import base option list sorting gmap strings.

Local Open Scope string_scope.
Local Open Scope Z_scope.

(** ** Python string primitives *)

Module PyStr.

Definition code (c : ascii) : N := N_of_ascii c.

Definition between (lo hi : N) (c : ascii) : bool :=
  ((lo <=? code c) && (code c <=? hi))%N.

(** [str.isspace] on one character: TAB..CR, FS..US, SPACE, NEL, NBSP. *)
Definition isspace (c : ascii) : bool :=
  between 9 13 c || between 28 32 c || (code c =? 133)%N || (code c =? 160)%N.

(** The predicate behind [str.isdigit]: the decimal digits and the
    superscript digits U+00B2, U+00B3, U+00B9. *)
Definition isdigit_char (c : ascii) : bool :=
  between 48 57 c || (code c =? 178)%N || (code c =? 179)%N || (code c =? 185)%N.

(** The characters [int] reads as digits: the decimal digits only. *)
Definition isdecimal_char (c : ascii) : bool := between 48 57 c.

Definition lower_char (c : ascii) : ascii :=
  if between 65 90 c || between 192 214 c || between 216 222 c
  then ascii_of_N (code c + 32)
  else c.

Fixpoint lower (s : string) : string :=
  match s with
  | EmptyString => EmptyString
  | String c s' => String (lower_char c) (lower s')
  end.

Fixpoint lstrip (s : string) : string :=
  match s with
  | EmptyString => EmptyString
  | String c s' => if isspace c then lstrip s' else s
  end.

(** [rstrip] keeps a character when it is not a space or when something
    survives to its right. *)
Fixpoint rstrip (s : string) : string :=
  match s with
  | EmptyString => EmptyString
  | String c s' =>
      match rstrip s' with
      | EmptyString => if isspace c then EmptyString else String c EmptyString
      | r => String c r
      end
  end.

Definition strip (s : string) : string := rstrip (lstrip s).

Fixpoint all_chars (p : ascii -> bool) (s : string) : bool :=
  match s with
  | EmptyString => true
  | String c s' => p c && all_chars p s'
  end.

(** [s.isdigit()]: at least one character, all of them digits. *)
Definition isdigit (s : string) : bool :=
  match s with
  | EmptyString => false
  | _ => all_chars isdigit_char s
  end.

(** [x in s] for strings. *)
Fixpoint contains (x s : string) : bool :=
  String.prefix x s ||
  match s with
  | EmptyString => false
  | String _ s' => contains x s'
  end.

(** [s.split(sep)] for a one-character separator. *)
Fixpoint split (sep : ascii) (s : string) : list string :=
  match s with
  | EmptyString => [EmptyString]
  | String c s' =>
      if Ascii.eqb c sep then EmptyString :: split sep s'
      else match split sep s' with
           | [] => [String c EmptyString]
           | piece :: rest => String c piece :: rest
           end
  end.

(** The digits of an [int] literal: decimal digits, single underscores
    allowed between two digits. *)
Fixpoint int_digits (acc : Z) (after_digit : bool) (s : string) : option Z :=
  match s with
  | EmptyString => if after_digit then Some acc else None
  | String c s' =>
      if Ascii.eqb c "_" then
        if after_digit then int_digits acc false s' else None
      else if isdecimal_char c then
        int_digits (10 * acc + (Z.of_N (code c) - 48)) true s'
      else None
  end.

(** The white space [int] skips around a literal.  It is not the set of
    [str.strip]: of the characters below U+0080 only TAB..CR and SPACE are
    skipped, so FS..US (U+001C..U+001F) are not; NEL and NBSP are turned
    into spaces before the literal is read. *)
Definition int_isspace (c : ascii) : bool :=
  between 9 13 c || (code c =? 32)%N || (code c =? 133)%N || (code c =? 160)%N.

Fixpoint int_lstrip (s : string) : string :=
  match s with
  | EmptyString => EmptyString
  | String c s' => if int_isspace c then int_lstrip s' else s
  end.

Fixpoint int_rstrip (s : string) : string :=
  match s with
  | EmptyString => EmptyString
  | String c s' =>
      match int_rstrip s' with
      | EmptyString => if int_isspace c then EmptyString else String c EmptyString
      | r => String c r
      end
  end.

Definition int_strip (s : string) : string := int_rstrip (int_lstrip s).

(** The number of decimal digits of a literal, leading zeros included,
    underscores not. *)
Fixpoint count_digits (s : string) : N :=
  match s with
  | EmptyString => 0%N
  | String c s' => ((if isdecimal_char c then 1 else 0) + count_digits s')%N
  end.

(** [sys.int_info.default_max_str_digits]: a literal of more digits is
    refused by [int]. *)
Definition max_str_digits : N := 4300.

(** The literal after its sign. *)
Definition int_literal (r : string) : option Z :=
  if (max_str_digits <? count_digits r)%N then None else int_digits 0 false r.

(** [int(s)] in base ten; [None] stands for [ValueError]. *)
Definition int (s : string) : option Z :=
  match int_strip s with
  | String "+" r => int_literal r
  | String "-" r => Z.opp <$> int_literal r
  | r => int_literal r
  end.

(** [str(z)] for an [int].  Python refuses to print an [int] of more than
    [max_str_digits] digits; the numbers printed here are message ids,
    channel ids, round numbers and points that [int] has read, and this
    limit is not modelled. *)
Definition str (z : Z) : string := NilZero.string_of_int (Z.to_int z).

(** Truth value of a string: non-empty. *)
Definition truthy (s : string) : bool :=
  match s with EmptyString => false | _ => true end.

End PyStr.

(** ** Exceptions *)

Inductive exn := ValueError | IndexError | KeyError.

Inductive result (A : Type) :=
| Ok (a : A)
| Raise (e : exn).
Arguments Ok {A} a.
Arguments Raise {A} e.

#[global] Instance result_ret : MRet result := fun _ a => Ok a.
#[global] Instance result_bind : MBind result := fun _ _ f m =>
  match m with
  | Ok a => f a
  | Raise e => Raise e
  end.

(** [int(s)] as a computation. *)
Definition int (s : string) : result Z :=
  match PyStr.int s with
  | Some z => Ok z
  | None => Raise ValueError
  end.

(** [row[i]] on a list of cells. *)
Definition item (row : list string) (i : nat) : result string :=
  match row !! i with
  | Some c => Ok c
  | None => Raise IndexError
  end.

(** ** Data model: the dictionaries built by the parser *)

Module Player.
Record t := mk {
  Name : option string;
  Team : option string;
  Roll : option string;
  Chaos_coins : option string;
  Status : option string
}.
End Player.

Module Entry.
Record t := mk {
  Position : option string;
  Team : option string;
  Combatant : option string;
  Points : option Z
}.
End Entry.

(** The dictionary [data]: five lists under fixed keys. *)
Record Data := mkData {
  red_team : list Player.t;
  blue_team : list Player.t;
  green_team : list Player.t;
  yellow_team : list Player.t;
  leaderboard : list Entry.t
}.

Definition empty_data : Data := mkData [] [] [] [] [].

(** [data[key].append(x)] for each key. *)
Definition append_red (p : Player.t) (d : Data) : Data :=
  mkData (red_team d ++ [p]) (blue_team d) (green_team d) (yellow_team d) (leaderboard d).
Definition append_blue (p : Player.t) (d : Data) : Data :=
  mkData (red_team d) (blue_team d ++ [p]) (green_team d) (yellow_team d) (leaderboard d).
Definition append_green (p : Player.t) (d : Data) : Data :=
  mkData (red_team d) (blue_team d) (green_team d ++ [p]) (yellow_team d) (leaderboard d).
Definition append_yellow (p : Player.t) (d : Data) : Data :=
  mkData (red_team d) (blue_team d) (green_team d) (yellow_team d ++ [p]) (leaderboard d).
Definition append_leaderboard (e : Entry.t) (d : Data) : Data :=
  mkData (red_team d) (blue_team d) (green_team d) (yellow_team d) (leaderboard d ++ [e]).

(** The values of [current_section]; [None] is Python's [None]. *)
Inductive section := red_blue | green_yellow | in_leaderboard.

Definition RawRow := list string.

(** What the loop body decides first for a non-empty row, the same in both
    files: a section marker, a header, or on to the data branches. *)
Inductive row_kind :=
| Marker (s : section)
| Header
| DataRow.

Definition is_header (first_cell : string) : bool :=
  existsb (fun x => PyStr.contains x first_cell) ["team"; "position"; "name"].

Definition classify (first_cell : string) : row_kind :=
  if PyStr.contains "red" first_cell && PyStr.contains "blue" first_cell then Marker red_blue
  else if PyStr.contains "green" first_cell && PyStr.contains "yellow" first_cell then Marker green_yellow
  else if PyStr.contains "leaderboard" first_cell then Marker in_leaderboard
  else if is_header first_cell then Header
  else DataRow.

Definition ParseState : Type := option section * Data.

(** The cards drawn on the scoreboard: [player_data] of the image
    generators. *)
Module Card.
Record t := mk {
  name : string;
  team : string;
  roll : string;
  status : string;
  points : Z;
  Chaos_coins : string
}.
End Card.

(** The value stored per name in the local [leaderboard] dictionary. *)
Record Standing := mkStanding {
  st_position : string;
  st_team : string;
  st_points : Z
}.

(** ** A stable sort: [list.sort(key=..., reverse=True)]

    Python's sort is stable, also under [reverse=True]: elements with equal
    keys keep their order.  Insertion from the right puts an element before
    the first one whose key is not greater. *)
Section StableSort.
Context {A : Type} (key : A -> Z).

Fixpoint insert_desc (x : A) (l : list A) : list A :=
  match l with
  | [] => [x]
  | y :: l' => if key x <? key y then y :: insert_desc x l' else x :: l
  end.

Fixpoint sort_desc (l : list A) : list A :=
  match l with
  | [] => []
  | x :: l' => insert_desc x (sort_desc l')
  end.
End StableSort.

(** [enumerate(l)] as pairs of index and element. *)
Definition enumerate {A} (l : list A) : list (nat * A) := imap (fun i x => (i, x)) l.

(** The scoreboard image is determined by the cards drawn and the position
    text [i+1] written on each; the drawing primitives are not modelled. *)
Definition Image : Type := list (Z * Card.t).

Definition draw_cards (players : list Card.t) : Image :=
  (fun ip => (Z.of_nat ip.1 + 1, ip.2)) <$> enumerate (take 16 players).

(** The [for row in ...] loop over a body that may raise. *)
Fixpoint for_rows (body : ParseState -> RawRow -> result ParseState)
    (rows : list RawRow) (st : ParseState) : result ParseState :=
  match rows with
  | [] => Ok st
  | row :: rest =>
      match body st row with
      | Ok st' => for_rows body rest st'
      | Raise e => Raise e
      end
  end.

Definition section_is (current_section : option section) (s : section) : bool :=
  match current_section, s with
  | Some red_blue, red_blue
  | Some green_yellow, green_yellow
  | Some in_leaderboard, in_leaderboard => true
  | _, _ => false
  end.

(** The team names, [TEAMS] of old.py and the literal lists of script.py. *)
Definition TEAMS : list string := ["red"; "blue"; "green"; "yellow"].

Definition DEFAULT_ROLL_RANGE : Z * Z := (100, 200).

(** ** Roll ranges, the same statement in both files

    [min_roll, max_roll = map(int, text.split('-'))] inside [try], the
    default range in [except].  Unpacking draws the pieces one by one
    through [int]; too few pieces, too many, or a piece [int] rejects all
    end in the [except]. *)
Definition unpack2 (pieces : list string) : result (Z * Z) :=
  match pieces with
  | [] => Raise ValueError
  | a :: rest =>
      min_roll ← int a;
      match rest with
      | [] => Raise ValueError
      | b :: rest' =>
          max_roll ← int b;
          match rest' with
          | [] => Ok (min_roll, max_roll)
          | _ :: _ => Raise ValueError
          end
      end
  end.

Definition roll_bounds (roll_range : string) : Z * Z :=
  match unpack2 (PyStr.split "-" roll_range) with
  | Ok bounds => bounds
  | Raise _ => DEFAULT_ROLL_RANGE
  end.

(** ** The bot and its collaborators as explicit state *)

(** What a command handler learns from [interaction]. *)
Record Interaction := mkInteraction {
  user_id : Z;
  user_roles : list string;          (* names of [interaction.user.roles] *)
  user_display_name : string;
  channel : Z;                       (* id of [interaction.channel] *)
  guild_members : list (Z * string)  (* id and display name *)
}.

(** The fixed message texts; the dynamic ones carry their arguments. *)
Inductive Content :=
| Restricted            (* "This command is restricted to admins or Agents of Chaos only." *)
| Pong
| StatsUpdated
| CreatedNewBoard
| OriginalNotFound
| ChannelNotFound
| FailedUpdate
| Switched (round_number : Z)
| ErrorText (e : string)
| SubmittedAnonymously
| NoSubmissionsYet      (* "No submissions yet!" of showsubmitted *)
| NoAnswersYet          (* the same text behind a cross mark, of showanswers *)
| SubmittedList (names : list string)
| AnonymousMessages (lines : list string)
| AuthorMapping (entries : list (Z * string * string)).

Inductive Event :=
| Defer (ephemeral : bool)                    (* [interaction.response.defer] *)
| Respond (c : Content) (ephemeral : bool)    (* [interaction.response.send_message] *)
| Followup (c : Content) (ephemeral : bool).  (* [interaction.followup.send] *)

Record World := mkWorld {
  message_id : option Z;
  channel_id : option Z;
  current_sheet : option Z;           (* n for the worksheet "Round n" *)
  config_sheet : list RawRow;
  worksheets : gmap Z (list RawRow);  (* the worksheets "Round n" *)
  channels : gmap Z (gmap Z Image);   (* channel id, message id, attachment *)
  next_message_id : Z;                (* id the platform gives the next message *)
  users : gmap Z string;              (* what [bot.fetch_user] finds *)
  ACTIVE_SUBMISSIONS : list (Z * string)
}.

Definition some_nonzero (o : option Z) : bool :=
  match o with
  | Some z => negb (z =? 0)
  | None => false
  end.

(** [channel.send(file=file)]: a new message with a fresh id. *)
Definition channel_send (c : Z) (file : Image) (w : World) : Z * World :=
  let mid := next_message_id w in
  (mid,
   mkWorld (message_id w) (channel_id w) (current_sheet w) (config_sheet w) (worksheets w)
           (<[c := <[mid := file]> (default ∅ (channels w !! c))]> (channels w))
           (mid + 1) (users w) (ACTIVE_SUBMISSIONS w)).

(** [msg.edit(attachments=[file])] *)
Definition message_edit (c mid : Z) (file : Image) (w : World) : World :=
  mkWorld (message_id w) (channel_id w) (current_sheet w) (config_sheet w) (worksheets w)
          (<[c := <[mid := file]> (default ∅ (channels w !! c))]> (channels w))
          (next_message_id w) (users w) (ACTIVE_SUBMISSIONS w).

Definition set_ids (mid c : Z) (w : World) : World :=
  mkWorld (Some mid) (Some c) (current_sheet w) (config_sheet w) (worksheets w)
          (channels w) (next_message_id w) (users w) (ACTIVE_SUBMISSIONS w).

Definition set_config (config : list RawRow) (w : World) : World :=
  mkWorld (message_id w) (channel_id w) (current_sheet w) config (worksheets w)
          (channels w) (next_message_id w) (users w) (ACTIVE_SUBMISSIONS w).

Definition set_current_sheet (n : Z) (w : World) : World :=
  mkWorld (message_id w) (channel_id w) (Some n) (config_sheet w) (worksheets w)
          (channels w) (next_message_id w) (users w) (ACTIVE_SUBMISSIONS w).

Definition set_submissions (subs : list (Z * string)) (w : World) : World :=
  mkWorld (message_id w) (channel_id w) (current_sheet w) (config_sheet w) (worksheets w)
          (channels w) (next_message_id w) (users w) subs.

(** [x[i], x[j] = x[j], x[i]] *)
Definition swap {A} (x : list A) (i j : nat) : list A :=
  match x !! i, x !! j with
  | Some a, Some b => <[j := a]> (<[i := b]> x)
  | _, _ => x
  end.

(** [random.shuffle(x)]: for [i] from [len(x) - 1] down to [1], swap
    [x[i]] with [x[randbelow(i + 1)]].  [draws] are the successive raw
    values of the generator, reduced below the bound. *)
Fixpoint shuffle_from {A} (i : nat) (draws : list nat) (x : list A) : list A :=
  match i with
  | O => x
  | S i' =>
      let j := (hd O draws mod (i + 1))%nat in
      shuffle_from i' (tl draws) (swap x i j)
  end.

Definition shuffle {A} (draws : list nat) (x : list A) : list A :=
  shuffle_from (length x - 1) draws x.

(** [ACTIVE_SUBMISSIONS[k] = v] on an insertion-ordered dictionary. *)
Fixpoint dict_set (k : Z) (v : string) (d : list (Z * string)) : list (Z * string) :=
  match d with
  | [] => [(k, v)]
  | (k', v') :: d' => if k' =? k then (k, v) :: d' else (k', v') :: dict_set k v d'
  end.

(** [guild.get_member], then [bot.fetch_user], then the fallback text. *)
Definition author_name (i : Interaction) (w : World) (uid : Z) : string :=
  match list_find (fun m => m.1 = uid) (guild_members i) with
  | Some (_, m) => m.2
  | None =>
      match users w !! uid with
      | Some n => n
      | None => "Unknown User (" ++ PyStr.str uid ++ ")"
      end
  end.

(** ** Configuration sheet, rolls: what both files share *)

(** The dictionary both files build from the rows of the configuration
    sheet: [row[0].strip().lower()] to [row[1].strip()] for the rows with at
    least two cells, a later row replacing an earlier one. *)
Definition config_dict (rows : list RawRow) : gmap string string :=
  foldl (fun d row =>
           match row with
           | c0 :: c1 :: _ => <[PyStr.lower (PyStr.strip c0) := PyStr.strip c1]> d
           | _ => d
           end) ∅ rows.

(** [int(config.get(key)) if config.get(key, '').isdigit() else None] *)
Definition read_id (config : gmap string string) (key : string) : result (option Z) :=
  if PyStr.isdigit (default "" (config !! key)) then
    z ← int (default "" (config !! key)); mret (Some z)
  else mret None.

Definition set_id_options (mid c : option Z) (w : World) : World :=
  mkWorld mid c (current_sheet w) (config_sheet w) (worksheets w)
          (channels w) (next_message_id w) (users w) (ACTIVE_SUBMISSIONS w).

(** One line of a roll: who rolled what within which bounds. *)
Record RollLine := mkRollLine {
  rl_name : string;
  rl_result : Z;
  rl_min : Z;
  rl_max : Z
}.

(** The messages of the roll command.  The team-roll message is its
    header "Team Roll Results for ... Team:", a line break, and the lines
    joined by line breaks; script.py joins the header, line break included,
    to the lines with one more line break, which leaves an empty line after
    the header, and old.py puts the lines right after it: [blank_line]. *)
Inductive RollContent :=
| InvalidTeam                           (* "Invalid team! Please specify red, blue, green, or yellow." *)
| NoPlayersFound (team : string)        (* "No players found in ... Team!" *)
| TeamRollResults (team : string) (blank_line : bool) (results : list RollLine)
| CouldntFind (player_name : string)    (* "Couldn't find ... in any team!" *)
| Rolled (line : RollLine) (team : string)
| RollWentWrong.                        (* "Something went wrong with the roll. Try again later." *)

Inductive RollEvent :=
| RollDefer                                          (* [interaction.response.defer()] *)
| RollFollowup (c : RollContent) (ephemeral : bool). (* [interaction.followup.send] *)

(** [random.randint(a, b)]: [a + randbelow(b - a + 1)], [ValueError] on an
    empty range.  The first of [draws] is the generator's raw value. *)
Definition randint (draws : list nat) (a b : Z) : result (Z * list nat) :=
  if a <=? b then Ok (a + Z.of_nat (hd O draws) mod (b - a + 1), tl draws)
  else Raise ValueError.

(** [d[key]] on a dictionary that may lack the key. *)
Definition getitem {A} (field : option A) : result A :=
  match field with
  | Some a => Ok a
  | None => Raise KeyError
  end.

(** The bounds of a player: the [try] around the unpacking also covers a
    missing ['Roll'] key. *)
Definition player_bounds (player : Player.t) : Z * Z :=
  match Player.Roll player with
  | Some roll_range => roll_bounds roll_range
  | None => DEFAULT_ROLL_RANGE
  end.

(** The first guild member whose lower-cased display name contains the
    lower-cased sheet name. *)
Definition find_member (members : list (Z * string)) (name : string) : option string :=
  snd <$> List.find (fun m => PyStr.contains (PyStr.lower name) (PyStr.lower m.2)) members.

(** The loop of the team roll, the same in both files. *)
Fixpoint roll_team (draws : list nat) (members : list (Z * string))
    (team_players : list Player.t) : result (list RollLine) :=
  match team_players with
  | [] => Ok []
  | player :: rest =>
      let '(min_roll, max_roll) := player_bounds player in
      rolled ← randint draws min_roll max_roll;
      name ← getitem (Player.Name player);
      let display_name := default name (find_member members name) in
      results ← roll_team rolled.2 members rest;
      mret (mkRollLine display_name rolled.1 min_roll max_roll :: results)
  end.

(** [data.get(f"{team}_team", [])] *)
Definition team_list (data : Data) (team : string) : list Player.t :=
  if String.eqb team "red" then red_team data
  else if String.eqb team "blue" then blue_team data
  else if String.eqb team "green" then green_team data
  else if String.eqb team "yellow" then yellow_team data
  else [].

Definition in_teams (team : string) : bool := existsb (String.eqb team) TEAMS.

(** The first player of a list whose lower-cased name is contained in the
    lower-cased display name. *)
Fixpoint first_match (player_name : string) (team_players : list Player.t)
    : result (option Player.t) :=
  match team_players with
  | [] => Ok None
  | player :: rest =>
      name ← getitem (Player.Name player);
      if PyStr.contains (PyStr.lower name) (PyStr.lower player_name) then Ok (Some player)
      else first_match player_name rest
  end.

(** The part of the roll command after [if team:], given the parsed data;
    the two files differ in the layout of the result message only. *)
Definition roll_for_team (blank_line : bool) (draws : list nat) (i : Interaction)
    (team : string) (data : Data) : list RollEvent :=
  let team := PyStr.lower team in
  if negb (in_teams team) then [RollDefer; RollFollowup InvalidTeam false]
  else
    match team_list data team with
    | [] => [RollDefer; RollFollowup (NoPlayersFound team) false]
    | team_players =>
        match roll_team draws (guild_members i) team_players with
        | Ok results =>
            [RollDefer; RollFollowup (TeamRollResults team blank_line results) false]
        | Raise _ => [RollDefer; RollFollowup RollWentWrong true]
        end
    end.

(** ** script.py *)

Module Script.

(** [row[0].strip().lower() if row[0] else ""] *)
Definition first_cell (row : RawRow) : result string :=
  c ← item row 0;
  mret (if PyStr.truthy c then PyStr.lower (PyStr.strip c) else "").

(** [row[1].lower().strip() if len(row) > 1 else ""] *)
Definition team_cell (row : RawRow) : result string :=
  if (1 <? length row)%nat then c ← item row 1; mret (PyStr.strip (PyStr.lower c))
  else mret "".

(** The dictionary [player_data] of the two team branches. *)
Definition player_data (row : RawRow) (team : string) : result Player.t :=
  name ← item row 0;
  roll ← (if (2 <? length row)%nat then c ← item row 2; mret (PyStr.strip c) else mret "");
  coins ← (if (3 <? length row)%nat then
             c ← item row 3;
             mret (if String.eqb (PyStr.strip c) "" then "0" else PyStr.strip c)
           else mret "0");
  status ← (if (4 <? length row)%nat then
              c ← item row 4;
              mret (if PyStr.truthy c then PyStr.strip c else "")
            else mret "");
  mret (Player.mk (Some (PyStr.strip name)) (Some team) (Some roll) (Some coins) (Some status)).

(** The dictionary appended in the leaderboard branch. *)
Definition leaderboard_entry (row : RawRow) : result Entry.t :=
  position ← item row 0;
  team ← team_cell row;
  combatant ← (if (2 <? length row)%nat then c ← item row 2; mret (PyStr.strip c) else mret "");
  pts ← (if (3 <? length row)%nat then
           c ← item row 3;
           if PyStr.isdigit (PyStr.strip c) then int c else mret 0
         else mret 0);
  mret (Entry.mk (Some (PyStr.strip position)) (Some team) (Some combatant) (Some pts)).

(** One iteration of the loop of [parse_sheet_data]. *)
Definition body (st : ParseState) (row : RawRow) : result ParseState :=
  let '(current_section, data) := st in
  match row with
  | [] => mret st
  | _ =>
    fc ← first_cell row;
    match classify fc with
    | Marker s => mret (Some s, data)
    | Header => mret st
    | DataRow =>
      if section_is current_section red_blue && (3 <=? length row)%nat then
        team ← team_cell row;
        p ← player_data row team;
        if String.eqb team "red" then mret (current_section, append_red p data)
        else if String.eqb team "blue" then mret (current_section, append_blue p data)
        else mret st
      else if section_is current_section green_yellow && (3 <=? length row)%nat then
        team ← team_cell row;
        p ← player_data row team;
        if String.eqb team "green" then mret (current_section, append_green p data)
        else if String.eqb team "yellow" then mret (current_section, append_yellow p data)
        else mret st
      else if section_is current_section in_leaderboard && (4 <=? length row)%nat then
        e ← leaderboard_entry row;
        mret (current_section, append_leaderboard e data)
      else mret st
    end
  end.

(** The [try] block of [parse_sheet_data], on the rows that
    [self.sheet.get_all_values()] returned. *)
Definition parse_try (all_values : list RawRow) : result Data :=
  st ← for_rows body all_values (None, empty_data);
  mret st.2.

(** [parse_sheet_data]: any exception is logged and the empty dictionary
    returned. *)
Definition parse_sheet_data (all_values : list RawRow) : Data :=
  match parse_try all_values with
  | Ok data => data
  | Raise _ => empty_data
  end.

(** The local dictionary [leaderboard] of [generate_scoreboard_image]. *)
Definition standing (p : Entry.t) : Standing :=
  let pts := default 0 (Entry.Points p) in
  mkStanding (default "" (Entry.Position p))
             (PyStr.lower (default "" (Entry.Team p)))
             (if PyStr.isdigit (PyStr.str pts) then pts else 0).

Definition leaderboard_dict (entries : list Entry.t) : gmap string Standing :=
  foldl (fun d p =>
           match Entry.Combatant p with
           | Some c => <[PyStr.lower c := standing p]> d
           | None => d
           end) ∅ entries.

Definition card (lb : gmap string Standing) (player : Player.t) : Card.t :=
  Card.mk (default "Unknown" (Player.Name player))
          (PyStr.lower (default "" (Player.Team player)))
          (default "" (Player.Roll player))
          (default "" (Player.Status player))
          (default 0 (st_points <$> lb !! PyStr.lower (default "" (Player.Name player))))
          (default "0" (Player.Chaos_coins player)).

Definition all_players (data : Data) : list Card.t :=
  let lb := leaderboard_dict (leaderboard data) in
  card lb <$> (red_team data ++ blue_team data ++ green_team data ++ yellow_team data)%list.

(** [generate_scoreboard_image]: the cards in drawing order with their
    position numbers. *)
Definition generate_scoreboard_image (data : Data) : Image :=
  draw_cards (sort_desc Card.points (all_players data)).

(** [self.config_sheet.update([[k1, v1], [k2, v2]])]: the values are
    written from cell A1 on, over what the first two rows had there. *)
Definition write_pair (k v : string) (row : RawRow) : RawRow := k :: v :: drop 2 row.

Definition config_update (mid c : Z) (config : list RawRow) : list RawRow :=
  write_pair "message_id" (PyStr.str mid) (default [] (config !! 0%nat))
  :: write_pair "channel_id" (PyStr.str c) (default [] (config !! 1%nat))
  :: drop 2 config.

(** The four places where [update_stats] sends a new message, stores its
    ids and writes them to the configuration sheet. *)
Definition post_new (c : Z) (file : Image) (w : World) : World :=
  let '(mid, w1) := channel_send c file w in
  set_config (config_update mid c (config_sheet w1)) (set_ids mid c w1).

(** [update_stats]; [self.sheet] is the worksheet "Round 1". *)
Definition update_stats (i : Interaction) (w : World) : World * list Event :=
  let data := parse_sheet_data (default [] (worksheets w !! 1)) in
  let file := generate_scoreboard_image data in
  if some_nonzero (message_id w) && some_nonzero (channel_id w) then
    let mid := default 0 (message_id w) in
    let c := default 0 (channel_id w) in
    match channels w !! c with
    | Some msgs =>
        match msgs !! mid with
        | Some _ => (message_edit c mid file w, [Defer true; Followup StatsUpdated true])
        | None => (post_new c file w, [Defer true; Followup OriginalNotFound true])
        end
    | None => (post_new (channel i) file w, [Defer true; Followup ChannelNotFound true])
    end
  else (post_new (channel i) file w, [Defer true; Followup CreatedNewBoard true]).

Definition update_command (i : Interaction) (w : World) : World * list Event :=
  update_stats i w.

Definition ping (i : Interaction) (w : World) : World * list Event :=
  (w, [Respond Pong false]).

(** [setup_hook]: the ids of the configuration sheet, both [None] after any
    exception; [self.sheet] is the worksheet "Round 1". *)
Definition setup_hook (w : World) : World :=
  match worksheets w !! 1 with
  | None => set_id_options None None w
  | Some _ =>
      let config := config_dict (config_sheet w) in
      match (mid ← read_id config "message_id";
             c ← read_id config "channel_id";
             mret (mid, c)) with
      | Ok ids => set_id_options ids.1 ids.2 w
      | Raise _ => set_id_options None None w
      end
  end.

(** The search loops of the single roll: per team the first match sets
    [player_team] and [roll_range], and the search stops once [player_team]
    is a non-empty text. *)
Fixpoint search_teams (player_name : string) (teams : list (list Player.t))
    (player_team : option string) (roll_range : string)
    : result (option string * string) :=
  match teams with
  | [] => Ok (player_team, roll_range)
  | team_players :: rest =>
      found ← first_match player_name team_players;
      st ← match found with
           | Some player =>
               t ← getitem (Player.Team player);
               r ← getitem (Player.Roll player);
               mret (Some t, r)
           | None => mret (player_team, roll_range)
           end;
      if PyStr.truthy (default "" st.1) then Ok st
      else search_teams player_name rest st.1 st.2
  end.

Definition roll_single (draws : list nat) (i : Interaction) (data : Data) : list RollEvent :=
  let player_name := user_display_name i in
  match search_teams player_name
          [red_team data; blue_team data; green_team data; yellow_team data]
          None "100-200" with
  | Raise _ => [RollDefer; RollFollowup RollWentWrong true]
  | Ok (player_team, roll_range) =>
      if negb (PyStr.truthy (default "" player_team)) then
        [RollDefer; RollFollowup (CouldntFind player_name) true]
      else
        let '(min_roll, max_roll) := roll_bounds roll_range in
        match randint draws min_roll max_roll with
        | Ok rolled =>
            [RollDefer;
             RollFollowup (Rolled (mkRollLine player_name rolled.1 min_roll max_roll)
                                  (default "" player_team)) false]
        | Raise _ => [RollDefer; RollFollowup RollWentWrong true]
        end
  end.

(** [roll_command]; [team] is [None] or the text given. *)
Definition roll_command (draws : list nat) (i : Interaction) (team : option string)
    (w : World) : list RollEvent :=
  let data := parse_sheet_data (default [] (worksheets w !! 1)) in
  if PyStr.truthy (default "" team) then roll_for_team true draws i (default "" team) data
  else roll_single draws i data.

End Script.

(** ** old.py *)

Module Old.

(** [data[f"{team}_team"].append(player_data)] *)
Definition append_team (team : string) (p : Player.t) (d : Data) : result Data :=
  if String.eqb team "red" then Ok (append_red p d)
  else if String.eqb team "blue" then Ok (append_blue p d)
  else if String.eqb team "green" then Ok (append_green p d)
  else if String.eqb team "yellow" then Ok (append_yellow p d)
  else Raise KeyError.

Definition in_TEAMS (team : string) : bool := existsb (String.eqb team) TEAMS.

Definition player_data (row : RawRow) (team : string) : result Player.t :=
  name ← item row 0;
  roll ← item row 2;
  coins ← (if (3 <? length row)%nat then
             c ← item row 3;
             mret (if PyStr.truthy (PyStr.strip c) then PyStr.strip c else "0")
           else mret "0");
  status ← (if (4 <? length row)%nat then
              c ← item row 4;
              mret (if PyStr.truthy c then PyStr.strip c else "")
            else mret "");
  mret (Player.mk (Some (PyStr.strip name)) (Some team) (Some (PyStr.strip roll))
                  (Some coins) (Some status)).

Definition leaderboard_entry (row : RawRow) : result Entry.t :=
  position ← item row 0;
  team ← item row 1;
  combatant ← item row 2;
  c ← item row 3;
  pts ← (if PyStr.isdigit (PyStr.strip c) then int c else mret 0);
  mret (Entry.mk (Some (PyStr.strip position)) (Some (PyStr.strip (PyStr.lower team)))
                 (Some (PyStr.strip combatant)) (Some pts)).

(** One iteration of the loop of [SheetManager.parse_data]. *)
Definition body (st : ParseState) (row : RawRow) : result ParseState :=
  let '(current_section, data) := st in
  match row with
  | [] => mret st
  | _ =>
    c ← item row 0;
    match classify (PyStr.lower (PyStr.strip c)) with
    | Marker s => mret (Some s, data)
    | Header => mret st
    | DataRow =>
      if (section_is current_section red_blue || section_is current_section green_yellow)
         && (3 <=? length row)%nat then
        c1 ← item row 1;
        let team := PyStr.strip (PyStr.lower c1) in
        if negb (in_TEAMS team) then mret st
        else
          p ← player_data row team;
          data' ← append_team team p data;
          mret (current_section, data')
      else if section_is current_section in_leaderboard && (4 <=? length row)%nat then
        e ← leaderboard_entry row;
        mret (current_section, append_leaderboard e data)
      else mret st
    end
  end.

(** [SheetManager.parse_data] on the rows of the current sheet; nothing
    is caught here. *)
Definition parse_data (rows : list RawRow) : result Data :=
  st ← for_rows body rows (None, empty_data);
  mret st.2.

(** The local dictionary [leaderboard] of [generate_scoreboard]. *)
Definition standing (p : Entry.t) : Standing :=
  mkStanding (default "" (Entry.Position p))
             (PyStr.lower (default "" (Entry.Team p)))
             (default 0 (Entry.Points p)).

Definition leaderboard_dict (entries : list Entry.t) : gmap string Standing :=
  foldl (fun d p =>
           match Entry.Combatant p with
           | Some c => <[PyStr.lower c := standing p]> d
           | None => d
           end) ∅ entries.

Definition card (lb : gmap string Standing) (player : Player.t) : Card.t :=
  Card.mk (default "Unknown" (Player.Name player))
          (PyStr.lower (default "" (Player.Team player)))
          (default "" (Player.Roll player))
          (default "" (Player.Status player))
          (default 0 (st_points <$> lb !! PyStr.lower (default "" (Player.Name player))))
          (default "0" (Player.Chaos_coins player)).

Definition all_players (data : Data) : list Card.t :=
  let lb := leaderboard_dict (leaderboard data) in
  card lb <$> (red_team data ++ blue_team data ++ green_team data ++ yellow_team data)%list.

Definition generate_scoreboard (data : Data) : Image :=
  draw_cards (sort_desc Card.points (all_players data)).

(** [SheetManager._update_config]: overwrite the first row whose key cell
    matches, or append a row. *)
Definition key_matches (key : string) (row : RawRow) : bool :=
  match row with
  | [] => false
  | c :: _ => String.eqb (PyStr.lower (PyStr.strip c)) (PyStr.lower key)
  end.

Definition _update_config (key value : string) (w : World) : World :=
  let config := config_sheet w in
  match list_find (fun row => key_matches key row = true) config with
  | Some (row_index, row) =>
      set_config (<[row_index := key :: value :: drop 2 row]> config) w
  | None => set_config (config ++ [[key; value]]) w
  end.

(** [SheetManager.set_round]; a missing worksheet is re-raised as
    [ValueError]. *)
Definition set_round (round_number : Z) (w : World) : result World :=
  match worksheets w !! round_number with
  | Some _ =>
      Ok (_update_config "current_round" (PyStr.str round_number)
            (set_current_sheet round_number w))
  | None => Raise ValueError
  end.

Definition has_permission (i : Interaction) : bool :=
  existsb (String.eqb "Agent of Chaos") (user_roles i).

(** [update_stats]; a failure of [parse_data] reaches the handler's
    [except]. *)
Definition update_stats (i : Interaction) (w : World) : World * list Event :=
  match current_sheet w ≫= (fun n => worksheets w !! n) with
  | None => (w, [Defer true; Followup FailedUpdate true])
  | Some rows =>
    match parse_data rows with
    | Raise _ => (w, [Defer true; Followup FailedUpdate true])
    | Ok data =>
      let file := generate_scoreboard data in
      let create :=
        let '(mid, w1) := channel_send (channel i) file w in
        let w2 := set_ids mid (channel i) w1 in
        let w3 := _update_config "message_id" (PyStr.str mid) w2 in
        let w4 := _update_config "channel_id" (PyStr.str (channel i)) w3 in
        (w4, [Defer true; Followup CreatedNewBoard true]) in
      if some_nonzero (message_id w) && some_nonzero (channel_id w) then
        let mid := default 0 (message_id w) in
        let c := default 0 (channel_id w) in
        match channels w !! c with
        | Some msgs =>
            match msgs !! mid with
            | Some _ => (message_edit c mid file w, [Defer true; Followup StatsUpdated true])
            | None => create
            end
        | None => create
        end
      else create
    end
  end.

Definition update_command (i : Interaction) (w : World) : World * list Event :=
  if negb (has_permission i) then (w, [Respond Restricted true])
  else update_stats i w.

Definition ping (i : Interaction) (w : World) : World * list Event :=
  if negb (has_permission i) then (w, [Respond Restricted true])
  else (w, [Respond Pong false]).

Definition round_command (i : Interaction) (round_number : Z) (w : World)
    : World * list Event :=
  if negb (has_permission i) then (w, [Respond Restricted true])
  else
    match set_round round_number w with
    | Ok w' => (w', [Defer true; Followup (Switched round_number) true])
    | Raise _ =>
        (w, [Defer true;
             Followup (ErrorText ("Worksheet 'Round " ++ PyStr.str round_number ++ "' not found")) true])
    end.

Definition anon_submit (i : Interaction) (message : string) (w : World)
    : World * list Event :=
  (set_submissions (dict_set (user_id i) message (ACTIVE_SUBMISSIONS w)) w,
   [Respond SubmittedAnonymously true]).

Definition show_submitted (i : Interaction) (w : World) : World * list Event :=
  if negb (has_permission i) then (w, [Respond Restricted true])
  else
    match ACTIVE_SUBMISSIONS w with
    | [] => (w, [Respond NoSubmissionsYet true])
    | subs => (w, [Respond (SubmittedList ((fun s => author_name i w s.1) <$> subs)) true])
    end.

(** The line [f"`{i+1}.` {msg}"] of the public output. *)
Definition public_line (im : nat * (Z * string)) : string :=
  "`" ++ PyStr.str (Z.of_nat im.1 + 1) ++ ".` " ++ im.2.2.

(** [show_anon], the handler of [showanswers]; [draws] is what the
    random generator yields during [random.shuffle]. *)
Definition show_anon (draws : list nat) (i : Interaction) (w : World)
    : World * list Event :=
  if negb (has_permission i) then (w, [Respond Restricted true])
  else
    match ACTIVE_SUBMISSIONS w with
    | [] => (w, [Respond NoAnswersYet true])
    | subs =>
        let shuffled_messages := shuffle draws subs in
        let public_output := public_line <$> enumerate shuffled_messages in
        let admin_log :=
          (fun im => (Z.of_nat im.1 + 1, author_name i w im.2.1, im.2.2))
            <$> enumerate shuffled_messages in
        (set_submissions [] w,
         [Respond (AnonymousMessages public_output) false;
          Followup (AuthorMapping admin_log) true])
    end.

(** [SheetManager.load_config]; nothing is caught here. *)
Definition load_config (w : World) : result World :=
  let config := config_dict (config_sheet w) in
  mid ← read_id config "message_id";
  c ← read_id config "channel_id";
  current_round ← int (default "1" (config !! "current_round"));
  set_round current_round (set_id_options mid c w).

Definition roll_single (draws : list nat) (i : Interaction) (data : Data) : list RollEvent :=
  let player_name := user_display_name i in
  match first_match player_name
          (red_team data ++ blue_team data ++ green_team data ++ yellow_team data)%list with
  | Raise _ => [RollDefer; RollFollowup RollWentWrong true]
  | Ok None => [RollDefer; RollFollowup (CouldntFind player_name) true]
  | Ok (Some player_data) =>
      let '(min_roll, max_roll) := player_bounds player_data in
      match (rolled ← randint draws min_roll max_roll;
             t ← getitem (Player.Team player_data);
             mret (rolled, t)) with
      | Ok rt =>
          [RollDefer;
           RollFollowup (Rolled (mkRollLine player_name rt.1.1 min_roll max_roll) rt.2) false]
      | Raise _ => [RollDefer; RollFollowup RollWentWrong true]
      end
  end.

(** [roll_command]; a failure of [parse_data] reaches the [except]. *)
Definition roll_command (draws : list nat) (i : Interaction) (team : option string)
    (w : World) : list RollEvent :=
  match current_sheet w ≫= (fun n => worksheets w !! n) with
  | None => [RollDefer; RollFollowup RollWentWrong true]
  | Some rows =>
      match parse_data rows with
      | Raise _ => [RollDefer; RollFollowup RollWentWrong true]
      | Ok data =>
          if PyStr.truthy (default "" team) then roll_for_team false draws i (default "" team) data
          else roll_single draws i data
      end
  end.

End Old.


(** ** Vocabulary of the statements *)

(** The trimmed, lower-cased first cell both parsers inspect. *)
Definition first_cell_text (row : RawRow) : string :=
  PyStr.lower (PyStr.strip (hd "" row)).

(** The trimmed, lower-cased team cell, empty when the row has none. *)
Definition team_text (row : RawRow) : string :=
  PyStr.strip (PyStr.lower (nth 1 row "")).

Definition is_marker (first_cell : string) : bool :=
  PyStr.contains "red" first_cell && PyStr.contains "blue" first_cell
  || PyStr.contains "green" first_cell && PyStr.contains "yellow" first_cell
  || PyStr.contains "leaderboard" first_cell.

(** The two teams of a team-pair section. *)
Definition valid_teams (s : section) : list string :=
  match s with
  | red_blue => ["red"; "blue"]
  | green_yellow => ["green"; "yellow"]
  | in_leaderboard => []
  end.

Definition team_pair (s : section) : bool :=
  match s with in_leaderboard => false | _ => true end.

Definition initial : ParseState := (None, empty_data).

(** The players in combination order: red, blue, green, yellow, each in
    row order. *)
Definition players (data : Data) : list Player.t :=
  (red_team data ++ blue_team data ++ green_team data ++ yellow_team data)%list.

(** Closes [x ∉ l] on concrete strings by comparing with each element. *)
Ltac not_in_list :=
  let H := fresh in
  intros H;
  repeat (apply elem_of_cons in H as [H|H]; [by vm_compute in H|]);
  by apply elem_of_nil in H.

Definition alice : Player.t :=
  Player.mk (Some "Alice") (Some "red") (Some "10-20") (Some "5") (Some "").

Definition alice_entry : Entry.t :=
  Entry.mk (Some "1") (Some "red") (Some "Alice") (Some 30).

Definition alice_card : Card.t := Card.mk "Alice" "red" "10-20" "" 30 "5".

(** The rows as the scenario gives them: the marker text spread over two
    cells. *)
Definition scenario_rows : list RawRow :=
  [["RED TEAM"; "BLUE TEAM"]; ["Alice"; "red"; "10-20"; "5"; ""];
   ["LEADERBOARD"]; ["1"; "red"; "Alice"; "30"]].

(** The same rows with both team names in the first cell of the marker. *)
Definition scenario_rows_one_cell : list RawRow :=
  [["RED TEAM BLUE TEAM"]; ["Alice"; "red"; "10-20"; "5"; ""];
   ["LEADERBOARD"]; ["1"; "red"; "Alice"; "30"]].

(** Descending order of the keys. *)
Definition descending {A} (key : A -> Z) (l : list A) : Prop :=
  StronglySorted (fun a b => key b <= key a) l.

(** A points cell that passes the [isdigit] guard is a literal [int]
    reads: without the white space [int] skips it is made of decimal
    digits, at least one and at most [PyStr.max_str_digits]. *)
Definition decimal_points_cell (row : RawRow) : Prop :=
  forall c, row !! 3%nat = Some c ->
    PyStr.isdigit (PyStr.strip c) = true ->
    PyStr.int_strip c <> ""
    /\ PyStr.all_chars PyStr.isdecimal_char (PyStr.int_strip c) = true
    /\ (PyStr.count_digits (PyStr.int_strip c) <= PyStr.max_str_digits)%N.

(** The character [c] written [n] times before [tail]. *)
Fixpoint repeat_char (n : nat) (c : ascii) (tail : string) : string :=
  match n with
  | O => tail
  | S n' => String c (repeat_char n' c tail)
  end.

(** The file separator U+001C and the no-break space U+00A0. *)
Definition file_separator : ascii := ascii_of_N 28.
Definition no_break_space : ascii := ascii_of_N 160.

(** The superscript two, which [isdigit] accepts and [int] rejects. *)
Definition superscript_two : string := String (ascii_of_N 178) "".

Definition superscript_rows : list RawRow :=
  [["Red / Blue"]; ["Alice"; "red"; "10-20"; "5"];
   ["Leaderboard"]; ["1"; "red"; "Alice"; superscript_two]].

Definition with_roles (roles : list string) (i : Interaction) : Interaction :=
  mkInteraction (user_id i) roles (user_display_name i) (channel i) (guild_members i).

(** A user without any role and a bot that has not posted yet. *)
Definition guest : Interaction := mkInteraction 7 [] "Guest" 55 [].

Definition fresh_world : World :=
  mkWorld None None (Some 1) [] {[1 := scenario_rows_one_cell]} ∅ 1000 ∅ [].

(** A player record as the parsers build it for the list of [team]: all
    five keys present, the team of the list, a coin text that is not
    empty. *)
Definition player_ok (team : string) (p : Player.t) : Prop :=
  Player.Team p = Some team
  /\ is_Some (Player.Name p) /\ is_Some (Player.Roll p) /\ is_Some (Player.Status p)
  /\ exists coins, Player.Chaos_coins p = Some coins /\ coins <> "".

(** A leaderboard record as the parsers build it: all four keys present,
    points that are not negative. *)
Definition entry_ok (e : Entry.t) : Prop :=
  is_Some (Entry.Position e) /\ is_Some (Entry.Team e) /\ is_Some (Entry.Combatant e)
  /\ exists pts, Entry.Points e = Some pts /\ 0 <= pts.

Definition data_ok (d : Data) : Prop :=
  Forall (player_ok "red") (red_team d)
  /\ Forall (player_ok "blue") (blue_team d)
  /\ Forall (player_ok "green") (green_team d)
  /\ Forall (player_ok "yellow") (yellow_team d)
  /\ Forall entry_ok (leaderboard d).

(** The record that a team row of at least three cells stands for: name,
    roll and status are the trimmed first, third and fifth cells, the team
    is the trimmed lower-cased second cell, the coin text is the trimmed
    fourth cell, or "0" when that is empty; a missing cell counts as an
    empty one. *)
Definition player_from_row (row : RawRow) (p : Player.t) : Prop :=
  (3 <= length row)%nat
  /\ Player.Name p = Some (PyStr.strip (nth 0 row ""))
  /\ Player.Team p = Some (team_text row)
  /\ Player.Roll p = Some (PyStr.strip (nth 2 row ""))
  /\ Player.Chaos_coins p
     = Some (if String.eqb (PyStr.strip (nth 3 row "")) "" then "0"
             else PyStr.strip (nth 3 row ""))
  /\ Player.Status p = Some (PyStr.strip (nth 4 row "")).

(** The record that a leaderboard row of at least four cells stands for:
    the points are what [int] reads from the fourth cell when the trimmed
    cell is all digits, and 0 otherwise. *)
Definition entry_from_row (row : RawRow) (e : Entry.t) : Prop :=
  (4 <= length row)%nat
  /\ Entry.Position e = Some (PyStr.strip (nth 0 row ""))
  /\ Entry.Team e = Some (team_text row)
  /\ Entry.Combatant e = Some (PyStr.strip (nth 2 row ""))
  /\ exists pts, Entry.Points e = Some pts
       /\ (if PyStr.isdigit (PyStr.strip (nth 3 row ""))
           then PyStr.int (nth 3 row "") = Some pts else pts = 0).

(** One step of either loop adds at most one record, and that record stems
    from the row read. *)
Definition step_from_row (row : RawRow) (d d' : Data) : Prop :=
  (forall p, p ∈ players d' -> p ∈ players d \/ player_from_row row p)
  /\ (forall e, e ∈ leaderboard d' -> e ∈ leaderboard d \/ entry_from_row row e).

(** Every record of the roster stems from a row of the sheet. *)
Definition data_from_rows (rows : list RawRow) (d : Data) : Prop :=
  (forall p, p ∈ players d -> exists row, row ∈ rows /\ player_from_row row p)
  /\ (forall e, e ∈ leaderboard d -> exists row, row ∈ rows /\ entry_from_row row e).

(** Seventeen players "p1" to "p17" in the red team; the leaderboard gives
    "p17" nine points and "p1" five. *)
Definition numbered_player (n : nat) : Player.t :=
  Player.mk (Some ("p" ++ PyStr.str (Z.of_nat n))) (Some "red") (Some "1-6") (Some "0") (Some "").

Definition seventeen : Data :=
  mkData (numbered_player <$> seq 1 17) [] [] []
         [Entry.mk (Some "1") (Some "red") (Some "P17") (Some 9);
          Entry.mk (Some "2") (Some "red") (Some "p1") (Some 5)].

(** A row of at least three cells standing in a team-pair block names, if
    it names one of the four teams at all, a team of that block. *)
Definition names_team_of_block (cs : option section) (row : RawRow) : bool :=
  match cs with
  | Some s =>
      negb (team_pair s) || negb (3 <=? length row)%nat
      || negb (in_teams (team_text row))
      || existsb (String.eqb (team_text row)) (valid_teams s)
  | None => true
  end.

(** Every data row of the sheet names a team of its block, the blocks
    being opened by the markers as the parsers see them. *)
Fixpoint pair_consistent (cs : option section) (rows : list RawRow) : bool :=
  match rows with
  | [] => true
  | row :: rest =>
      match row with
      | [] => pair_consistent cs rest
      | _ =>
          match classify (first_cell_text row) with
          | Marker s => pair_consistent (Some s) rest
          | Header => pair_consistent cs rest
          | DataRow => names_team_of_block cs row && pair_consistent cs rest
          end
      end
  end.

(** The stored ids name a message of a channel that carries [file], and
    both ids are truthy. *)
Definition board_shows (file : Image) (w : World) : Prop :=
  exists mid c msgs,
    message_id w = Some mid /\ channel_id w = Some c
    /\ channels w !! c = Some msgs /\ msgs !! mid = Some file.

Definition ids_truthy (w : World) : Prop :=
  some_nonzero (message_id w) = true /\ some_nonzero (channel_id w) = true.

(** A reported roll lies within the bounds reported with it. *)
Definition line_within (l : RollLine) : Prop := rl_min l <= rl_result l <= rl_max l.

Definition rolls_within (ev : RollEvent) : Prop :=
  match ev with
  | RollFollowup (Rolled l _) _ => line_within l
  | RollFollowup (TeamRollResults _ _ results) _ => Forall line_within results
  | _ => True
  end.

(** The answer without the empty line after a team-roll header. *)
Definition without_blank_line (ev : RollEvent) : RollEvent :=
  match ev with
  | RollFollowup (TeamRollResults team _ results) ephemeral =>
      RollFollowup (TeamRollResults team false results) ephemeral
  | _ => ev
  end.

(** The two events of an answer: the deferral and one message. *)
Ltac roll_events :=
  apply Forall_cons_2; [exact I|];
  apply Forall_cons_2; [cbn [rolls_within]; try done | apply Forall_nil_2].

(** The number a string of decimal digits stands for, read from the left
    with [acc] as the value read so far. *)
Fixpoint uint_value (d : Decimal.uint) (acc : Z) : Z :=
  match d with
  | Decimal.Nil => acc
  | Decimal.D0 l => uint_value l (10 * acc + 0)
  | Decimal.D1 l => uint_value l (10 * acc + 1)
  | Decimal.D2 l => uint_value l (10 * acc + 2)
  | Decimal.D3 l => uint_value l (10 * acc + 3)
  | Decimal.D4 l => uint_value l (10 * acc + 4)
  | Decimal.D5 l => uint_value l (10 * acc + 5)
  | Decimal.D6 l => uint_value l (10 * acc + 6)
  | Decimal.D7 l => uint_value l (10 * acc + 7)
  | Decimal.D8 l => uint_value l (10 * acc + 8)
  | Decimal.D9 l => uint_value l (10 * acc + 9)
  end.

(** What the configuration dictionary holds under [key]: the value cell of
    the last row of at least two cells whose key cell reads [key]. *)
Definition config_get (key : string) (rows : list RawRow) : option string :=
  foldl (fun found row =>
           match row with
           | c0 :: c1 :: _ =>
               if decide (PyStr.lower (PyStr.strip c0) = key) then Some (PyStr.strip c1)
               else found
           | _ => found
           end) None rows.

(** At most one row of the sheet has [key] in its key cell. *)
Definition key_at_most_once (key : string) (rows : list RawRow) : Prop :=
  (length (filter (fun row => Old.key_matches key row = true) rows) <= 1)%nat.

(** The row puts [key] into the configuration dictionary: it has at least
    two cells and its key cell reads [key]. *)
Definition defines_key (key : string) (row : RawRow) : bool :=
  match row with
  | c0 :: _ :: _ => String.eqb (PyStr.lower (PyStr.strip c0)) key
  | _ => false
  end.

(** ** Sanity checks on the primitives *)

Example lower_ex : PyStr.lower "RED Team" = "red team".
Proof. reflexivity. Qed.
Example strip_ex : PyStr.strip "  a b  " = "a b".
Proof. reflexivity. Qed.
Example split_ex : PyStr.split "-" "50-75" = ["50"; "75"].
Proof. reflexivity. Qed.
Example split_ex2 : PyStr.split "-" "" = [""] /\ PyStr.split "-" "-5-" = [""; "5"; ""].
Proof. split; reflexivity. Qed.
Example int_ex : PyStr.int " 30 " = Some 30 /\ PyStr.int "1_0" = Some 10 /\ PyStr.int "" = None
  /\ PyStr.int "+7" = Some 7 /\ PyStr.int "1__0" = None /\ PyStr.int "bogus" = None.
Proof. repeat split; reflexivity. Qed.
(** [int] skips the no-break space and not the separators U+001C..U+001F,
    which [strip] removes; it reads a literal of 4300 digits and refuses one
    of 4301, leading zeros counted and underscores not. *)
Example int_space_ex :
  PyStr.strip (String "5" (String file_separator "")) = "5"
  /\ PyStr.int (String "5" (String file_separator "")) = None
  /\ PyStr.int (String file_separator "5") = None
  /\ PyStr.int (String no_break_space (String "5" (String no_break_space ""))) = Some 5
  /\ PyStr.int "- 5" = None /\ PyStr.int " -5 " = Some (-5).
Proof. repeat split; reflexivity. Qed.
Example int_limit_ex :
  PyStr.int (repeat_char 4300 "0" "") = Some 0
  /\ PyStr.int (repeat_char 4301 "0" "") = None
  /\ PyStr.int (String "-" (repeat_char 4300 "0" " ")) = Some 0
  /\ PyStr.int (repeat_char 4300 "0" "_0") = None.
Proof. repeat split; vm_compute; reflexivity. Qed.
Example str_ex : PyStr.str 42 = "42" /\ PyStr.str 0 = "0" /\ PyStr.str (-5) = "-5".
Proof. repeat split; reflexivity. Qed.
Example contains_ex : PyStr.contains "blue" "red team" = false /\ PyStr.contains "team" "red team" = true.
Proof. split; reflexivity. Qed.

(** ** The row loop *)

Lemma for_rows_app body (a b : list RawRow) st :
  for_rows body (a ++ b) st =
  match for_rows body a st with
  | Ok st' => for_rows body b st'
  | Raise e => Raise e
  end.
Proof.
  revert st. induction a as [|row a IH]; intros st; simpl; [done|].
  destruct (body st row); [apply IH | done].
Qed.

(** A row on which the body changes nothing can be removed. *)
Lemma for_rows_skip body (pre post : list RawRow) row st0 :
  (forall st, for_rows body pre st0 = Ok st -> body st row = Ok st) ->
  for_rows body (pre ++ row :: post) st0 = for_rows body (pre ++ post) st0.
Proof.
  intros Hrow. rewrite !for_rows_app.
  destruct (for_rows body pre st0) as [st|e] eqn:Hpre; [|done].
  simpl. by rewrite (Hrow st).
Qed.

Lemma classify_header fc :
  is_marker fc = false -> is_header fc = true -> classify fc = Header.
Proof.
  unfold is_marker, classify. intros Hm Hh.
  destruct (PyStr.contains "red" fc && PyStr.contains "blue" fc); [done|].
  destruct (PyStr.contains "green" fc && PyStr.contains "yellow" fc); [done|].
  destruct (PyStr.contains "leaderboard" fc); [done|].
  by rewrite Hh.
Qed.

Lemma classify_data fc :
  is_marker fc = false -> is_header fc = false -> classify fc = DataRow.
Proof.
  unfold is_marker, classify. intros Hm Hh.
  destruct (PyStr.contains "red" fc && PyStr.contains "blue" fc); [done|].
  destruct (PyStr.contains "green" fc && PyStr.contains "yellow" fc); [done|].
  destruct (PyStr.contains "leaderboard" fc); [done|].
  by rewrite Hh.
Qed.

Lemma Script_first_cell row :
  row <> [] -> Script.first_cell row = Ok (first_cell_text row).
Proof.
  destruct row as [|c row]; [done|]. intros _.
  unfold Script.first_cell, first_cell_text. simpl.
  by destruct c.
Qed.

Lemma Script_body_header st row :
  row <> [] -> is_marker (first_cell_text row) = false ->
  is_header (first_cell_text row) = true ->
  Script.body st row = Ok st.
Proof.
  intros Hne Hm Hh. destruct st as [cs data]. unfold Script.body.
  destruct row as [|c row]; [done|].
  rewrite Script_first_cell by done. simpl.
  by rewrite (classify_header _ Hm Hh).
Qed.

Lemma Old_body_header st row :
  row <> [] -> is_marker (first_cell_text row) = false ->
  is_header (first_cell_text row) = true ->
  Old.body st row = Ok st.
Proof.
  intros Hne Hm Hh. destruct st as [cs data]. unfold Old.body.
  destruct row as [|c row]; [done|]. simpl.
  unfold first_cell_text in *. simpl in *.
  by rewrite (classify_header _ Hm Hh).
Qed.

(** C10. A non-empty row whose trimmed, lower-cased first cell contains
    "team", "position" or "name" and is no section marker is skipped as a
    header by both parsers: the parse result is the one of the input
    without that row, whatever the row's other cells hold. *)
Theorem header_row_produces_no_record (pre post : list RawRow) (row : RawRow) :
  row <> [] ->
  is_marker (first_cell_text row) = false ->
  is_header (first_cell_text row) = true ->
  Script.parse_sheet_data (pre ++ row :: post) = Script.parse_sheet_data (pre ++ post)
  /\ Old.parse_data (pre ++ row :: post) = Old.parse_data (pre ++ post).
Proof.
  intros Hne Hm Hh. split.
  - unfold Script.parse_sheet_data, Script.parse_try.
    rewrite (for_rows_skip Script.body pre post row); [done|].
    intros st _. by apply Script_body_header.
  - unfold Old.parse_data.
    rewrite (for_rows_skip Old.body pre post row); [done|].
    intros st _. by apply Old_body_header.
Qed.

(** The player named "Teamster" is dropped from the roster. *)
Lemma teamster_row_dropped :
  let row := ["Teamster"; "red"; "1-6"] in
  (row <> [] /\ is_marker (first_cell_text row) = false /\ is_header (first_cell_text row) = true)
  /\ Script.parse_sheet_data [["Red / Blue"]; row] = Script.parse_sheet_data [["Red / Blue"]]
  /\ Old.parse_data [["Red / Blue"]; row] = Old.parse_data [["Red / Blue"]].
Proof.
  intros row. split; [repeat split; done|].
  apply (header_row_produces_no_record [["Red / Blue"]] [] row); [done | reflexivity | reflexivity].
Defined.

(** ** Rows of a team-pair block *)

Lemma Script_team_cell row : Script.team_cell row = Ok (team_text row).
Proof.
  unfold Script.team_cell, team_text.
  destruct row as [|a [|b row]]; reflexivity.
Qed.

Lemma Script_player_data_ok row team :
  (3 <= length row)%nat -> exists p, Script.player_data row team = Ok p.
Proof.
  intros Hlen.
  destruct row as [|a [|b [|c [|d [|e rest]]]]]; simpl in Hlen; try lia;
    by eexists.
Qed.

Lemma not_elem_eqb (x : string) (l : list string) :
  x ∉ l -> forall y, y ∈ l -> String.eqb x y = false.
Proof.
  intros Hx y Hy. apply String.eqb_neq. intros ->. by apply Hx.
Qed.

Lemma Script_body_excluded s d row :
  team_pair s = true -> row <> [] ->
  is_marker (first_cell_text row) = false ->
  is_header (first_cell_text row) = false ->
  team_text row ∉ valid_teams s ->
  Script.body (Some s, d) row = Ok (Some s, d).
Proof.
  intros Hs Hne Hm Hh Hteam. unfold Script.body.
  destruct row as [|c0 row0] eqn:Hrow; [done|]. rewrite <- Hrow in *.
  rewrite Script_first_cell by (by rewrite Hrow).
  cbn [mbind result_bind]. rewrite (classify_data _ Hm Hh).
  destruct (3 <=? length row)%nat eqn:Hlen.
  - pose proof (proj1 (Nat.leb_le _ _) Hlen) as Hlen'.
    destruct (Script_player_data_ok row (team_text row) Hlen') as [p Hp].
    rewrite Script_team_cell. cbn [mbind result_bind]. rewrite Hp.
    destruct s; cbn [section_is andb mbind result_bind]; try done;
      rewrite !(not_elem_eqb _ _ Hteam) by (cbn [valid_teams]; set_solver); done.
  - rewrite !andb_false_r.
    destruct (4 <=? length row)%nat eqn:Hlen4; [|by rewrite andb_false_r].
    apply Nat.leb_le in Hlen4. apply Nat.leb_gt in Hlen. lia.
Qed.

Lemma Old_body_excluded s d row :
  team_pair s = true -> row <> [] ->
  is_marker (first_cell_text row) = false ->
  is_header (first_cell_text row) = false ->
  team_text row ∉ TEAMS ->
  Old.body (Some s, d) row = Ok (Some s, d).
Proof.
  intros Hs Hne Hm Hh Hteam. unfold Old.body.
  destruct row as [|c0 row0] eqn:Hrow; [done|]. rewrite <- Hrow in *.
  assert (item row 0 = Ok c0) as -> by (by rewrite Hrow).
  cbn [mbind result_bind].
  assert (PyStr.lower (PyStr.strip c0) = first_cell_text row) as ->
    by (by rewrite Hrow).
  rewrite (classify_data _ Hm Hh).
  destruct (3 <=? length row)%nat eqn:Hlen.
  - pose proof (proj1 (Nat.leb_le _ _) Hlen) as Hlen'.
    assert (exists c1, item row 1 = Ok c1 /\ PyStr.strip (PyStr.lower c1) = team_text row)
      as (c1 & -> & Hc1).
    { destruct row as [|a [|b r]]; simpl in Hlen'; try lia. by eexists. }
    assert (Old.in_TEAMS (team_text row) = false) as Hin.
    { unfold Old.in_TEAMS, TEAMS. cbn [existsb].
      rewrite !(not_elem_eqb _ _ Hteam) by (unfold TEAMS; set_solver). done. }
    cbn [mbind result_bind]. rewrite Hc1, Hin.
    by destruct s.
  - rewrite !andb_false_r.
    destruct (4 <=? length row)%nat eqn:Hlen4; [|by rewrite andb_false_r].
    apply Nat.leb_le in Hlen4. apply Nat.leb_gt in Hlen. lia.
Qed.

(** In old.py a data row of at least three cells met in a team-pair block
    is appended to the list of the team its team cell names, whichever of
    the four teams that is. *)
Lemma Old_body_appended s d row :
  team_pair s = true ->
  is_marker (first_cell_text row) = false ->
  is_header (first_cell_text row) = false ->
  (3 <= length row)%nat ->
  team_text row ∈ TEAMS ->
  exists p d',
    Old.body (Some s, d) row = Ok (Some s, d')
    /\ Player.Name p = Some (PyStr.strip (hd "" row))
    /\ Player.Team p = Some (team_text row)
    /\ team_list d' (team_text row) = (team_list d (team_text row) ++ [p])%list
    /\ (forall t, t <> team_text row -> team_list d' t = team_list d t)
    /\ leaderboard d' = leaderboard d.
Proof.
  intros Hs Hm Hh Hlen Hteam. unfold Old.body.
  destruct row as [|c0 [|c1 [|c2 rest]]] eqn:Hrow; simpl in Hlen; try lia.
  rewrite <- Hrow in *.
  assert (item row 0 = Ok c0) as -> by (by rewrite Hrow).
  assert (item row 1 = Ok c1) as -> by (by rewrite Hrow).
  cbn [mbind result_bind].
  assert (PyStr.lower (PyStr.strip c0) = first_cell_text row) as -> by (by rewrite Hrow).
  assert (PyStr.strip (PyStr.lower c1) = team_text row) as Hc1 by (by rewrite Hrow).
  assert (hd "" row = c0) as -> by (by rewrite Hrow).
  rewrite (classify_data _ Hm Hh), Hc1.
  assert ((section_is (Some s) red_blue || section_is (Some s) green_yellow)
          && (3 <=? length row)%nat = true) as ->.
  { assert ((3 <=? length row)%nat = true) as -> by (by rewrite Hrow).
    by destruct s. }
  assert (exists p, Old.player_data row (team_text row) = Ok p
                    /\ Player.Name p = Some (PyStr.strip c0)
                    /\ Player.Team p = Some (team_text row)) as (p & -> & Hname & Hpt).
  { unfold Old.player_data. rewrite Hrow.
    destruct rest as [|c3 [|c4 rest']]; by eexists. }
  cbn [mbind result_bind]. exists p.
  unfold TEAMS in Hteam.
  repeat (apply elem_of_cons in Hteam as [Hteam|Hteam]);
    [| | | |by apply elem_of_nil in Hteam];
    rewrite Hteam in *;
    [exists (append_red p d) | exists (append_blue p d)
     | exists (append_green p d) | exists (append_yellow p d)];
    (split; [reflexivity|]); (split; [done|]); (split; [done|]);
    (split; [reflexivity|]); (split; [|reflexivity]);
    intros t Hne; unfold team_list; cbn [red_team blue_team green_team yellow_team
                                          append_red append_blue append_green append_yellow];
    repeat (match goal with
            | |- context [String.eqb t ?x] => destruct (String.eqb_spec t x) as [->|_]
            end; [done|]); done.
Qed.

(** C2, as the two files have it.  A data row met in a team-pair block is
    excluded from all four team lists (the parse result is the one of the
    input without the row) when, in script.py, its trimmed, lower-cased
    team cell is not one of the two teams of that block and, in old.py,
    when it is none of the four team names.  In old.py a row of at least
    three cells whose team cell names one of the four teams, be it a team
    of the other pair, is appended to the list of that team and to no
    other list. *)
Theorem foreign_team_row_excluded (pre post : list RawRow) (row : RawRow)
    (s : section) (d : Data) :
  team_pair s = true ->
  row <> [] ->
  is_marker (first_cell_text row) = false ->
  is_header (first_cell_text row) = false ->
  (for_rows Script.body pre initial = Ok (Some s, d) ->
   team_text row ∉ valid_teams s ->
   Script.parse_sheet_data (pre ++ row :: post) = Script.parse_sheet_data (pre ++ post))
  /\ (for_rows Old.body pre initial = Ok (Some s, d) ->
      team_text row ∉ TEAMS ->
      Old.parse_data (pre ++ row :: post) = Old.parse_data (pre ++ post))
  /\ (for_rows Old.body pre initial = Ok (Some s, d) ->
      (3 <= length row)%nat ->
      team_text row ∈ TEAMS ->
      exists p d',
        Old.parse_data (pre ++ [row]) = Ok d'
        /\ Player.Name p = Some (PyStr.strip (hd "" row))
        /\ Player.Team p = Some (team_text row)
        /\ team_list d' (team_text row) = (team_list d (team_text row) ++ [p])%list
        /\ (forall t, t <> team_text row -> team_list d' t = team_list d t)
        /\ leaderboard d' = leaderboard d).
Proof.
  intros Hs Hne Hm Hh. split; [|split]; intros Hpre Hteam.
  - unfold Script.parse_sheet_data, Script.parse_try.
    rewrite (for_rows_skip Script.body pre post row); [done|].
    fold initial. intros st Hst. rewrite Hpre in Hst. injection Hst as <-.
    by apply Script_body_excluded.
  - unfold Old.parse_data.
    rewrite (for_rows_skip Old.body pre post row); [done|].
    fold initial. intros st Hst. rewrite Hpre in Hst. injection Hst as <-.
    by apply Old_body_excluded.
  - intros Hin.
    destruct (Old_body_appended s d row Hs Hm Hh Hteam Hin) as (p & d' & Hbody & Hrest).
    exists p, d'. split; [|exact Hrest].
    unfold Old.parse_data. fold initial. rewrite for_rows_app, Hpre.
    cbn [for_rows]. by rewrite Hbody.
Qed.

Lemma foreign_team_row_excluded_witness :
  let pre := [["Red / Blue"]; ["Alice"; "red"; "10-20"]] in
  let row := ["Mallory"; "purple"; "1-6"] in
  (Script.parse_sheet_data (pre ++ row :: [["Bob"; "blue"; "2-4"]])
     = Script.parse_sheet_data (pre ++ [["Bob"; "blue"; "2-4"]])
   /\ Old.parse_data (pre ++ row :: [["Bob"; "blue"; "2-4"]])
     = Old.parse_data (pre ++ [["Bob"; "blue"; "2-4"]]))
  /\ exists p d',
       Old.parse_data (pre ++ [["Gil"; " Green"; "1-6"]]) = Ok d'
       /\ Player.Name p = Some "Gil" /\ Player.Team p = Some "green"
       /\ green_team d' = [p].
Proof.
  intros pre row.
  pose (d := append_red (Player.mk (Some "Alice") (Some "red") (Some "10-20") (Some "0") (Some ""))
                        empty_data).
  split.
  - destruct (foreign_team_row_excluded pre [["Bob"; "blue"; "2-4"]] row red_blue d)
      as (HS & HO & _); [reflexivity | done | reflexivity | reflexivity |].
    split.
    + apply HS; [reflexivity|]. not_in_list.
    + apply HO; [reflexivity|]. not_in_list.
  - destruct (foreign_team_row_excluded pre [] ["Gil"; " Green"; "1-6"] red_blue d)
      as (_ & _ & HA); [reflexivity | done | reflexivity | reflexivity |].
    destruct HA as (p & d' & Hparse & Hname & Hteam & Hlist & _);
      [reflexivity | simpl; lia | vm_compute; right; right; left |].
    exists p, d'. split; [exact Hparse|]. split; [exact Hname|]. split; [exact Hteam|].
    exact Hlist.
Defined.

(** In old.py a row of the red/blue block whose team cell names a team of
    the other pair is appended to that team's list. *)
Lemma other_pair_row_kept_by_old :
  let pre := [["Red / Blue"]] in
  let row := ["Bob"; "green"; "1-6"] in
  (for_rows Old.body pre initial = Ok (Some red_blue, empty_data)
   /\ row <> []
   /\ is_marker (first_cell_text row) = false
   /\ is_header (first_cell_text row) = false
   /\ team_text row ∉ valid_teams red_blue)
  /\ Old.parse_data (pre ++ [row])
     = Ok (append_green (Player.mk (Some "Bob") (Some "green") (Some "1-6") (Some "0") (Some ""))
                        empty_data)
  /\ Old.parse_data (pre ++ [row]) <> Old.parse_data pre.
Proof.
  intros pre row. split; [|split].
  - repeat split; try done. not_in_list.
  - reflexivity.
  - vm_compute. discriminate.
Qed.

(** ** The four-row scenario *)

(** On the scenario's rows neither parser puts Alice in the red team list:
    the first cell "RED TEAM" names one team only, so the row counts as a
    header and no section is open when Alice's row is read. *)
Lemma scenario_two_cell_marker_fails :
  ~ (red_team (Script.parse_sheet_data scenario_rows) = [alice]
     /\ leaderboard (Script.parse_sheet_data scenario_rows) = [alice_entry]
     /\ Script.generate_scoreboard_image (Script.parse_sheet_data scenario_rows)
        = [(1, alice_card)])
  /\ ~ (exists data, Old.parse_data scenario_rows = Ok data
        /\ red_team data = [alice]
        /\ leaderboard data = [alice_entry]
        /\ Old.generate_scoreboard data = [(1, alice_card)]).
Proof.
  split.
  - intros [H _]. vm_compute in H. discriminate.
  - intros (data & Hd & H & _). vm_compute in Hd. injection Hd as <-.
    vm_compute in H. discriminate.
Qed.

(** C1, amended.  With both team names in the first cell of the marker row
    the four rows parse into the red team list [alice] and the leaderboard
    list [alice_entry], and composing yields one card, for Alice, with 30
    points at position 1.  With the marker spread over two cells the red
    team list stays empty, the leaderboard list is the same, and composing
    yields no card. *)
Theorem scenario_parse_and_compose :
  (Script.parse_sheet_data scenario_rows_one_cell = mkData [alice] [] [] [] [alice_entry]
   /\ Old.parse_data scenario_rows_one_cell = Ok (mkData [alice] [] [] [] [alice_entry])
   /\ Script.generate_scoreboard_image (mkData [alice] [] [] [] [alice_entry]) = [(1, alice_card)]
   /\ Old.generate_scoreboard (mkData [alice] [] [] [] [alice_entry]) = [(1, alice_card)])
  /\ (Script.parse_sheet_data scenario_rows = mkData [] [] [] [] [alice_entry]
      /\ Old.parse_data scenario_rows = Ok (mkData [] [] [] [] [alice_entry])
      /\ Script.generate_scoreboard_image (mkData [] [] [] [] [alice_entry]) = []
      /\ Old.generate_scoreboard (mkData [] [] [] [] [alice_entry]) = []).
Proof.
  repeat split; vm_compute; reflexivity.
Qed.

(** ** The stable sort *)

Section StableSortFacts.
Context {A : Type} (key : A -> Z).

Lemma insert_desc_perm x l : insert_desc key x l ≡ₚ x :: l.
Proof.
  induction l as [|y l IH]; simpl; [done|].
  destruct (key x <? key y); [|done].
  rewrite IH. apply Permutation_swap.
Qed.

Lemma sort_desc_perm l : sort_desc key l ≡ₚ l.
Proof.
  induction l as [|x l IH]; simpl; [done|].
  by rewrite insert_desc_perm, IH.
Qed.

Lemma length_sort_desc l : length (sort_desc key l) = length l.
Proof. by rewrite sort_desc_perm. Qed.

Lemma insert_desc_descending x l :
  descending key l -> descending key (insert_desc key x l).
Proof.
  unfold descending. induction 1 as [|y l Hl IH Hy]; simpl.
  - by repeat constructor.
  - destruct (key x <? key y) eqn:Hxy.
    + apply Z.ltb_lt in Hxy. constructor; [done|].
      rewrite insert_desc_perm. constructor; [lia | done].
    + apply Z.ltb_ge in Hxy. constructor; [by constructor|].
      constructor; [done|].
      eapply Forall_impl; [exact Hy|]. simpl. intros z Hz. lia.
Qed.

Lemma sort_desc_descending l : descending key (sort_desc key l).
Proof.
  induction l as [|x l IH]; simpl; [constructor|].
  by apply insert_desc_descending.
Qed.

Lemma descending_take n l : descending key l -> descending key (take n l).
Proof.
  unfold descending. intros Hl. rewrite <- (take_drop n l) in Hl.
  by apply StronglySorted_app_1_l in Hl.
Qed.

(** Stability: the elements of one key keep their order. *)
Lemma insert_desc_stable k x l :
  filter (fun a => key a = k) (insert_desc key x l)
  = filter (fun a => key a = k) (x :: l).
Proof.
  induction l as [|y l IH]; simpl; [done|].
  destruct (key x <? key y) eqn:Hxy; [|done].
  apply Z.ltb_lt in Hxy.
  rewrite (filter_cons _ y), IH, !(filter_cons _ x), (filter_cons _ y).
  repeat case_decide; try done; lia.
Qed.

Lemma sort_desc_stable k l :
  filter (fun a => key a = k) (sort_desc key l) = filter (fun a => key a = k) l.
Proof.
  induction l as [|x l IH]; simpl; [done|].
  rewrite insert_desc_stable, !(filter_cons _ x), IH. done.
Qed.
End StableSortFacts.

(** ** The cards drawn *)

Lemma draw_cards_cards players : (snd <$> draw_cards players) = take 16 players.
Proof.
  unfold draw_cards, enumerate. apply list_eq. intros i.
  rewrite !list_lookup_fmap, list_lookup_imap.
  by destruct (take 16 players !! i).
Qed.

Lemma length_draw_cards players :
  length (draw_cards players) = (length players `min` 16)%nat.
Proof.
  unfold draw_cards, enumerate.
  rewrite length_fmap, length_imap, length_take. lia.
Qed.

Lemma draw_cards_positions players :
  (fst <$> draw_cards players) = Z.of_nat <$> seq 1 (length (draw_cards players)).
Proof.
  rewrite length_draw_cards.
  unfold draw_cards, enumerate. apply list_eq. intros i.
  rewrite !list_lookup_fmap, list_lookup_imap.
  destruct (take 16 players !! i) as [c|] eqn:Hi; simpl.
  - apply lookup_lt_Some in Hi. rewrite length_take in Hi.
    rewrite lookup_seq_lt by lia. simpl. f_equal. lia.
  - apply lookup_ge_None in Hi. rewrite length_take in Hi.
    rewrite lookup_seq_ge by lia. done.
Qed.

Lemma draw_sorted_descending (cards : list Card.t) :
  descending Card.points (snd <$> draw_cards (sort_desc Card.points cards)).
Proof.
  rewrite draw_cards_cards. apply descending_take, sort_desc_descending.
Qed.

Lemma draw_sorted_stable (cards : list Card.t) p :
  filter (fun c => Card.points c = p) (snd <$> draw_cards (sort_desc Card.points cards))
  `prefix_of` filter (fun c => Card.points c = p) cards.
Proof.
  rewrite draw_cards_cards, <- (sort_desc_stable Card.points p cards).
  set (sorted := sort_desc Card.points cards).
  rewrite <- (take_drop 16 sorted) at 2. rewrite filter_app.
  by apply prefix_app_r.
Qed.

(** C4. The cards of the scoreboard are in descending order of points,
    and for every points value the cards with that value are an initial
    part, in the same order, of the cards with that value in combination
    order (red, blue, green, yellow, each in row order): the sort is
    stable.  Both files. *)
Theorem scoreboard_sorted_and_stable (data : Data) :
  (descending Card.points (snd <$> Script.generate_scoreboard_image data)
   /\ forall p,
       filter (fun c => Card.points c = p) (snd <$> Script.generate_scoreboard_image data)
       `prefix_of`
       filter (fun c => Card.points c = p)
         (Script.card (Script.leaderboard_dict (leaderboard data)) <$> players data))
  /\ (descending Card.points (snd <$> Old.generate_scoreboard data)
      /\ forall p,
          filter (fun c => Card.points c = p) (snd <$> Old.generate_scoreboard data)
          `prefix_of`
          filter (fun c => Card.points c = p)
            (Old.card (Old.leaderboard_dict (leaderboard data)) <$> players data)).
Proof.
  split; (split; [apply draw_sorted_descending | intros p; apply draw_sorted_stable]).
Qed.

(** C5. The scoreboard holds min(total players, 16) cards, they are the
    first 16 of the sorted sequence and nothing else, and the positions
    written on them are 1, 2, ... in drawing order, whatever the
    leaderboard's Position cells hold.  Both files. *)
Theorem scoreboard_length_and_positions (data : Data) :
  (length (Script.generate_scoreboard_image data) = (length (players data) `min` 16)%nat
   /\ (snd <$> Script.generate_scoreboard_image data)
      = take 16 (sort_desc Card.points (Script.all_players data))
   /\ (fst <$> Script.generate_scoreboard_image data)
      = Z.of_nat <$> seq 1 (length (Script.generate_scoreboard_image data)))
  /\ (length (Old.generate_scoreboard data) = (length (players data) `min` 16)%nat
      /\ (snd <$> Old.generate_scoreboard data)
         = take 16 (sort_desc Card.points (Old.all_players data))
      /\ (fst <$> Old.generate_scoreboard data)
         = Z.of_nat <$> seq 1 (length (Old.generate_scoreboard data))).
Proof.
  split; (split; [|split; [apply draw_cards_cards | apply draw_cards_positions]]).
  - unfold Script.generate_scoreboard_image, Script.all_players.
    by rewrite length_draw_cards, length_sort_desc, length_fmap.
  - unfold Old.generate_scoreboard, Old.all_players.
    by rewrite length_draw_cards, length_sort_desc, length_fmap.
Qed.

(** ** Points by lower-cased name *)

Section LeaderboardDict.
Context (standing : Entry.t -> Standing).

Let put (d : gmap string Standing) (p : Entry.t) : gmap string Standing :=
  match Entry.Combatant p with
  | Some c => <[PyStr.lower c := standing p]> d
  | None => d
  end.

Lemma dict_no_later_match entries d key :
  (forall e c, e ∈ entries -> Entry.Combatant e = Some c -> PyStr.lower c <> key) ->
  foldl put d entries !! key = d !! key.
Proof.
  revert d. induction entries as [|e entries IH]; intros d Hno; simpl; [done|].
  rewrite IH by (intros e' c' He'; apply Hno; by right).
  unfold put. destruct (Entry.Combatant e) as [c|] eqn:Hc; [|done].
  apply lookup_insert_ne. apply (Hno e c); [by left | done].
Qed.

(** Last write wins: the entry that counts for a key is the last one
    whose combatant lower-cases to it. *)
Lemma dict_last_match l1 e l2 c d :
  Entry.Combatant e = Some c ->
  (forall e' c', e' ∈ l2 -> Entry.Combatant e' = Some c' -> PyStr.lower c' <> PyStr.lower c) ->
  foldl put d (l1 ++ e :: l2) !! PyStr.lower c = Some (standing e).
Proof.
  intros Hc Hno. rewrite foldl_app. simpl.
  rewrite dict_no_later_match by done.
  unfold put at 1. rewrite Hc. apply lookup_insert_eq.
Qed.
End LeaderboardDict.

Lemma Script_card_of_image data c :
  c ∈ (snd <$> Script.generate_scoreboard_image data) ->
  exists player, player ∈ players data
    /\ c = Script.card (Script.leaderboard_dict (leaderboard data)) player.
Proof.
  unfold Script.generate_scoreboard_image. rewrite draw_cards_cards.
  intros Hc. apply subseteq_take in Hc. rewrite sort_desc_perm in Hc.
  apply list_elem_of_fmap in Hc as (player & -> & Hp). by exists player.
Qed.

Lemma Old_card_of_image data c :
  c ∈ (snd <$> Old.generate_scoreboard data) ->
  exists player, player ∈ players data
    /\ c = Old.card (Old.leaderboard_dict (leaderboard data)) player.
Proof.
  unfold Old.generate_scoreboard. rewrite draw_cards_cards.
  intros Hc. apply subseteq_take in Hc. rewrite sort_desc_perm in Hc.
  apply list_elem_of_fmap in Hc as (player & -> & Hp). by exists player.
Qed.

(** With at most 16 players every player's card is on the scoreboard. *)
Lemma Script_card_in_image data player :
  (length (players data) <= 16)%nat -> player ∈ players data ->
  Script.card (Script.leaderboard_dict (leaderboard data)) player
    ∈ (snd <$> Script.generate_scoreboard_image data).
Proof.
  intros Hlen Hp. unfold Script.generate_scoreboard_image.
  rewrite draw_cards_cards, take_ge.
  - rewrite sort_desc_perm. by apply list_elem_of_fmap_2.
  - unfold Script.all_players. by rewrite length_sort_desc, length_fmap.
Qed.

Lemma Old_card_in_image data player :
  (length (players data) <= 16)%nat -> player ∈ players data ->
  Old.card (Old.leaderboard_dict (leaderboard data)) player
    ∈ (snd <$> Old.generate_scoreboard data).
Proof.
  intros Hlen Hp. unfold Old.generate_scoreboard.
  rewrite draw_cards_cards, take_ge.
  - rewrite sort_desc_perm. by apply list_elem_of_fmap_2.
  - unfold Old.all_players. by rewrite length_sort_desc, length_fmap.
Qed.

Lemma name_of_card_ANN (name : option string) :
  default "Unknown" name = "ANN" -> name = Some "ANN".
Proof. destruct name; simpl; [congruence | discriminate]. Qed.

(** A later leaderboard row for the same name, whatever its case,
    overwrites the 42 points of "Ann". *)
Lemma ann_overwritten_by_later_entry :
  let ann := Player.mk (Some "ANN") (Some "red") (Some "1-6") (Some "0") (Some "") in
  let data :=
    mkData [ann] [] [] []
           [Entry.mk (Some "1") (Some "red") (Some "Ann") (Some 42);
            Entry.mk (Some "2") (Some "red") (Some "ANN") (Some 7)] in
  Entry.mk (Some "1") (Some "red") (Some "Ann") (Some 42) ∈ leaderboard data
  /\ ann ∈ red_team data
  /\ Script.generate_scoreboard_image data = [(1, Card.mk "ANN" "red" "1-6" "" 7 "0")]
  /\ Old.generate_scoreboard data = [(1, Card.mk "ANN" "red" "1-6" "" 7 "0")].
Proof.
  intros ann data. split; [left|]. split; [left|].
  split; vm_compute; reflexivity.
Qed.

(** C6, amended.  Points are looked up by lower-cased name, the last
    leaderboard entry for a name winning.  When the last entry whose
    combatant lower-cases to "ann" is "Ann" with 42 points, every card on
    the scoreboard named "ANN" has 42 points, and with at most 16 players
    every player named "ANN" has such a card.  A player whose lower-cased
    name is no entry's lower-cased combatant gets 0 points.  Both files. *)
Theorem points_resolved_by_lowercased_name (data : Data) :
  (forall (l1 : list Entry.t) (e : Entry.t) (l2 : list Entry.t),
      leaderboard data = (l1 ++ e :: l2)%list ->
      Entry.Combatant e = Some "Ann" ->
      Entry.Points e = Some 42 ->
      (forall e' c', e' ∈ l2 -> Entry.Combatant e' = Some c' -> PyStr.lower c' <> "ann") ->
      (forall c, c ∈ (snd <$> Script.generate_scoreboard_image data) ->
                 Card.name c = "ANN" -> Card.points c = 42)
      /\ (forall c, c ∈ (snd <$> Old.generate_scoreboard data) ->
                    Card.name c = "ANN" -> Card.points c = 42)
      /\ (forall player,
             (length (players data) <= 16)%nat ->
             player ∈ players data -> Player.Name player = Some "ANN" ->
             (exists c, c ∈ (snd <$> Script.generate_scoreboard_image data)
                        /\ Card.name c = "ANN" /\ Card.points c = 42)
             /\ (exists c, c ∈ (snd <$> Old.generate_scoreboard data)
                           /\ Card.name c = "ANN" /\ Card.points c = 42)))
  /\ (forall player,
         player ∈ players data ->
         (forall e c, e ∈ leaderboard data -> Entry.Combatant e = Some c ->
                      PyStr.lower c <> PyStr.lower (default "" (Player.Name player))) ->
         Card.points (Script.card (Script.leaderboard_dict (leaderboard data)) player) = 0
         /\ Card.points (Old.card (Old.leaderboard_dict (leaderboard data)) player) = 0).
Proof.
  split.
  - intros l1 e l2 Hlb Hc Hpts Hno.
    assert (forall player, Player.Name player = Some "ANN" ->
              Card.points (Script.card (Script.leaderboard_dict (leaderboard data)) player) = 42)
      as HS.
    { intros player Hn. unfold Script.card, Script.leaderboard_dict. simpl.
      rewrite Hn, Hlb. change (PyStr.lower (default "" (Some "ANN"))) with (PyStr.lower "Ann").
      rewrite (dict_last_match Script.standing l1 e l2 "Ann") by done.
      unfold Script.standing. by rewrite Hpts. }
    assert (forall player, Player.Name player = Some "ANN" ->
              Card.points (Old.card (Old.leaderboard_dict (leaderboard data)) player) = 42)
      as HO.
    { intros player Hn. unfold Old.card, Old.leaderboard_dict. simpl.
      rewrite Hn, Hlb. change (PyStr.lower (default "" (Some "ANN"))) with (PyStr.lower "Ann").
      rewrite (dict_last_match Old.standing l1 e l2 "Ann") by done.
      unfold Old.standing. by rewrite Hpts. }
    split; [|split].
    + intros c Hin Hname. apply Script_card_of_image in Hin as (player & _ & ->).
      apply HS. by apply name_of_card_ANN.
    + intros c Hin Hname. apply Old_card_of_image in Hin as (player & _ & ->).
      apply HO. by apply name_of_card_ANN.
    + intros player Hlen Hin Hname. split.
      * exists (Script.card (Script.leaderboard_dict (leaderboard data)) player).
        split; [by apply Script_card_in_image|]. split; [|by apply HS].
        simpl. by rewrite Hname.
      * exists (Old.card (Old.leaderboard_dict (leaderboard data)) player).
        split; [by apply Old_card_in_image|]. split; [|by apply HO].
        simpl. by rewrite Hname.
  - intros player Hin Hno. split.
    + unfold Script.card, Script.leaderboard_dict. simpl.
      by rewrite (dict_no_later_match Script.standing) by done.
    + unfold Old.card, Old.leaderboard_dict. simpl.
      by rewrite (dict_no_later_match Old.standing) by done.
Qed.

Lemma points_resolved_by_lowercased_name_witness :
  let ann := Player.mk (Some "ANN") (Some "red") (Some "1-6") (Some "0") (Some "") in
  let data := mkData [ann] [] [] [] [Entry.mk (Some "1") (Some "red") (Some "Ann") (Some 42)] in
  (exists c, c ∈ (snd <$> Script.generate_scoreboard_image data)
             /\ Card.name c = "ANN" /\ Card.points c = 42)
  /\ (exists c, c ∈ (snd <$> Old.generate_scoreboard data)
                /\ Card.name c = "ANN" /\ Card.points c = 42).
Proof.
  intros ann data.
  destruct (points_resolved_by_lowercased_name data) as [H _].
  destruct (H [] (Entry.mk (Some "1") (Some "red") (Some "Ann") (Some 42)) [])
    as (_ & _ & H3);
    [reflexivity | reflexivity | reflexivity
     | intros e' c' Hin; by apply elem_of_nil in Hin |].
  apply (H3 ann); [simpl; lia | left | reflexivity].
Defined.

(** ** Roll ranges *)

Lemma contains_dash_cons c text :
  PyStr.contains "-" (String c text) = Ascii.eqb c "-" || PyStr.contains "-" text.
Proof.
  cbn [PyStr.contains String.prefix].
  destruct (ascii_dec "-" c) as [<-|Hc].
  - by destruct text.
  - destruct (Ascii.eqb_spec c "-"); [congruence | done].
Qed.

Lemma split_without_separator text :
  PyStr.contains "-" text = false -> PyStr.split "-" text = [text].
Proof.
  induction text as [|c text IH]; [done|].
  rewrite contains_dash_cons. intros [Hc Hno]%orb_false_elim.
  cbn [PyStr.split]. by rewrite Hc, IH.
Qed.

Lemma roll_bounds_spec text :
  roll_bounds text =
  match PyStr.split "-" text with
  | [a; b] =>
      match PyStr.int a, PyStr.int b with
      | Some min_roll, Some max_roll => (min_roll, max_roll)
      | _, _ => (100, 200)
      end
  | _ => (100, 200)
  end.
Proof.
  unfold roll_bounds, unpack2, int.
  destruct (PyStr.split "-" text) as [|a [|b [|c rest]]]; try done;
    destruct (PyStr.int a); try done; simpl;
    destruct (PyStr.int b); done.
Qed.

(** Malformed texts: a piece with a separator [int] does not skip, a piece
    of more digits than [int] reads, one piece, three pieces.  White space
    that [int] skips and a reversed range are not malformed. *)
Example roll_bounds_ex :
  roll_bounds (String "5" (String file_separator "-7")) = (100, 200)
  /\ roll_bounds (repeat_char 4301 "9" "-1") = (100, 200)
  /\ roll_bounds "7" = (100, 200)
  /\ roll_bounds "1-2-3" = (100, 200)
  /\ roll_bounds "-5-7" = (100, 200)
  /\ roll_bounds " 5 -+7" = (5, 7)
  /\ roll_bounds "10-5" = (10, 5).
Proof. repeat split; vm_compute; reflexivity. Qed.

(** C7. The roll text is split on "-" and both pieces are read with
    [int]: "50-75" gives (50, 75); "bogus" and the empty text give the
    default (100, 200); a text gives two bounds exactly when it splits into
    two pieces that both read as integers, and the default otherwise, so in
    particular whenever it has no "-".  The same statement in both files. *)
Theorem roll_bounds_parsing :
  roll_bounds "50-75" = (50, 75)
  /\ roll_bounds "bogus" = (100, 200)
  /\ roll_bounds "" = (100, 200)
  /\ (forall text,
         roll_bounds text =
         match PyStr.split "-" text with
         | [a; b] =>
             match PyStr.int a, PyStr.int b with
             | Some min_roll, Some max_roll => (min_roll, max_roll)
             | _, _ => (100, 200)
             end
         | _ => (100, 200)
         end)
  /\ (forall text, PyStr.contains "-" text = false -> roll_bounds text = (100, 200)).
Proof.
  split; [reflexivity|]. split; [reflexivity|]. split; [reflexivity|].
  split; [apply roll_bounds_spec|].
  intros text Hno. rewrite roll_bounds_spec, split_without_separator; done.
Qed.

Lemma roll_bounds_parsing_witness :
  PyStr.contains "-" "no dice" = false /\ roll_bounds "no dice" = (100, 200).
Proof.
  split; [reflexivity|].
  apply (proj2 (proj2 (proj2 (proj2 roll_bounds_parsing)))). reflexivity.
Defined.

(** ** Exceptions of the parsers *)

Lemma int_digits_decimal s :
  PyStr.all_chars PyStr.isdecimal_char s = true ->
  forall acc, exists z, PyStr.int_digits acc true s = Some z.
Proof.
  induction s as [|c s IH]; intros Hall acc; [by eexists|].
  cbn [PyStr.all_chars] in Hall. apply andb_prop in Hall as [Hc Hs].
  cbn [PyStr.int_digits]. rewrite Hc.
  assert (Ascii.eqb c "_" = false) as ->; [|by apply IH].
  destruct (Ascii.eqb_spec c "_") as [->|]; [discriminate Hc | done].
Qed.

Lemma int_literal_within r :
  (PyStr.count_digits r <= PyStr.max_str_digits)%N ->
  PyStr.int_literal r = PyStr.int_digits 0 false r.
Proof. unfold PyStr.int_literal. intros H. by apply N.ltb_ge in H as ->. Qed.

(** [int] accepts every text that, without the white space it skips, is
    made of decimal digits, at least one and no more than the limit. *)
Lemma int_of_decimal c :
  PyStr.int_strip c <> "" ->
  PyStr.all_chars PyStr.isdecimal_char (PyStr.int_strip c) = true ->
  (PyStr.count_digits (PyStr.int_strip c) <= PyStr.max_str_digits)%N ->
  exists z, int c = Ok z.
Proof.
  unfold int, PyStr.int. destruct (PyStr.int_strip c) as [|ch r]; [done|].
  intros _ Hall Hlimit.
  cbn [PyStr.all_chars] in Hall. apply andb_prop in Hall as [Hch Hr].
  assert (exists z, PyStr.int_literal (String ch r) = Some z) as [z Hz].
  { rewrite (int_literal_within _ Hlimit).
    cbn [PyStr.int_digits]. rewrite Hch.
    assert (Ascii.eqb ch "_" = false) as ->.
    { destruct (Ascii.eqb_spec ch "_") as [->|]; [discriminate Hch | done]. }
    by apply int_digits_decimal. }
  exists z.
  destruct ch as [[] [] [] [] [] [] [] []]; try discriminate Hch; by rewrite Hz.
Qed.

Lemma append_team_ok team p d :
  Old.in_TEAMS team = true -> exists d', Old.append_team team p d = Ok d'.
Proof.
  unfold Old.in_TEAMS, Old.append_team, TEAMS. cbn [existsb].
  destruct (String.eqb team "red"); [by eexists|].
  destruct (String.eqb team "blue"); [by eexists|].
  destruct (String.eqb team "green"); [by eexists|].
  destruct (String.eqb team "yellow"); [by eexists | done].
Qed.

Lemma Old_body_ok st row :
  decimal_points_cell row -> exists st', Old.body st row = Ok st'.
Proof.
  intros Hpts. destruct st as [cs data]. unfold Old.body.
  destruct row as [|c0 row0] eqn:Hrow; [by eexists|]. rewrite <- Hrow in *.
  assert (item row 0 = Ok c0) as -> by (by rewrite Hrow).
  cbn [mbind result_bind].
  destruct (classify _); [by eexists | by eexists |].
  destruct (_ && (3 <=? length row)%nat) eqn:Hteam.
  - apply andb_prop in Hteam as [_ Hlen%Nat.leb_le].
    destruct row as [|a [|b [|c rest]]]; simpl in Hlen; try lia.
    cbn [item lookup list_lookup mbind result_bind].
    destruct (negb _) eqn:Hin; [by eexists|].
    apply negb_false_iff in Hin.
    assert (exists p, Old.player_data (a :: b :: c :: rest) (PyStr.strip (PyStr.lower b)) = Ok p)
      as [p ->] by (destruct rest as [|? [|? ?]]; by eexists).
    cbn [mbind result_bind].
    destruct (append_team_ok _ p data Hin) as [d' ->]. by eexists.
  - destruct (_ && (4 <=? length row)%nat) eqn:Hlb; [|by eexists].
    apply andb_prop in Hlb as [_ Hlen%Nat.leb_le].
    destruct row as [|a [|b [|c [|pts rest]]]]; simpl in Hlen; try lia.
    unfold Old.leaderboard_entry.
    cbn [item lookup list_lookup mbind result_bind].
    destruct (PyStr.isdigit (PyStr.strip pts)) eqn:Hd; [|by eexists].
    destruct (Hpts pts eq_refl Hd) as (Hne & Hall & Hlimit).
    destruct (int_of_decimal pts Hne Hall Hlimit) as [z ->]. by eexists.
Qed.

(** [parse_data] of old.py returns when every points cell that passes
    the [isdigit] guard is a literal [int] reads. *)
Lemma Old_parse_data_returns rows :
  Forall decimal_points_cell rows -> exists data, Old.parse_data rows = Ok data.
Proof.
  unfold Old.parse_data. generalize (@None section, empty_data).
  induction rows as [|row rows IH]; intros st Hrows; [by eexists|].
  inversion Hrows as [|? ? Hrow Hrest]; subst.
  cbn [for_rows]. destruct (Old_body_ok st row Hrow) as [st' ->].
  by apply IH.
Qed.

(** C8 at a points cell holding a superscript digit: the cell passes the
    [isdigit] guard and [int] raises.  [parse_data] of old.py lets the
    exception out; [parse_sheet_data] of script.py catches it and returns
    the empty dictionary, losing Alice's well-formed row as well. *)
Theorem superscript_points_cell_raises :
  PyStr.isdigit (PyStr.strip superscript_two) = true
  /\ int superscript_two = Raise ValueError
  /\ Old.parse_data superscript_rows = Raise ValueError
  /\ Script.parse_try superscript_rows = Raise ValueError
  /\ Script.parse_sheet_data superscript_rows = empty_data
  /\ red_team (Script.parse_sheet_data (removelast superscript_rows)) = 
       [Player.mk (Some "Alice") (Some "red") (Some "10-20") (Some "5") (Some "")].
Proof. repeat split; vm_compute; reflexivity. Qed.

(** ** Commands *)

(** In script.py [update] runs for a user without the role: the scoreboard
    is posted and the stored ids and the configuration sheet change. *)
Lemma script_update_runs_without_role :
  user_roles guest = []
  /\ Old.has_permission guest = false
  /\ (Script.update_command guest fresh_world).2 = [Defer true; Followup CreatedNewBoard true]
  /\ message_id (Script.update_command guest fresh_world).1 = Some 1000
  /\ channel_id (Script.update_command guest fresh_world).1 = Some 55
  /\ config_sheet (Script.update_command guest fresh_world).1
     = [["message_id"; "1000"]; ["channel_id"; "55"]]
  /\ channels (Script.update_command guest fresh_world).1 !! 55
     = Some {[1000 := [(1, alice_card)]]}
  /\ Script.update_command guest fresh_world <> (fresh_world, [Respond Restricted true]).
Proof.
  repeat split; try (vm_compute; reflexivity).
  intros H. apply (f_equal snd) in H. vm_compute in H. discriminate.
Qed.

(** C3, amended.  In old.py each of update, round, showsubmitted,
    showanswers and ping, invoked by a user without the role "Agent of
    Chaos", answers with the rejection message only and leaves the whole
    state as it was.  In script.py update and ping have no check: what they
    do does not depend on the user's roles. *)
Theorem restricted_commands_reject (i : Interaction) (w : World)
    (round_number : Z) (draws : list nat) :
  Old.has_permission i = false ->
  (Old.update_command i w = (w, [Respond Restricted true])
   /\ Old.round_command i round_number w = (w, [Respond Restricted true])
   /\ Old.show_submitted i w = (w, [Respond Restricted true])
   /\ Old.show_anon draws i w = (w, [Respond Restricted true])
   /\ Old.ping i w = (w, [Respond Restricted true]))
  /\ (forall roles,
         Script.update_command (with_roles roles i) w = Script.update_command i w
         /\ Script.ping (with_roles roles i) w = Script.ping i w).
Proof.
  intros Hperm. split.
  - unfold Old.update_command, Old.round_command, Old.show_submitted,
      Old.show_anon, Old.ping.
    rewrite Hperm. simpl. repeat split.
  - intros roles. split; reflexivity.
Qed.

Lemma restricted_commands_reject_witness :
  Old.has_permission guest = false
  /\ Old.update_command guest fresh_world = (fresh_world, [Respond Restricted true])
  /\ Old.show_anon [1%nat] guest fresh_world = (fresh_world, [Respond Restricted true]).
Proof.
  split; [reflexivity|].
  destruct (restricted_commands_reject guest fresh_world 2 [1%nat]) as [(H1 & _ & _ & H4 & _) _];
    [reflexivity|].
  split; [exact H1 | exact H4].
Defined.

(** With the role, [update] of old.py does post. *)
Example old_update_with_role :
  let agent := with_roles ["Agent of Chaos"] guest in
  (Old.update_command agent fresh_world).2 = [Defer true; Followup CreatedNewBoard true]
  /\ message_id (Old.update_command agent fresh_world).1 = Some 1000
  /\ config_sheet (Old.update_command agent fresh_world).1
     = [["message_id"; "1000"]; ["channel_id"; "55"]].
Proof. repeat split; vm_compute; reflexivity. Qed.

(** ** Anonymous answers *)

Lemma answers_stored (w : World) (i1 i2 : Interaction) :
  ACTIVE_SUBMISSIONS w = [] -> user_id i1 <> user_id i2 ->
  ACTIVE_SUBMISSIONS (Old.anon_submit i2 "bye" (Old.anon_submit i1 "hi" w).1).1
  = [(user_id i1, "hi"); (user_id i2, "bye")].
Proof.
  intros Hw Hne. simpl. rewrite Hw. simpl.
  destruct (Z.eqb_spec (user_id i1) (user_id i2)); [done | reflexivity].
Qed.

(** C9. With the pending submissions {user1: "hi", user2: "bye"},
    showanswers publishes exactly two numbered lines, in one of the two
    orders, sends the author mapping that pairs each number with the author
    of the message on that line, and empties the store, so that
    showsubmitted then reports no submissions. *)
Theorem showanswers_scenario (draws : list nat) (i : Interaction) (w : World)
    (user1 user2 : Z) :
  Old.has_permission i = true ->
  ACTIVE_SUBMISSIONS w = [(user1, "hi"); (user2, "bye")] ->
  ((Old.show_anon draws i w).2
     = [Respond (AnonymousMessages ["`1.` hi"; "`2.` bye"]) false;
        Followup (AuthorMapping [(1, author_name i w user1, "hi");
                                 (2, author_name i w user2, "bye")]) true]
   \/ (Old.show_anon draws i w).2
     = [Respond (AnonymousMessages ["`1.` bye"; "`2.` hi"]) false;
        Followup (AuthorMapping [(1, author_name i w user2, "bye");
                                 (2, author_name i w user1, "hi")]) true])
  /\ ACTIVE_SUBMISSIONS (Old.show_anon draws i w).1 = []
  /\ Old.show_submitted i (Old.show_anon draws i w).1
     = ((Old.show_anon draws i w).1, [Respond NoSubmissionsYet true]).
Proof.
  intros Hperm Hsubs. unfold Old.show_anon, Old.show_submitted.
  rewrite Hperm, Hsubs. cbn [negb fst snd set_submissions ACTIVE_SUBMISSIONS].
  split; [|done].
  unfold shuffle. cbn [length Nat.sub shuffle_from].
  assert (hd 0 draws mod (1 + 1) < 2)%nat as Hj by (apply Nat.mod_upper_bound; lia).
  destruct (hd 0%nat draws mod (1 + 1))%nat as [|[|j]]; [right | left | lia]; reflexivity.
Qed.

Lemma showanswers_scenario_witness :
  let agent := with_roles ["Agent of Chaos"] guest in
  let w := set_submissions [(11, "hi"); (12, "bye")] fresh_world in
  (Old.show_anon [1%nat] agent w).2
  = [Respond (AnonymousMessages ["`1.` hi"; "`2.` bye"]) false;
     Followup (AuthorMapping [(1, "Unknown User (11)", "hi");
                              (2, "Unknown User (12)", "bye")]) true]
  /\ Old.show_submitted agent (Old.show_anon [1%nat] agent w).1
     = ((Old.show_anon [1%nat] agent w).1, [Respond NoSubmissionsYet true]).
Proof.
  intros agent w.
  destruct (showanswers_scenario [1%nat] agent w 11 12) as (_ & _ & H);
    [reflexivity | reflexivity |].
  split; [vm_compute; reflexivity | exact H].
Defined.

(** [random.shuffle] rearranges and neither loses nor invents an item. *)
Lemma swap_perm {A} (x : list A) i j : swap x i j ≡ₚ x.
Proof.
  unfold swap.
  destruct (x !! i) as [a|] eqn:Hi; [|done].
  destruct (x !! j) as [b|] eqn:Hj; [|done].
  pose proof (lookup_lt_Some _ _ _ Hi) as Hli.
  pose proof (lookup_lt_Some _ _ _ Hj) as Hlj.
  apply Permutation_inj. split; [by rewrite !length_insert|].
  exists (fun k => if decide (k = j) then i else if decide (k = i) then j else k).
  split.
  - intros k1 k2. repeat case_decide; congruence.
  - intros k. destruct (decide (k = j)) as [->|Hkj].
    + rewrite list_lookup_insert_eq by (by rewrite length_insert). done.
    + rewrite list_lookup_insert_ne by done.
      destruct (decide (k = i)) as [->|Hki].
      * by rewrite list_lookup_insert_eq.
      * by rewrite list_lookup_insert_ne.
Qed.

Lemma shuffle_perm {A} (draws : list nat) (x : list A) : shuffle draws x ≡ₚ x.
Proof.
  unfold shuffle. generalize (length x - 1)%nat as n. intros n.
  revert draws x. induction n as [|n IH]; intros draws x; [done|].
  cbn [shuffle_from]. by rewrite IH, swap_perm.
Qed.

(** * Further properties of the code *)

(** ** What the parsers put into the roster *)

Lemma for_rows_invariant body (P : ParseState -> Prop) rows st0 st :
  (forall st row st', P st -> body st row = Ok st' -> P st') ->
  P st0 -> for_rows body rows st0 = Ok st -> P st.
Proof.
  intros Hbody. revert st0. induction rows as [|row rows IH]; intros st0 H0 Hrun.
  - simpl in Hrun. by injection Hrun as <-.
  - simpl in Hrun. destruct (body st0 row) as [st1|e] eqn:Hrow; [|done].
    eapply IH; [|exact Hrun]. by eapply Hbody.
Qed.

Lemma int_digits_nonneg s : forall acc after z,
  0 <= acc -> PyStr.int_digits acc after s = Some z -> 0 <= z.
Proof.
  induction s as [|c s IH]; intros acc after z Hacc; cbn [PyStr.int_digits].
  - destruct after; [|done]. by intros [= <-].
  - destruct (Ascii.eqb c "_").
    + destruct after; [|done]. by apply IH.
    + destruct (PyStr.isdecimal_char c) eqn:Hc; [|done].
      apply IH. unfold PyStr.isdecimal_char, PyStr.between in Hc.
      apply andb_prop in Hc as [Hlo%N.leb_le _]. lia.
Qed.

Lemma int_literal_some r z :
  PyStr.int_literal r = Some z -> PyStr.int_digits 0 false r = Some z.
Proof. unfold PyStr.int_literal. by destruct (_ <? _)%N. Qed.

(** Only a literal with a minus sign is read as a negative number. *)
Lemma int_nonneg_unless_minus c z :
  (forall r, PyStr.int_strip c <> String "-" r) -> int c = Ok z -> 0 <= z.
Proof.
  unfold int, PyStr.int. intros Hminus.
  assert (forall r z', PyStr.int_literal r = Some z' -> 0 <= z') as Hnn.
  { intros r z' H%int_literal_some. by eapply (int_digits_nonneg r 0 false). }
  destruct (PyStr.int_strip c) as [|ch r].
  - destruct (PyStr.int_literal "") as [z'|] eqn:Hz; [|done].
    intros [= <-]. by eapply Hnn.
  - destruct ch as [[] [] [] [] [] [] [] []];
      try (exfalso; by apply (Hminus r));
      match goal with
      | |- context [PyStr.int_literal ?x] =>
          destruct (PyStr.int_literal x) as [z'|] eqn:Hz
      end; (done || (intros [= <-]; by eapply Hnn)).
Qed.

Lemma int_isspace_isspace c : PyStr.int_isspace c = true -> PyStr.isspace c = true.
Proof. destruct c as [[] [] [] [] [] [] [] []]; by vm_compute. Qed.

(** [str.strip] removes at least the white space [int] skips. *)
Lemma lstrip_int_lstrip s : PyStr.lstrip (PyStr.int_lstrip s) = PyStr.lstrip s.
Proof.
  induction s as [|c s IH]; [done|]. cbn [PyStr.int_lstrip].
  destruct (PyStr.int_isspace c) eqn:Hc; [|done].
  cbn [PyStr.lstrip]. by rewrite (int_isspace_isspace c Hc).
Qed.

Lemma rstrip_first ch r :
  PyStr.isspace ch = false -> exists r', PyStr.rstrip (String ch r) = String ch r'.
Proof.
  intros Hch. cbn [PyStr.rstrip]. rewrite Hch.
  destruct (PyStr.rstrip r); by eexists.
Qed.

Lemma int_strip_first c ch r :
  PyStr.int_strip c = String ch r -> exists r0, PyStr.int_lstrip c = String ch r0.
Proof.
  unfold PyStr.int_strip. destruct (PyStr.int_lstrip c) as [|c0 s0]; [done|].
  cbn [PyStr.int_rstrip].
  destruct (PyStr.int_rstrip s0); [destruct (PyStr.int_isspace c0)|];
    intros [= <- _] || done; by eexists.
Qed.

(** A text that passes the [isdigit] guard is read by [int], if at all, as
    a number that is not negative. *)
Lemma int_after_isdigit_nonneg c z :
  PyStr.isdigit (PyStr.strip c) = true -> int c = Ok z -> 0 <= z.
Proof.
  intros Hd. apply int_nonneg_unless_minus. intros r Hr.
  apply int_strip_first in Hr as [r0 Hr0].
  assert (PyStr.lstrip c = String "-" r0) as Hl.
  { rewrite <- lstrip_int_lstrip, Hr0. reflexivity. }
  unfold PyStr.strip in Hd. rewrite Hl in Hd.
  destruct (rstrip_first "-" r0 eq_refl) as [r' Hr']. by rewrite Hr' in Hd.
Qed.

Lemma coins_text_not_blank (c : string) :
  (if String.eqb (PyStr.strip c) "" then "0" else PyStr.strip c) <> "".
Proof. destruct (String.eqb_spec (PyStr.strip c) ""); [done | done]. Qed.

Lemma coins_text_truthy (c : string) :
  (if PyStr.truthy (PyStr.strip c) then PyStr.strip c else "0") <> "".
Proof. by destruct (PyStr.strip c). Qed.

Lemma Script_player_data_fields row team p :
  Script.player_data row team = Ok p -> player_ok team p.
Proof.
  unfold Script.player_data.
  destruct row as [|a [|b [|c [|d [|e rest]]]]]; try done;
    cbn; intros [= <-]; unfold player_ok; cbn;
    (split; [done|]); do 3 (split; [by eexists|]);
    eexists; (split; [done|]); try done; apply coins_text_not_blank.
Qed.

Lemma Old_player_data_fields row team p :
  Old.player_data row team = Ok p -> player_ok team p.
Proof.
  unfold Old.player_data.
  destruct row as [|a [|b [|c [|d [|e rest]]]]]; try done;
    cbn; intros [= <-]; unfold player_ok; cbn;
    (split; [done|]); do 3 (split; [by eexists|]);
    eexists; (split; [done|]); try done; apply coins_text_truthy.
Qed.

Lemma leaderboard_points_ok c pts :
  (if PyStr.isdigit (PyStr.strip c) then int c else mret 0) = Ok pts -> 0 <= pts.
Proof.
  destruct (PyStr.isdigit (PyStr.strip c)) eqn:Hd.
  - by apply int_after_isdigit_nonneg.
  - by intros [= <-].
Qed.

Lemma Script_leaderboard_entry_ok row e :
  Script.leaderboard_entry row = Ok e -> entry_ok e.
Proof.
  unfold Script.leaderboard_entry.
  destruct row as [|a [|b [|c [|d rest]]]]; try done; cbn;
    try (intros [= <-]; unfold entry_ok; cbn; do 3 (split; [by eexists|]);
         by exists 0).
  destruct (if PyStr.isdigit (PyStr.strip d) then int d else mret 0) as [pts|] eqn:Hpts;
    [|done].
  cbn. intros [= <-]. unfold entry_ok; cbn. do 3 (split; [by eexists|]).
  exists pts. split; [done|]. by apply (leaderboard_points_ok d).
Qed.

Lemma Old_leaderboard_entry_ok row e :
  Old.leaderboard_entry row = Ok e -> entry_ok e.
Proof.
  unfold Old.leaderboard_entry.
  destruct row as [|a [|b [|c [|d rest]]]]; try done; cbn.
  destruct (if PyStr.isdigit (PyStr.strip d) then int d else mret 0) as [pts|] eqn:Hpts;
    [|done].
  cbn. intros [= <-]. unfold entry_ok; cbn. do 3 (split; [by eexists|]).
  exists pts. split; [done|]. by apply (leaderboard_points_ok d).
Qed.

Lemma data_ok_empty : data_ok empty_data.
Proof. unfold data_ok, empty_data; simpl. repeat split; constructor. Qed.

Lemma data_ok_append_red p d : data_ok d -> player_ok "red" p -> data_ok (append_red p d).
Proof.
  unfold data_ok. intros (?&?&?&?&?) Hp. simpl.
  repeat split; try done. apply Forall_app; split; [done | by constructor].
Qed.

Lemma data_ok_append_blue p d : data_ok d -> player_ok "blue" p -> data_ok (append_blue p d).
Proof.
  unfold data_ok. intros (?&?&?&?&?) Hp. simpl.
  repeat split; try done. apply Forall_app; split; [done | by constructor].
Qed.

Lemma data_ok_append_green p d : data_ok d -> player_ok "green" p -> data_ok (append_green p d).
Proof.
  unfold data_ok. intros (?&?&?&?&?) Hp. simpl.
  repeat split; try done. apply Forall_app; split; [done | by constructor].
Qed.

Lemma data_ok_append_yellow p d : data_ok d -> player_ok "yellow" p -> data_ok (append_yellow p d).
Proof.
  unfold data_ok. intros (?&?&?&?&?) Hp. simpl.
  repeat split; try done. apply Forall_app; split; [done | by constructor].
Qed.

Lemma data_ok_append_leaderboard e d :
  data_ok d -> entry_ok e -> data_ok (append_leaderboard e d).
Proof.
  unfold data_ok. intros (?&?&?&?&?) He. simpl.
  repeat split; try done. apply Forall_app; split; [done | by constructor].
Qed.

Lemma Script_body_data_ok st row st' :
  data_ok st.2 -> Script.body st row = Ok st' -> data_ok st'.2.
Proof.
  destruct st as [cs data]. cbn [snd]. intros Hd. unfold Script.body.
  destruct row as [|c0 row0] eqn:Hrow; [by intros [= <-]|]. rewrite <- Hrow.
  rewrite Script_first_cell by (by rewrite Hrow). cbn [mbind result_bind].
  destruct (classify _); [by intros [= <-] | by intros [= <-] |].
  rewrite !Script_team_cell. cbn [mbind result_bind].
  destruct (section_is cs red_blue && (3 <=? length row)%nat).
  { destruct (Script.player_data row (team_text row)) as [p|err] eqn:Hp; [|done].
    apply Script_player_data_fields in Hp. cbn [mbind result_bind].
    destruct (String.eqb_spec (team_text row) "red") as [Ht|_].
    { intros [= <-]. rewrite Ht in Hp. by apply data_ok_append_red. }
    destruct (String.eqb_spec (team_text row) "blue") as [Ht|_].
    { intros [= <-]. rewrite Ht in Hp. by apply data_ok_append_blue. }
    by intros [= <-]. }
  destruct (section_is cs green_yellow && (3 <=? length row)%nat).
  { destruct (Script.player_data row (team_text row)) as [p|err] eqn:Hp; [|done].
    apply Script_player_data_fields in Hp. cbn [mbind result_bind].
    destruct (String.eqb_spec (team_text row) "green") as [Ht|_].
    { intros [= <-]. rewrite Ht in Hp. by apply data_ok_append_green. }
    destruct (String.eqb_spec (team_text row) "yellow") as [Ht|_].
    { intros [= <-]. rewrite Ht in Hp. by apply data_ok_append_yellow. }
    by intros [= <-]. }
  destruct (section_is cs in_leaderboard && (4 <=? length row)%nat);
    [|by intros [= <-]].
  destruct (Script.leaderboard_entry row) as [ent|err] eqn:He; [|done].
  cbn [mbind result_bind]. intros [= <-]. cbn [snd].
  apply data_ok_append_leaderboard; [done|].
  by apply Script_leaderboard_entry_ok in He.
Qed.

Lemma Old_append_team_ok team p d d' :
  data_ok d -> player_ok team p -> Old.append_team team p d = Ok d' -> data_ok d'.
Proof.
  intros Hd Hp. unfold Old.append_team.
  destruct (String.eqb_spec team "red") as [->|_];
    [intros [= <-]; by apply data_ok_append_red|].
  destruct (String.eqb_spec team "blue") as [->|_];
    [intros [= <-]; by apply data_ok_append_blue|].
  destruct (String.eqb_spec team "green") as [->|_];
    [intros [= <-]; by apply data_ok_append_green|].
  destruct (String.eqb_spec team "yellow") as [->|_];
    [intros [= <-]; by apply data_ok_append_yellow | done].
Qed.

Lemma Old_body_data_ok st row st' :
  data_ok st.2 -> Old.body st row = Ok st' -> data_ok st'.2.
Proof.
  destruct st as [cs data]. cbn [snd]. intros Hd. unfold Old.body.
  destruct row as [|c0 row0] eqn:Hrow; [by intros [= <-]|]. rewrite <- Hrow.
  assert (item row 0 = Ok c0) as -> by (by rewrite Hrow).
  cbn [mbind result_bind].
  destruct (classify _); [by intros [= <-] | by intros [= <-] |].
  destruct ((section_is cs red_blue || section_is cs green_yellow)
            && (3 <=? length row)%nat).
  { destruct (item row 1) as [c1|err]; [|done]. cbn [mbind result_bind].
    destruct (negb _); [by intros [= <-]|].
    destruct (Old.player_data row _) as [p|err] eqn:Hp; [|done].
    apply Old_player_data_fields in Hp. cbn [mbind result_bind].
    destruct (Old.append_team _ p data) as [d'|err] eqn:Happ; [|done].
    cbn [mbind result_bind]. intros [= <-]. cbn [snd].
    by eapply Old_append_team_ok. }
  destruct (section_is cs in_leaderboard && (4 <=? length row)%nat);
    [|by intros [= <-]].
  destruct (Old.leaderboard_entry row) as [ent|err] eqn:He; [|done].
  cbn [mbind result_bind]. intros [= <-]. cbn [snd].
  apply data_ok_append_leaderboard; [done|].
  by apply Old_leaderboard_entry_ok in He.
Qed.

Lemma Script_parse_data_ok rows : data_ok (Script.parse_sheet_data rows).
Proof.
  unfold Script.parse_sheet_data, Script.parse_try.
  destruct (for_rows Script.body rows (None, empty_data)) as [st|err] eqn:Hrun;
    [|apply data_ok_empty].
  cbn [mbind result_bind mret result_ret].
  apply (for_rows_invariant Script.body (fun st => data_ok st.2) rows _ st) in Hrun;
    [done | apply Script_body_data_ok | apply data_ok_empty].
Qed.

Lemma Old_parse_data_ok rows data : Old.parse_data rows = Ok data -> data_ok data.
Proof.
  unfold Old.parse_data.
  destruct (for_rows Old.body rows (None, empty_data)) as [st|err] eqn:Hrun; [|done].
  cbn [mbind result_bind mret result_ret]. intros [= <-].
  apply (for_rows_invariant Old.body (fun st => data_ok st.2) rows _ st) in Hrun;
    [done | apply Old_body_data_ok | apply data_ok_empty].
Qed.

(** X1. Each team list holds only records of its own team: whatever the
    rows, every record the parsers put in the red list has team "red", and
    so on for blue, green and yellow.  Both files. *)
Theorem team_lists_hold_their_team (rows : list RawRow) :
  let team_is t := fun p => Player.Team p = Some t in
  (Forall (team_is "red") (red_team (Script.parse_sheet_data rows))
   /\ Forall (team_is "blue") (blue_team (Script.parse_sheet_data rows))
   /\ Forall (team_is "green") (green_team (Script.parse_sheet_data rows))
   /\ Forall (team_is "yellow") (yellow_team (Script.parse_sheet_data rows)))
  /\ (forall data, Old.parse_data rows = Ok data ->
        Forall (team_is "red") (red_team data)
        /\ Forall (team_is "blue") (blue_team data)
        /\ Forall (team_is "green") (green_team data)
        /\ Forall (team_is "yellow") (yellow_team data)).
Proof.
  intros team_is.
  assert (forall d, data_ok d ->
            Forall (team_is "red") (red_team d) /\ Forall (team_is "blue") (blue_team d)
            /\ Forall (team_is "green") (green_team d)
            /\ Forall (team_is "yellow") (yellow_team d)) as Hall.
  { intros d (Hr & Hb & Hg & Hy & _).
    repeat split; (eapply Forall_impl; [eassumption|]); by intros p [? _]. }
  split; [apply Hall, Script_parse_data_ok|].
  intros data Hparse. by apply Hall, (Old_parse_data_ok rows).
Qed.

Lemma team_lists_hold_their_team_witness :
  let rows := [["Red / Blue"]; ["Bob"; "green"; "1-6"]; ["Cy"; " BLUE "; "2-4"]] in
  exists data, Old.parse_data rows = Ok data
    /\ Forall (fun p => Player.Team p = Some "blue") (blue_team data)
    /\ Forall (fun p => Player.Team p = Some "green") (green_team data).
Proof.
  intros rows.
  destruct (Old.parse_data rows) as [data|err] eqn:Hparse; [|vm_compute in Hparse; discriminate].
  exists data. split; [reflexivity|].
  destruct (team_lists_hold_their_team rows) as [_ H].
  destruct (H data Hparse) as (_ & Hb & Hg & _). by split.
Defined.

(** ** Rows that leave no trace *)

Lemma classify_not_marker fc :
  is_marker fc = false -> classify fc = Header \/ classify fc = DataRow.
Proof.
  intros Hm. destruct (is_header fc) eqn:Hh.
  - left. by apply classify_header.
  - right. by apply classify_data.
Qed.

(** A row that is no marker changes nothing when neither data branch
    applies to it. *)
Lemma Script_body_no_branch cs d row :
  is_marker (first_cell_text row) = false ->
  (section_is cs red_blue || section_is cs green_yellow) && (3 <=? length row)%nat = false ->
  section_is cs in_leaderboard && (4 <=? length row)%nat = false ->
  Script.body (cs, d) row = Ok (cs, d).
Proof.
  intros Hm Hteam Hlb. unfold Script.body.
  destruct row as [|c0 row0] eqn:Hrow; [done|]. rewrite <- Hrow in *.
  rewrite Script_first_cell by (by rewrite Hrow). cbn [mbind result_bind].
  destruct (classify_not_marker _ Hm) as [-> | ->]; [done|].
  rewrite Hlb.
  destruct (section_is cs red_blue), (section_is cs green_yellow);
    cbn [orb andb] in Hteam |- *; by rewrite ?Hteam.
Qed.

Lemma Old_body_no_branch cs d row :
  is_marker (first_cell_text row) = false ->
  (section_is cs red_blue || section_is cs green_yellow) && (3 <=? length row)%nat = false ->
  section_is cs in_leaderboard && (4 <=? length row)%nat = false ->
  Old.body (cs, d) row = Ok (cs, d).
Proof.
  intros Hm Hteam Hlb. unfold Old.body.
  destruct row as [|c0 row0] eqn:Hrow; [done|]. rewrite <- Hrow in *.
  assert (item row 0 = Ok c0) as -> by (by rewrite Hrow).
  cbn [mbind result_bind].
  assert (PyStr.lower (PyStr.strip c0) = first_cell_text row) as ->
    by (by rewrite Hrow).
  destruct (classify_not_marker _ Hm) as [-> | ->]; [done|].
  by rewrite Hteam, Hlb.
Qed.

(** X4. Rows read before the first section marker leave no trace: with a
    prefix of rows none of which is a marker, the parse result is the one of
    the remaining rows, and a sheet without any marker gives the empty
    roster.  Both files. *)
Theorem rows_before_first_marker_dropped (pre rest : list RawRow) :
  Forall (fun row => is_marker (first_cell_text row) = false) pre ->
  (Script.parse_sheet_data (pre ++ rest) = Script.parse_sheet_data rest
   /\ Old.parse_data (pre ++ rest) = Old.parse_data rest)
  /\ (Script.parse_sheet_data pre = empty_data /\ Old.parse_data pre = Ok empty_data).
Proof.
  intros Hpre.
  assert (for_rows Script.body pre (None, empty_data) = Ok (None, empty_data)) as HS.
  { induction Hpre as [|row pre Hrow _ IH]; [done|]. cbn [for_rows].
    rewrite Script_body_no_branch; [exact IH | exact Hrow | reflexivity | reflexivity]. }
  assert (for_rows Old.body pre (None, empty_data) = Ok (None, empty_data)) as HO.
  { clear HS. induction Hpre as [|row pre Hrow _ IH]; [done|]. cbn [for_rows].
    rewrite Old_body_no_branch; [exact IH | exact Hrow | reflexivity | reflexivity]. }
  split; split.
  - unfold Script.parse_sheet_data, Script.parse_try. by rewrite for_rows_app, HS.
  - unfold Old.parse_data. by rewrite for_rows_app, HO.
  - unfold Script.parse_sheet_data, Script.parse_try. by rewrite HS.
  - unfold Old.parse_data. by rewrite HO.
Qed.

Lemma rows_before_first_marker_dropped_witness :
  let pre := [["Alice"; "red"; "10-20"]; []; ["1"; "red"; "Alice"; "30"]] in
  Script.parse_sheet_data pre = empty_data /\ Old.parse_data pre = Ok empty_data.
Proof.
  intros pre. apply (rows_before_first_marker_dropped pre []).
  repeat constructor.
Defined.

(** X5. A row that is no marker and has fewer than three cells never
    produces a record, in whatever section it stands, and in the
    leaderboard block the same holds for a row of fewer than four cells:
    the parse result is the one of the input without the row.  Both
    files. *)
Theorem short_rows_dropped (pre post : list RawRow) (row : RawRow) :
  is_marker (first_cell_text row) = false ->
  ((length row < 3)%nat ->
   Script.parse_sheet_data (pre ++ row :: post) = Script.parse_sheet_data (pre ++ post)
   /\ Old.parse_data (pre ++ row :: post) = Old.parse_data (pre ++ post))
  /\ ((length row < 4)%nat ->
      (forall d, for_rows Script.body pre initial = Ok (Some in_leaderboard, d) ->
         Script.parse_sheet_data (pre ++ row :: post) = Script.parse_sheet_data (pre ++ post))
      /\ (forall d, for_rows Old.body pre initial = Ok (Some in_leaderboard, d) ->
            Old.parse_data (pre ++ row :: post) = Old.parse_data (pre ++ post))).
Proof.
  intros Hm. split.
  - intros Hlen.
    assert ((3 <=? length row)%nat = false) as H3 by (apply Nat.leb_gt; lia).
    assert ((4 <=? length row)%nat = false) as H4 by (apply Nat.leb_gt; lia).
    split.
    + unfold Script.parse_sheet_data, Script.parse_try.
      rewrite (for_rows_skip Script.body pre post row); [done|].
      intros [cs d] _. apply Script_body_no_branch; [done | |];
        by rewrite ?H3, ?H4, andb_false_r.
    + unfold Old.parse_data.
      rewrite (for_rows_skip Old.body pre post row); [done|].
      intros [cs d] _. apply Old_body_no_branch; [done | |];
        by rewrite ?H3, ?H4, andb_false_r.
  - intros Hlen.
    assert ((4 <=? length row)%nat = false) as H4 by (apply Nat.leb_gt; lia).
    split; intros d Hpre.
    + unfold Script.parse_sheet_data, Script.parse_try.
      rewrite (for_rows_skip Script.body pre post row); [done|].
      fold initial. intros st Hst. rewrite Hpre in Hst. injection Hst as <-.
      apply Script_body_no_branch; [done | done |]. by rewrite H4.
    + unfold Old.parse_data.
      rewrite (for_rows_skip Old.body pre post row); [done|].
      fold initial. intros st Hst. rewrite Hpre in Hst. injection Hst as <-.
      apply Old_body_no_branch; [done | done |]. by rewrite H4.
Qed.

Lemma short_rows_dropped_witness :
  let pre := [["Leaderboard"]] in
  let row := ["1"; "red"; "Alice"] in
  Script.parse_sheet_data (pre ++ row :: [["2"; "blue"; "Bob"; "7"]])
  = Script.parse_sheet_data (pre ++ [["2"; "blue"; "Bob"; "7"]])
  /\ Old.parse_data (pre ++ [["Al"; "red"]])
     = Old.parse_data (pre ++ []).
Proof.
  intros pre row. split.
  - destruct (short_rows_dropped pre [["2"; "blue"; "Bob"; "7"]] row) as [_ H];
      [reflexivity|].
    destruct H as [HS _]; [simpl; lia|]. by apply (HS empty_data).
  - destruct (short_rows_dropped pre [] ["Al"; "red"]) as [H _]; [reflexivity|].
    destruct H as [_ HO]; [simpl; lia|]. exact HO.
Defined.

(** ** The two parsers side by side *)

Lemma player_data_agree row team :
  (3 <= length row)%nat -> Script.player_data row team = Old.player_data row team.
Proof.
  intros Hlen. unfold Script.player_data, Old.player_data.
  destruct row as [|a [|b [|c [|d rest]]]]; simpl in Hlen; try lia; [done|].
  cbn. destruct rest as [|e rest]; cbn; by destruct (PyStr.strip d).
Qed.

Lemma leaderboard_entry_agree row :
  (4 <= length row)%nat -> Script.leaderboard_entry row = Old.leaderboard_entry row.
Proof.
  intros Hlen. unfold Script.leaderboard_entry, Old.leaderboard_entry.
  destruct row as [|a [|b [|c [|d rest]]]]; simpl in Hlen; try lia.
  done.
Qed.

Lemma body_agree cs d row :
  row <> [] -> classify (first_cell_text row) = DataRow ->
  names_team_of_block cs row = true ->
  Script.body (cs, d) row = Old.body (cs, d) row
  /\ forall st, Old.body (cs, d) row = Ok st -> st.1 = cs.
Proof.
  intros Hne Hcl Hok. unfold Script.body, Old.body.
  destruct row as [|c0 row0] eqn:Hrow; [done|]. rewrite <- Hrow in *.
  rewrite Script_first_cell by done.
  assert (item row 0 = Ok c0) as -> by (by rewrite Hrow).
  cbn [mbind result_bind].
  assert (PyStr.lower (PyStr.strip c0) = first_cell_text row) as ->
    by (by rewrite Hrow).
  rewrite Hcl, !Script_team_cell. cbn [mbind result_bind].
  destruct (3 <=? length row)%nat eqn:H3.
  - pose proof (proj1 (Nat.leb_le _ _) H3) as H3'.
    assert (item row 1 = Ok (nth 1 row "")) as ->
      by (destruct row as [|a [|b r]]; simpl in H3'; [lia | lia | done]).
    cbn [mbind result_bind]. fold (team_text row).
    rewrite (player_data_agree row _ H3').
    destruct (Old.player_data row (team_text row)) as [p|err] eqn:Hp.
    2:{ destruct row as [|a [|b [|c [|x [|y r]]]]]; simpl in H3'; try lia; done. }
    cbn [mbind result_bind].
    unfold names_team_of_block in Hok. rewrite H3 in Hok.
    unfold Old.in_TEAMS, in_teams, Old.append_team, TEAMS in *. cbn [existsb] in *.
    destruct cs as [[| |]|]; cbn [section_is andb orb negb team_pair valid_teams existsb] in *.
    + destruct (String.eqb (team_text row) "red"); [by split; [|intros st [= <-]]|].
      destruct (String.eqb (team_text row) "blue"); [by split; [|intros st [= <-]]|].
      destruct (String.eqb (team_text row) "green"); [done|].
      destruct (String.eqb (team_text row) "yellow"); [done|].
      by split; [|intros st [= <-]].
    + destruct (String.eqb (team_text row) "red") eqn:Hr.
      { destruct (String.eqb (team_text row) "green") eqn:Hg;
          [apply String.eqb_eq in Hr, Hg; congruence|].
        destruct (String.eqb (team_text row) "yellow") eqn:Hy;
          [apply String.eqb_eq in Hr, Hy; congruence | done]. }
      destruct (String.eqb (team_text row) "blue") eqn:Hb.
      { destruct (String.eqb (team_text row) "green") eqn:Hg;
          [apply String.eqb_eq in Hb, Hg; congruence|].
        destruct (String.eqb (team_text row) "yellow") eqn:Hy;
          [apply String.eqb_eq in Hb, Hy; congruence | done]. }
      destruct (String.eqb (team_text row) "green"); [by split; [|intros st [= <-]]|].
      destruct (String.eqb (team_text row) "yellow"); by split; [|intros st [= <-]].
    + destruct (4 <=? length row)%nat eqn:H4; [|by split; [|intros st [= <-]]].
      rewrite (leaderboard_entry_agree row) by (by apply Nat.leb_le).
      destruct (Old.leaderboard_entry row); [|done].
      by split; [|intros st [= <-]].
    + by split; [|intros st [= <-]].
  - assert ((4 <=? length row)%nat = false) as ->.
    { apply Nat.leb_gt. apply Nat.leb_gt in H3. lia. }
    rewrite !andb_false_r. by split; [|intros st [= <-]].
Qed.

Lemma for_rows_agree rows : forall cs d,
  pair_consistent cs rows = true ->
  for_rows Script.body rows (cs, d) = for_rows Old.body rows (cs, d).
Proof.
  induction rows as [|row rows IH]; intros cs d Hok; [done|].
  cbn [for_rows pair_consistent] in *.
  destruct row as [|c0 row0] eqn:Hrow; [by apply IH|]. rewrite <- Hrow in *.
  destruct (classify (first_cell_text row)) as [s| |] eqn:Hcl.
  - assert (Script.body (cs, d) row = Ok (Some s, d)) as ->.
    { unfold Script.body. rewrite Hrow, <- Hrow.
      rewrite Script_first_cell by (by rewrite Hrow).
      cbn [mbind result_bind]. by rewrite Hcl. }
    assert (Old.body (cs, d) row = Ok (Some s, d)) as ->.
    { unfold Old.body. rewrite Hrow. cbn [item lookup list_lookup mbind result_bind].
      rewrite Hrow in Hcl. unfold first_cell_text in Hcl. cbn [hd] in Hcl.
      by rewrite Hcl. }
    by apply IH.
  - assert (Script.body (cs, d) row = Ok (cs, d)) as ->.
    { unfold Script.body. rewrite Hrow, <- Hrow.
      rewrite Script_first_cell by (by rewrite Hrow).
      cbn [mbind result_bind]. by rewrite Hcl. }
    assert (Old.body (cs, d) row = Ok (cs, d)) as ->.
    { unfold Old.body. rewrite Hrow. cbn [item lookup list_lookup mbind result_bind].
      rewrite Hrow in Hcl. unfold first_cell_text in Hcl. cbn [hd] in Hcl.
      by rewrite Hcl. }
    by apply IH.
  - apply andb_prop in Hok as [Hrowok Hrest].
    destruct (body_agree cs d row) as [-> Hcs]; [by rewrite Hrow | done | done |].
    destruct (Old.body (cs, d) row) as [[cs' d']|err] eqn:Hbody; [|done].
    specialize (Hcs _ eq_refl). cbn [fst] in Hcs. subst cs'. by apply IH.
Qed.

Lemma parse_try_agree rows :
  pair_consistent None rows = true -> Script.parse_try rows = Old.parse_data rows.
Proof.
  intros Hok. unfold Script.parse_try, Old.parse_data. by rewrite for_rows_agree.
Qed.

(** X6. On a sheet where every data row of a team-pair block names, if one
    of the four teams at all, a team of that block, the two parsers do the
    same: the [try] block of script.py ends as [parse_data] of old.py does,
    with the same roster or the same exception. *)
Theorem parsers_agree_on_consistent_sheets (rows : list RawRow) :
  pair_consistent None rows = true ->
  Script.parse_try rows = Old.parse_data rows
  /\ forall data, Old.parse_data rows = Ok data -> Script.parse_sheet_data rows = data.
Proof.
  intros Hok. pose proof (parse_try_agree rows Hok) as Heq.
  split; [done|]. intros data Hparse.
  unfold Script.parse_sheet_data. by rewrite Heq, Hparse.
Qed.

Lemma parsers_agree_on_consistent_sheets_witness :
  Script.parse_try scenario_rows_one_cell = Old.parse_data scenario_rows_one_cell.
Proof.
  apply (parsers_agree_on_consistent_sheets scenario_rows_one_cell). reflexivity.
Defined.

(** ** Where the records come from *)

Lemma for_rows_invariant_in body (P : ParseState -> Prop) rows st0 st :
  (forall st row st', row ∈ rows -> P st -> body st row = Ok st' -> P st') ->
  P st0 -> for_rows body rows st0 = Ok st -> P st.
Proof.
  intros Hbody.
  assert (forall l, (forall row, row ∈ l -> row ∈ rows) ->
            forall st0, P st0 -> for_rows body l st0 = Ok st -> P st) as Hgen.
  { induction l as [|row l IH]; intros Hsub st1 H1 Hrun.
    - simpl in Hrun. by injection Hrun as <-.
    - simpl in Hrun. destruct (body st1 row) as [st2|e] eqn:Hrow; [|done].
      apply (IH (fun r Hr => Hsub r (proj2 (elem_of_cons l r row) (or_intror Hr))) st2);
        [|done].
      apply (Hbody st1 row); [apply Hsub; left | done | done]. }
  by apply Hgen.
Qed.

Lemma Script_player_from_row row p :
  (3 <= length row)%nat ->
  Script.player_data row (team_text row) = Ok p -> player_from_row row p.
Proof.
  intros Hlen. unfold Script.player_data, player_from_row.
  destruct row as [|a [|b [|c [|d [|e rest]]]]]; simpl in Hlen; try lia;
    cbn; intros [= <-]; cbn; repeat (split; [done || (simpl; lia)|]); try done.
  all: by destruct e.
Qed.

Lemma Old_player_from_row row p :
  (3 <= length row)%nat ->
  Old.player_data row (team_text row) = Ok p -> player_from_row row p.
Proof.
  intros Hlen. rewrite <- (player_data_agree row _ Hlen). by apply Script_player_from_row.
Qed.

Lemma Old_entry_from_row row e :
  (4 <= length row)%nat -> Old.leaderboard_entry row = Ok e -> entry_from_row row e.
Proof.
  intros Hlen. unfold Old.leaderboard_entry, entry_from_row.
  destruct row as [|a [|b [|c [|d rest]]]]; simpl in Hlen; try lia.
  cbn [item lookup list_lookup mbind result_bind nth].
  destruct (PyStr.isdigit (PyStr.strip d)) eqn:Hd.
  - unfold int. destruct (PyStr.int d) as [pts|] eqn:Hint; [|done].
    cbn. intros [= <-]. cbn. repeat (split; [done || (simpl; lia)|]). by exists pts.
  - cbn. intros [= <-]. cbn. repeat (split; [done || (simpl; lia)|]). by exists 0.
Qed.

Lemma Script_entry_from_row row e :
  (4 <= length row)%nat -> Script.leaderboard_entry row = Ok e -> entry_from_row row e.
Proof.
  intros Hlen. rewrite (leaderboard_entry_agree row Hlen). by apply Old_entry_from_row.
Qed.

Lemma players_append_team team p d d' q :
  Old.append_team team p d = Ok d' -> q ∈ players d' -> q ∈ players d \/ q = p.
Proof.
  unfold Old.append_team, players.
  repeat (destruct (String.eqb team _);
          [intros [= <-]; cbn; rewrite !elem_of_app, ?list_elem_of_singleton; tauto|]).
  done.
Qed.

Lemma leaderboard_append_team team p d d' :
  Old.append_team team p d = Ok d' -> leaderboard d' = leaderboard d.
Proof.
  unfold Old.append_team.
  repeat (destruct (String.eqb team _); [by intros [= <-]|]). done.
Qed.

Lemma step_from_row_refl row d : step_from_row row d d.
Proof. split; intros x Hx; by left. Qed.

Lemma step_from_row_player row p d d' :
  player_from_row row p ->
  (forall q, q ∈ players d' -> q ∈ players d \/ q = p) ->
  leaderboard d' = leaderboard d ->
  step_from_row row d d'.
Proof.
  intros Hp Hq Hl. split.
  - intros q Hin. destruct (Hq q Hin) as [?| ->]; [by left | by right].
  - intros e. rewrite Hl. by left.
Qed.

Lemma step_from_row_entry row e d :
  entry_from_row row e -> step_from_row row d (append_leaderboard e d).
Proof.
  intros He. split.
  - intros q Hin. by left.
  - intros e'. cbn. rewrite elem_of_app, list_elem_of_singleton.
    intros [?| ->]; [by left | by right].
Qed.

Lemma Script_body_from_row st row st' :
  Script.body st row = Ok st' -> step_from_row row st.2 st'.2.
Proof.
  destruct st as [cs data]. cbn [snd]. unfold Script.body.
  destruct row as [|c0 row0] eqn:Hrow; [intros [= <-]; apply step_from_row_refl|].
  rewrite <- Hrow.
  rewrite Script_first_cell by (by rewrite Hrow). cbn [mbind result_bind].
  destruct (classify _); try (intros [= <-]; apply step_from_row_refl).
  rewrite !Script_team_cell. cbn [mbind result_bind].
  destruct (section_is cs red_blue && (3 <=? length row)%nat) eqn:Hrb.
  { apply andb_prop in Hrb as [_ Hlen%Nat.leb_le].
    destruct (Script.player_data row (team_text row)) as [p|err] eqn:Hp; [|done].
    apply (Script_player_from_row _ _ Hlen) in Hp. cbn [mbind result_bind].
    destruct (String.eqb (team_text row) "red").
    { intros [= <-]. apply (step_from_row_player row p); [done | | done].
      intros q. unfold players. cbn.
      rewrite !elem_of_app, ?list_elem_of_singleton. tauto. }
    destruct (String.eqb (team_text row) "blue").
    { intros [= <-]. apply (step_from_row_player row p); [done | | done].
      intros q. unfold players. cbn.
      rewrite !elem_of_app, ?list_elem_of_singleton. tauto. }
    intros [= <-]. apply step_from_row_refl. }
  destruct (section_is cs green_yellow && (3 <=? length row)%nat) eqn:Hgy.
  { apply andb_prop in Hgy as [_ Hlen%Nat.leb_le].
    destruct (Script.player_data row (team_text row)) as [p|err] eqn:Hp; [|done].
    apply (Script_player_from_row _ _ Hlen) in Hp. cbn [mbind result_bind].
    destruct (String.eqb (team_text row) "green").
    { intros [= <-]. apply (step_from_row_player row p); [done | | done].
      intros q. unfold players. cbn.
      rewrite !elem_of_app, ?list_elem_of_singleton. tauto. }
    destruct (String.eqb (team_text row) "yellow").
    { intros [= <-]. apply (step_from_row_player row p); [done | | done].
      intros q. unfold players. cbn.
      rewrite !elem_of_app, ?list_elem_of_singleton. tauto. }
    intros [= <-]. apply step_from_row_refl. }
  destruct (section_is cs in_leaderboard && (4 <=? length row)%nat) eqn:Hlb;
    [|intros [= <-]; apply step_from_row_refl].
  apply andb_prop in Hlb as [_ Hlen%Nat.leb_le].
  destruct (Script.leaderboard_entry row) as [ent|err] eqn:He; [|done].
  cbn [mbind result_bind]. intros [= <-]. cbn [snd].
  apply step_from_row_entry. by apply Script_entry_from_row.
Qed.

Lemma Old_body_from_row st row st' :
  Old.body st row = Ok st' -> step_from_row row st.2 st'.2.
Proof.
  destruct st as [cs data]. cbn [snd]. unfold Old.body.
  destruct row as [|c0 row0] eqn:Hrow; [intros [= <-]; apply step_from_row_refl|].
  rewrite <- Hrow.
  assert (item row 0 = Ok c0) as -> by (by rewrite Hrow).
  cbn [mbind result_bind].
  destruct (classify _); try (intros [= <-]; apply step_from_row_refl).
  destruct ((section_is cs red_blue || section_is cs green_yellow)
            && (3 <=? length row)%nat) eqn:Hteam.
  { apply andb_prop in Hteam as [_ Hlen%Nat.leb_le].
    assert (item row 1 = Ok (nth 1 row "")) as ->
      by (destruct row as [|a [|b r]]; simpl in Hlen; [lia | lia | done]).
    cbn [mbind result_bind]. fold (team_text row).
    destruct (negb _); [intros [= <-]; apply step_from_row_refl|].
    destruct (Old.player_data row (team_text row)) as [p|err] eqn:Hp; [|done].
    apply (Old_player_from_row _ _ Hlen) in Hp. cbn [mbind result_bind].
    destruct (Old.append_team _ p data) as [d'|err] eqn:Happ; [|done].
    cbn [mbind result_bind]. intros [= <-]. cbn [snd].
    apply (step_from_row_player row p); [done | |].
    - intros q. by apply (players_append_team (team_text row)).
    - by apply (leaderboard_append_team (team_text row) p). }
  destruct (section_is cs in_leaderboard && (4 <=? length row)%nat) eqn:Hlb;
    [|intros [= <-]; apply step_from_row_refl].
  apply andb_prop in Hlb as [_ Hlen%Nat.leb_le].
  destruct (Old.leaderboard_entry row) as [ent|err] eqn:He; [|done].
  cbn [mbind result_bind]. intros [= <-]. cbn [snd].
  apply step_from_row_entry. by apply Old_entry_from_row.
Qed.

Lemma data_from_rows_empty rows : data_from_rows rows empty_data.
Proof. split; intros x Hx; cbn in Hx; by apply elem_of_nil in Hx. Qed.

Lemma data_from_rows_step rows row d d' :
  row ∈ rows -> data_from_rows rows d -> step_from_row row d d' -> data_from_rows rows d'.
Proof.
  intros Hrow [Hp He] [Hp' He']. split.
  - intros p Hin. destruct (Hp' p Hin) as [?|?]; [by apply Hp | by exists row].
  - intros e Hin. destruct (He' e Hin) as [?|?]; [by apply He | by exists row].
Qed.

Lemma Script_parse_from_rows rows : data_from_rows rows (Script.parse_sheet_data rows).
Proof.
  unfold Script.parse_sheet_data, Script.parse_try.
  destruct (for_rows Script.body rows (None, empty_data)) as [st|err] eqn:Hrun;
    [|apply data_from_rows_empty].
  cbn [mbind result_bind mret result_ret].
  apply (for_rows_invariant_in Script.body (fun st => data_from_rows rows st.2) rows _ st)
    in Hrun; [done | | apply data_from_rows_empty].
  intros st0 row st1 Hrow H0 Hbody.
  apply (data_from_rows_step rows row st0.2); [done | done |].
  by apply Script_body_from_row.
Qed.

Lemma Old_parse_from_rows rows data :
  Old.parse_data rows = Ok data -> data_from_rows rows data.
Proof.
  unfold Old.parse_data.
  destruct (for_rows Old.body rows (None, empty_data)) as [st|err] eqn:Hrun; [|done].
  cbn [mbind result_bind mret result_ret]. intros [= <-].
  apply (for_rows_invariant_in Old.body (fun st => data_from_rows rows st.2) rows _ st)
    in Hrun; [done | | apply data_from_rows_empty].
  intros st0 row st1 Hrow H0 Hbody.
  apply (data_from_rows_step rows row st0.2); [done | done |].
  by apply Old_body_from_row.
Qed.

(** X2. Every player record the parsers build stems from a row of at least
    three cells and has all five keys: name, roll and status are the
    trimmed first, third and fifth cells, the team is the trimmed
    lower-cased team cell, and the coin text is the trimmed fourth cell, or
    "0" when that cell is missing or trims to the empty text; so the coin
    text is never empty.  Both files. *)
Theorem parsed_players_have_coins (rows : list RawRow) (p : Player.t) :
  (p ∈ players (Script.parse_sheet_data rows)
   \/ exists data, Old.parse_data rows = Ok data /\ p ∈ players data) ->
  (exists row, row ∈ rows
     /\ (3 <= length row)%nat
     /\ Player.Name p = Some (PyStr.strip (nth 0 row ""))
     /\ Player.Team p = Some (team_text row)
     /\ Player.Roll p = Some (PyStr.strip (nth 2 row ""))
     /\ Player.Chaos_coins p
        = Some (if String.eqb (PyStr.strip (nth 3 row "")) "" then "0"
                else PyStr.strip (nth 3 row ""))
     /\ Player.Status p = Some (PyStr.strip (nth 4 row "")))
  /\ Player.Chaos_coins p <> Some "".
Proof.
  intros H.
  assert (exists row, row ∈ rows /\ player_from_row row p) as (row & Hrow & Hp).
  { destruct H as [H | (data & Hparse & H)].
    - by apply (Script_parse_from_rows rows).
    - by apply (Old_parse_from_rows rows data Hparse). }
  split; [by exists row|].
  destruct Hp as (_ & _ & _ & _ & -> & _).
  destruct (String.eqb_spec (PyStr.strip (nth 3 row "")) ""); congruence.
Qed.

Lemma parsed_players_have_coins_witness :
  let rows := [["Red / Blue"]; ["Alice"; "red"; "10-20"; "  "]; ["Bob"; "Blue "; "1-6"]] in
  Forall (fun p => Player.Chaos_coins p = Some "0") (players (Script.parse_sheet_data rows)).
Proof.
  intros rows. apply Forall_forall. intros p Hp.
  destruct (parsed_players_have_coins rows p (or_introl Hp))
    as [(row & Hrow & _ & _ & _ & _ & Hcoins & _) _].
  rewrite Hcoins.
  repeat (apply elem_of_cons in Hrow as [->|Hrow]; [reflexivity|]).
  by apply elem_of_nil in Hrow.
Defined.

(** X3. Every leaderboard record the parsers build stems from a row of at
    least four cells; its points are 0 when the trimmed points cell is not
    all digits, and otherwise the number [int] reads from the cell, which
    is never negative.  Both files. *)
Theorem parsed_points_not_negative (rows : list RawRow) (e : Entry.t) :
  (e ∈ leaderboard (Script.parse_sheet_data rows)
   \/ exists data, Old.parse_data rows = Ok data /\ e ∈ leaderboard data) ->
  exists row pts,
    row ∈ rows /\ (4 <= length row)%nat
    /\ Entry.Position e = Some (PyStr.strip (nth 0 row ""))
    /\ Entry.Team e = Some (team_text row)
    /\ Entry.Combatant e = Some (PyStr.strip (nth 2 row ""))
    /\ Entry.Points e = Some pts
    /\ (if PyStr.isdigit (PyStr.strip (nth 3 row ""))
        then PyStr.int (nth 3 row "") = Some pts else pts = 0)
    /\ 0 <= pts.
Proof.
  intros H.
  assert (exists row, row ∈ rows /\ entry_from_row row e)
    as (row & Hrow & Hlen & Hpos & Hteam & Hname & pts & Hpts & Hval).
  { destruct H as [H | (data & Hparse & H)].
    - by apply (Script_parse_from_rows rows).
    - by apply (Old_parse_from_rows rows data Hparse). }
  exists row, pts. repeat (split; [done|]).
  destruct (PyStr.isdigit (PyStr.strip (nth 3 row ""))) eqn:Hd; [|lia].
  apply (int_after_isdigit_nonneg (nth 3 row "")); [done|].
  unfold int. by rewrite Hval.
Qed.

Lemma parsed_points_not_negative_witness :
  let rows := [["Leaderboard"]; ["1"; "red"; "Alice"; "-30"]; ["2"; "blue"; "Bob"; " 12 "]] in
  Forall (fun e => Entry.Points e = Some 0 \/ Entry.Points e = Some 12)
         (leaderboard (Script.parse_sheet_data rows)).
Proof.
  intros rows. apply Forall_forall. intros e He.
  destruct (parsed_points_not_negative rows e (or_introl He))
    as (row & pts & Hrow & Hlen & _ & _ & _ & Hpts & Hval & _).
  rewrite Hpts.
  apply elem_of_cons in Hrow as [->|Hrow]; [simpl in Hlen; lia|].
  apply elem_of_cons in Hrow as [->|Hrow]; [left; f_equal; exact Hval|].
  apply elem_of_cons in Hrow as [->|Hrow];
    [right; vm_compute in Hval; by injection Hval as <-|].
  by apply elem_of_nil in Hrow.
Defined.

(** ** The scoreboard *)

(** X7. With at most 16 players nobody is left out and nobody appears
    twice: the cards drawn are a rearrangement of the players' cards.
    Both files. *)
Theorem sixteen_players_all_shown (data : Data) :
  (length (players data) <= 16)%nat ->
  (snd <$> Script.generate_scoreboard_image data)
    ≡ₚ (Script.card (Script.leaderboard_dict (leaderboard data)) <$> players data)
  /\ (snd <$> Old.generate_scoreboard data)
    ≡ₚ (Old.card (Old.leaderboard_dict (leaderboard data)) <$> players data).
Proof.
  intros Hlen. split.
  - unfold Script.generate_scoreboard_image. rewrite draw_cards_cards, take_ge.
    + apply sort_desc_perm.
    + unfold Script.all_players. by rewrite length_sort_desc, length_fmap.
  - unfold Old.generate_scoreboard. rewrite draw_cards_cards, take_ge.
    + apply sort_desc_perm.
    + unfold Old.all_players. by rewrite length_sort_desc, length_fmap.
Qed.

Lemma sixteen_players_all_shown_witness :
  let data := mkData [alice] [] [] [] [alice_entry] in
  (snd <$> Script.generate_scoreboard_image data)
    ≡ₚ (Script.card (Script.leaderboard_dict (leaderboard data)) <$> players data).
Proof.
  intros data. apply (sixteen_players_all_shown data). simpl. lia.
Defined.

Lemma shown_or_lower (cards : list Card.t) a b :
  a ∈ take 16 (sort_desc Card.points cards) -> b ∈ cards ->
  b ∈ take 16 (sort_desc Card.points cards) \/ Card.points b <= Card.points a.
Proof.
  intros Ha Hb. rewrite <- (sort_desc_perm Card.points cards) in Hb.
  pose proof (sort_desc_descending Card.points cards) as Hs.
  rewrite <- (take_drop 16 (sort_desc Card.points cards)) in Hb, Hs.
  apply elem_of_app in Hb as [Hb|Hb]; [by left|]. right.
  by apply (StronglySorted_app_1_elem_of _ _ _ a b Hs).
Qed.

(** X8. The cut to 16 cards drops only players with the fewest points:
    every player's card either is among the cards drawn or has no more
    points than any card drawn.  Both files. *)
Theorem cut_drops_the_lowest (data : Data) :
  (forall a b,
      a ∈ (snd <$> Script.generate_scoreboard_image data) ->
      b ∈ Script.all_players data ->
      b ∈ (snd <$> Script.generate_scoreboard_image data)
      \/ Card.points b <= Card.points a)
  /\ (forall a b,
         a ∈ (snd <$> Old.generate_scoreboard data) ->
         b ∈ Old.all_players data ->
         b ∈ (snd <$> Old.generate_scoreboard data)
         \/ Card.points b <= Card.points a).
Proof.
  unfold Script.generate_scoreboard_image, Old.generate_scoreboard.
  rewrite !draw_cards_cards. split; intros a b; apply shown_or_lower.
Qed.

(** Of the seventeen players "p16", the last of those without points, is
    cut; "p1" is drawn with its five points. *)
Lemma cut_drops_the_lowest_witness :
  let shown := snd <$> Script.generate_scoreboard_image seventeen in
  let a := Card.mk "p1" "red" "1-6" "" 5 "0" in
  let b := Card.mk "p16" "red" "1-6" "" 0 "0" in
  length shown = 16%nat
  /\ a ∈ shown /\ b ∈ Script.all_players seventeen /\ (b ∉ shown)
  /\ Card.points b <= Card.points a.
Proof.
  intros shown a b.
  assert (a ∈ shown) as Ha by (vm_compute; right; left).
  assert (b ∈ Script.all_players seventeen) as Hb by (vm_compute; do 15 right; left).
  assert (b ∉ shown) as Hnot by (vm_compute; not_in_list).
  split; [reflexivity|]. split; [exact Ha|]. split; [exact Hb|]. split; [exact Hnot|].
  destruct (proj1 (cut_drops_the_lowest seventeen) a b Ha Hb) as [Hin|Hle];
    [by destruct (Hnot Hin) | exact Hle].
Defined.

Lemma isdigit_str_nonneg z : PyStr.isdigit (PyStr.str z) = true -> 0 <= z.
Proof.
  destruct z as [|p|p]; [lia | lia |].
  unfold PyStr.str. cbn [Z.to_int NilZero.string_of_int].
  unfold PyStr.isdigit. cbn [PyStr.all_chars]. intros H. exfalso.
  apply andb_prop in H as [H _]. vm_compute in H. discriminate.
Qed.

Section LeaderboardDictValues.
Context (standing : Entry.t -> Standing).

Let put (d : gmap string Standing) (p : Entry.t) : gmap string Standing :=
  match Entry.Combatant p with
  | Some c => <[PyStr.lower c := standing p]> d
  | None => d
  end.

(** Every value of the dictionary is the standing of some entry. *)
Lemma dict_values entries : forall d key v,
  foldl put d entries !! key = Some v ->
  d !! key = Some v \/ exists e, e ∈ entries /\ v = standing e.
Proof.
  induction entries as [|e entries IH]; intros d key v; simpl; [by left|].
  intros H. apply IH in H as [H | (e' & He' & ->)].
  - unfold put in H. destruct (Entry.Combatant e) as [c|]; [|by left].
    destruct (decide (PyStr.lower c = key)) as [<-|Hne].
    + rewrite lookup_insert_eq in H. injection H as <-.
      right. exists e. split; [left | done].
    + rewrite lookup_insert_ne in H by done. by left.
  - right. exists e'. split; [by right | done].
Qed.
End LeaderboardDictValues.

Lemma Script_standing_nonneg e : 0 <= st_points (Script.standing e).
Proof.
  unfold Script.standing. cbn [st_points].
  destruct (PyStr.isdigit _) eqn:Hd; [by apply isdigit_str_nonneg | lia].
Qed.

(** ** The update command *)

Lemma some_nonzero_true o :
  some_nonzero o = true -> exists z, o = Some z /\ z <> 0.
Proof.
  destruct o as [z|]; [|done]. simpl. intros H. exists z. split; [done|].
  intros ->. done.
Qed.

Lemma some_nonzero_Some z : z <> 0 -> some_nonzero (Some z) = true.
Proof. intros Hz. simpl. by destruct (Z.eqb_spec z 0). Qed.

Lemma Script_post_new_shows c file w :
  board_shows file (Script.post_new c file w)
  /\ (next_message_id w <> 0 -> c <> 0 -> ids_truthy (Script.post_new c file w)).
Proof.
  unfold Script.post_new, channel_send, board_shows, ids_truthy. cbn. split.
  - eexists _, _, _. repeat split; [apply lookup_insert_eq | apply lookup_insert_eq].
  - intros Hn Hc. split; by apply some_nonzero_Some.
Qed.

Lemma message_edit_shows c mid file w :
  message_id w = Some mid -> channel_id w = Some c ->
  board_shows file (message_edit c mid file w).
Proof.
  intros Hm Hc. unfold board_shows, message_edit. cbn.
  eexists _, _, _. repeat split; [done | done | apply lookup_insert_eq | apply lookup_insert_eq].
Qed.

Lemma Script_update_stats_shows i w :
  let file := Script.generate_scoreboard_image
                (Script.parse_sheet_data (default [] (worksheets w !! 1))) in
  board_shows file (Script.update_stats i w).1
  /\ (next_message_id w <> 0 -> channel i <> 0 -> ids_truthy (Script.update_stats i w).1).
Proof.
  intros file. unfold Script.update_stats. fold file.
  destruct (some_nonzero (message_id w) && some_nonzero (channel_id w)) eqn:Hids;
    [|apply Script_post_new_shows].
  apply andb_prop in Hids as [Hm Hc].
  destruct (some_nonzero_true _ Hm) as (mid & Hmid & Hmid0).
  destruct (some_nonzero_true _ Hc) as (c & Hcid & Hc0).
  rewrite Hmid, Hcid. cbn [from_option id].
  destruct (channels w !! c) as [msgs|]; [|apply Script_post_new_shows].
  destruct (msgs !! mid).
  - cbn [fst]. split; [by apply message_edit_shows|].
    intros _ _. unfold ids_truthy, message_edit. cbn [message_id channel_id]. by split.
  - cbn [fst]. destruct (Script_post_new_shows c file w) as [H1 H2].
    split; [done|]. intros Hn _. by apply H2.
Qed.

(** X10. After [update] of script.py the stored message and channel ids
    name a message that exists and carries the scoreboard of the current
    sheet, whichever of the four paths (edit, message gone, channel gone,
    first post) was taken. *)
Theorem script_update_leaves_board_current (i : Interaction) (w : World) :
  exists mid c msgs,
    message_id (Script.update_command i w).1 = Some mid
    /\ channel_id (Script.update_command i w).1 = Some c
    /\ channels (Script.update_command i w).1 !! c = Some msgs
    /\ msgs !! mid
       = Some (Script.generate_scoreboard_image
                 (Script.parse_sheet_data (default [] (worksheets w !! 1)))).
Proof. apply (Script_update_stats_shows i w). Qed.

(** X11. A second [update] of script.py edits the message of the first in
    place: it answers "Stats updated!", keeps both stored ids and posts no
    new message, provided the platform hands out ids other than 0. *)
Theorem script_second_update_edits (i i' : Interaction) (w : World) :
  next_message_id w <> 0 -> channel i <> 0 ->
  let w1 := (Script.update_command i w).1 in
  let w2 := (Script.update_command i' w1).1 in
  (Script.update_command i' w1).2 = [Defer true; Followup StatsUpdated true]
  /\ message_id w2 = message_id w1
  /\ channel_id w2 = channel_id w1
  /\ next_message_id w2 = next_message_id w1.
Proof.
  intros Hn Hc w1 w2. subst w2. unfold Script.update_command in *.
  destruct (Script_update_stats_shows i w) as [(mid & c & msgs & Hm & Hcid & Hch & Hmsg) Ht].
  destruct (Ht Hn Hc) as [Ht1 Ht2]. fold w1 in Hm, Hcid, Hch, Ht1, Ht2.
  unfold Script.update_stats at 1 2 3 4. rewrite Ht1, Ht2, Hm, Hcid. cbn [andb from_option id].
  by rewrite Hch, Hmsg.
Qed.

Lemma script_second_update_edits_witness :
  (Script.update_command guest (Script.update_command guest fresh_world).1).2
  = [Defer true; Followup StatsUpdated true].
Proof.
  apply (script_second_update_edits guest guest fresh_world); vm_compute; discriminate.
Defined.

Lemma Old_update_config_frame key value w :
  let w' := Old._update_config key value w in
  message_id w' = message_id w /\ channel_id w' = channel_id w
  /\ channels w' = channels w /\ next_message_id w' = next_message_id w
  /\ current_sheet w' = current_sheet w /\ worksheets w' = worksheets w
  /\ ACTIVE_SUBMISSIONS w' = ACTIVE_SUBMISSIONS w.
Proof.
  unfold Old._update_config.
  destruct (list_find _ (config_sheet w)) as [[row_index row]|]; by cbn.
Qed.

Lemma Old_create_shows c file w :
  let w' := Old._update_config "channel_id" (PyStr.str c)
              (Old._update_config "message_id" (PyStr.str (next_message_id w))
                 (set_ids (next_message_id w) c (channel_send c file w).2)) in
  board_shows file w'
  /\ (next_message_id w <> 0 -> c <> 0 -> ids_truthy w')
  /\ current_sheet w' = current_sheet w /\ worksheets w' = worksheets w.
Proof.
  set (w1 := set_ids (next_message_id w) c (channel_send c file w).2).
  set (w2 := Old._update_config "message_id" _ w1).
  intros w'.
  destruct (Old_update_config_frame "channel_id" (PyStr.str c) w2)
    as (Hm2 & Hc2 & Hch2 & _ & Hcs2 & Hws2 & _).
  destruct (Old_update_config_frame "message_id" (PyStr.str (next_message_id w)) w1)
    as (Hm & Hc & Hch & _ & Hcs & Hws & _).
  fold w2 in Hm, Hc, Hch, Hcs, Hws. fold w' in Hm2, Hc2, Hch2, Hcs2, Hws2.
  unfold board_shows, ids_truthy.
  rewrite Hm2, Hc2, Hch2, Hcs2, Hws2, Hm, Hc, Hch, Hcs, Hws.
  subst w1. unfold set_ids, channel_send. cbn. split; [|split; [|done]].
  - eexists _, _, _. repeat split; [apply lookup_insert_eq | apply lookup_insert_eq].
  - intros Hn Hc0. split; by apply some_nonzero_Some.
Qed.

Lemma Old_update_stats_shows i w n rows data :
  current_sheet w = Some n -> worksheets w !! n = Some rows ->
  Old.parse_data rows = Ok data ->
  let w' := (Old.update_stats i w).1 in
  board_shows (Old.generate_scoreboard data) w'
  /\ (next_message_id w <> 0 -> channel i <> 0 -> ids_truthy w')
  /\ current_sheet w' = current_sheet w /\ worksheets w' = worksheets w.
Proof.
  intros Hcs Hws Hparse. unfold Old.update_stats.
  assert (current_sheet w ≫= (fun n => worksheets w !! n) = Some rows) as ->
    by (by rewrite Hcs).
  rewrite Hparse.
  pose proof (Old_create_shows (channel i) (Old.generate_scoreboard data) w) as Hcreate.
  destruct (some_nonzero (message_id w) && some_nonzero (channel_id w)) eqn:Hids;
    [|exact Hcreate].
  apply andb_prop in Hids as [Hm Hc].
  destruct (some_nonzero_true _ Hm) as (mid & Hmid & Hmid0).
  destruct (some_nonzero_true _ Hc) as (c & Hcid & Hc0).
  rewrite Hmid, Hcid. cbn [from_option id].
  destruct (channels w !! c) as [msgs|]; [|exact Hcreate].
  destruct (msgs !! mid); [|exact Hcreate].
  cbn [fst]. split; [by apply message_edit_shows|]. split; [|done].
  intros _ _. unfold ids_truthy, message_edit. cbn [message_id channel_id]. by split.
Qed.

(** X12. [update] of old.py, invoked with the role, either fails as a
    whole or leaves the board current: when [parse_data] raises, the state
    is unchanged and the reply is the failure message; when it returns, the
    stored ids name an existing message that carries the scoreboard of the
    current sheet. *)
Theorem old_update_current_or_unchanged (i : Interaction) (w : World)
    (n : Z) (rows : list RawRow) :
  Old.has_permission i = true ->
  current_sheet w = Some n -> worksheets w !! n = Some rows ->
  (forall e, Old.parse_data rows = Raise e ->
     Old.update_command i w = (w, [Defer true; Followup FailedUpdate true]))
  /\ (forall data, Old.parse_data rows = Ok data ->
        exists mid c msgs,
          message_id (Old.update_command i w).1 = Some mid
          /\ channel_id (Old.update_command i w).1 = Some c
          /\ channels (Old.update_command i w).1 !! c = Some msgs
          /\ msgs !! mid = Some (Old.generate_scoreboard data)).
Proof.
  intros Hperm Hcs Hws. unfold Old.update_command. rewrite Hperm. cbn [negb].
  split.
  - intros e Hparse. unfold Old.update_stats.
    rewrite Hcs. cbn [mbind option_bind]. by rewrite Hws, Hparse.
  - intros data Hparse.
    by destruct (Old_update_stats_shows i w n rows data Hcs Hws Hparse) as [H _].
Qed.

Lemma old_update_current_or_unchanged_witness :
  let agent := with_roles ["Agent of Chaos"] guest in
  let w := mkWorld None None (Some 1) [] {[1 := superscript_rows]} ∅ 1000 ∅ [] in
  Old.update_command agent w = (w, [Defer true; Followup FailedUpdate true]).
Proof.
  intros agent w.
  destruct (old_update_current_or_unchanged agent w 1 superscript_rows) as [H _];
    [reflexivity | reflexivity | reflexivity |].
  apply (H ValueError). reflexivity.
Defined.

(** X13. A second [update] of old.py on an unchanged sheet edits the
    message of the first in place: it answers "Stats updated!", keeps both
    stored ids and posts no new message, provided the platform hands out
    ids other than 0. *)
Theorem old_second_update_edits (i i' : Interaction) (w : World)
    (n : Z) (rows : list RawRow) (data : Data) :
  Old.has_permission i = true -> Old.has_permission i' = true ->
  current_sheet w = Some n -> worksheets w !! n = Some rows ->
  Old.parse_data rows = Ok data ->
  next_message_id w <> 0 -> channel i <> 0 ->
  let w1 := (Old.update_command i w).1 in
  let w2 := (Old.update_command i' w1).1 in
  (Old.update_command i' w1).2 = [Defer true; Followup StatsUpdated true]
  /\ message_id w2 = message_id w1
  /\ channel_id w2 = channel_id w1
  /\ next_message_id w2 = next_message_id w1.
Proof.
  intros Hperm Hperm' Hcs Hws Hparse Hn Hc w1 w2. subst w2 w1.
  assert (forall j v, Old.has_permission j = true ->
            Old.update_command j v = Old.update_stats j v) as Hu
    by (intros j v Hj; unfold Old.update_command; by rewrite Hj).
  rewrite !Hu by done. set (w1 := (Old.update_stats i w).1).
  destruct (Old_update_stats_shows i w n rows data Hcs Hws Hparse)
    as ((mid & c & msgs & Hm & Hcid & Hch & Hmsg) & Ht & Hcs1 & Hws1).
  destruct (Ht Hn Hc) as [Ht1 Ht2]. fold w1 in Hm, Hcid, Hch, Ht1, Ht2, Hcs1, Hws1.
  unfold Old.update_stats at 1 2 3 4.
  assert (current_sheet w1 ≫= (fun n => worksheets w1 !! n) = Some rows) as ->
    by (by rewrite Hcs1, Hws1, Hcs).
  rewrite Hparse, Ht1, Ht2, Hm, Hcid. cbn [andb from_option id].
  by rewrite Hch, Hmsg.
Qed.

Lemma old_second_update_edits_witness :
  let agent := with_roles ["Agent of Chaos"] guest in
  (Old.update_command agent (Old.update_command agent fresh_world).1).2
  = [Defer true; Followup StatsUpdated true].
Proof.
  intros agent.
  apply (old_second_update_edits agent agent fresh_world 1 scenario_rows_one_cell
           (mkData [alice] [] [] [] [alice_entry]));
    try reflexivity; vm_compute; discriminate.
Defined.

(** ** Anonymous answers, in general *)

(** X14. Whatever the shuffle, showanswers reveals every pending message
    exactly once: there is a rearrangement of the pending submissions such
    that the public lines are its messages numbered from 1 and the author
    mapping pairs the same numbers with the authors and messages of the same
    entries; afterwards nothing is pending. *)
Theorem showanswers_reveals_each_once (draws : list nat) (i : Interaction) (w : World) :
  Old.has_permission i = true ->
  ACTIVE_SUBMISSIONS w <> [] ->
  exists shuffled,
    shuffled ≡ₚ ACTIVE_SUBMISSIONS w
    /\ (Old.show_anon draws i w).2
       = [Respond (AnonymousMessages (Old.public_line <$> enumerate shuffled)) false;
          Followup (AuthorMapping
                      ((fun im => (Z.of_nat im.1 + 1, author_name i w im.2.1, im.2.2))
                         <$> enumerate shuffled)) true]
    /\ ACTIVE_SUBMISSIONS (Old.show_anon draws i w).1 = [].
Proof.
  intros Hperm Hne. exists (shuffle draws (ACTIVE_SUBMISSIONS w)).
  split; [apply shuffle_perm|].
  unfold Old.show_anon. rewrite Hperm. cbn [negb].
  by destruct (ACTIVE_SUBMISSIONS w).
Qed.

Lemma showanswers_reveals_each_once_witness :
  let agent := with_roles ["Agent of Chaos"] guest in
  let w := set_submissions [(11, "hi"); (12, "bye"); (13, "why")] fresh_world in
  exists shuffled,
    shuffled ≡ₚ [(11, "hi"); (12, "bye"); (13, "why")]
    /\ ACTIVE_SUBMISSIONS (Old.show_anon [2%nat; 0%nat] agent w).1 = [].
Proof.
  intros agent w.
  destruct (showanswers_reveals_each_once [2%nat; 0%nat] agent w) as (sh & Hsh & _ & Hclear);
    [reflexivity | discriminate |].
  exists sh. by split.
Defined.

Lemma dict_set_keys k v d :
  k ∈ (fst <$> d) -> (fst <$> dict_set k v d) = (fst <$> d).
Proof.
  induction d as [|[k' v'] d IH]; cbn [dict_set fmap list_fmap fst].
  - by intros ?%elem_of_nil.
  - destruct (Z.eqb_spec k' k) as [->|Hne]; [done|].
    intros [?|Hin]%elem_of_cons; [congruence|].
    cbn [fmap list_fmap fst]. f_equal. by apply IH.
Qed.

Lemma dict_set_new_key k v d :
  k ∉ (fst <$> d) -> dict_set k v d = (d ++ [(k, v)])%list.
Proof.
  induction d as [|[k' v'] d IH]; cbn [dict_set fmap list_fmap fst]; [done|].
  intros Hnot. apply not_elem_of_cons in Hnot as [Hne Hnot].
  destruct (Z.eqb_spec k' k) as [->|_]; [done|].
  cbn. f_equal. by apply IH.
Qed.

Lemma dict_set_NoDup k v d :
  NoDup (fst <$> d) -> NoDup (fst <$> dict_set k v d).
Proof.
  intros Hd. destruct (decide (k ∈ (fst <$> d))) as [Hin|Hnot].
  - by rewrite dict_set_keys.
  - rewrite dict_set_new_key by done. rewrite fmap_app. cbn.
    apply NoDup_app. split; [done|]. split; [|apply NoDup_singleton].
    intros x Hx ->%list_elem_of_singleton. done.
Qed.

Lemma dict_set_elem k v d u m :
  NoDup (fst <$> d) ->
  (u, m) ∈ dict_set k v d <-> (u = k /\ m = v) \/ (u <> k /\ (u, m) ∈ d).
Proof.
  induction d as [|[k' v'] d IH]; cbn [dict_set fmap list_fmap fst]; intros Hd.
  - rewrite list_elem_of_singleton, elem_of_nil. split.
    + intros [= -> ->]. by left.
    + intros [[-> ->]|[_ []]]. done.
  - apply NoDup_cons in Hd as [Hk' Hd].
    destruct (Z.eqb_spec k' k) as [->|Hne]; rewrite !elem_of_cons.
    + split.
      * intros [[= -> ->] | Hin]; [by left|].
        right. split; [|by right].
        intros ->. apply Hk'. apply list_elem_of_fmap. by exists (k, m).
      * intros [[-> ->] | [Hu [[= -> ->] | Hin]]]; [by left | done | by right].
    + rewrite (IH Hd). split.
      * intros [[= -> ->] | [[-> ->] | [Hu Hin]]];
          [right; split; [done | by left] | by left | right; split; [done | by right]].
      * intros [[-> ->] | [Hu [[= -> ->] | Hin]]];
          [right; by left | by left | right; right; by split].
Qed.

(** X15. A user has at most one pending answer, the latest: after
    [answer], the store holds the user's new message and no other message
    of that user, the other users' answers are as before, and no user id
    occurs twice. *)
Theorem answer_replaces_own_previous (i : Interaction) (message : string) (w : World) :
  NoDup (fst <$> ACTIVE_SUBMISSIONS w) ->
  let store' := ACTIVE_SUBMISSIONS (Old.anon_submit i message w).1 in
  NoDup (fst <$> store')
  /\ (user_id i, message) ∈ store'
  /\ (forall m, (user_id i, m) ∈ store' -> m = message)
  /\ (forall u m, u <> user_id i -> (u, m) ∈ store' <-> (u, m) ∈ ACTIVE_SUBMISSIONS w).
Proof.
  intros Hd store'. subst store'. cbn [Old.anon_submit fst set_submissions ACTIVE_SUBMISSIONS].
  split; [by apply dict_set_NoDup|].
  split; [apply dict_set_elem; [done | by left]|].
  split.
  - intros m Hin. apply dict_set_elem in Hin as [[_ ->] | [Hne _]]; done.
  - intros u m Hu. rewrite dict_set_elem by done. split.
    + intros [[-> _] | [_ Hin]]; done.
    + intros Hin. by right.
Qed.

Lemma answer_replaces_own_previous_witness :
  let w := set_submissions [(7, "first"); (12, "bye")] fresh_world in
  ACTIVE_SUBMISSIONS (Old.anon_submit guest "second" w).1 = [(7, "second"); (12, "bye")]
  /\ forall m, (7, m) ∈ ACTIVE_SUBMISSIONS (Old.anon_submit guest "second" w).1 -> m = "second".
Proof.
  intros w. split; [reflexivity|].
  destruct (answer_replaces_own_previous guest "second" w) as (_ & _ & H & _); [|exact H].
  cbn. apply NoDup_cons. split; [|apply NoDup_singleton].
  intros H%list_elem_of_singleton. discriminate.
Defined.

(** ** The roll command *)

Lemma randint_within draws a b r :
  randint draws a b = Ok r -> a <= r.1 <= b.
Proof.
  unfold randint. destruct (Z.leb_spec a b) as [Hab|]; [|done].
  intros [= <-]. cbn [fst].
  pose proof (Z.mod_pos_bound (Z.of_nat (hd 0%nat draws)) (b - a + 1)). lia.
Qed.

Lemma randint_reversed draws a b : b < a -> randint draws a b = Raise ValueError.
Proof. unfold randint. intros Hba. by destruct (Z.leb_spec a b); [lia|]. Qed.

Lemma roll_team_lines members : forall team_players draws results,
  roll_team draws members team_players = Ok results ->
  Forall line_within results
  /\ ((fun l => (rl_min l, rl_max l)) <$> results) = (player_bounds <$> team_players).
Proof.
  induction team_players as [|player rest IH]; intros draws results; cbn [roll_team].
  - intros [= <-]. by split.
  - destruct (player_bounds player) as [lo hi] eqn:Hb.
    destruct (randint draws lo hi) as [rolled|] eqn:Hr; [|done].
    cbn [mbind result_bind].
    destruct (getitem (Player.Name player)) as [name|]; [|done].
    cbn [mbind result_bind].
    destruct (roll_team rolled.2 members rest) as [lines|] eqn:Hrest; [|done].
    cbn [mbind result_bind]. intros [= <-].
    destruct (IH _ _ Hrest) as [Hw Hbs]. split.
    + constructor; [|done]. unfold line_within. cbn. by apply (randint_within draws).
    + cbn. by rewrite Hbs, Hb.
Qed.

Lemma roll_for_team_within blank_line draws i team data :
  Forall rolls_within (roll_for_team blank_line draws i team data).
Proof.
  unfold roll_for_team. destruct (negb _); [roll_events|].
  destruct (team_list data (PyStr.lower team)) as [|p ps] eqn:Hl; [roll_events|].
  destruct (roll_team _ _ _) as [results|] eqn:Hr; [|roll_events].
  apply roll_team_lines in Hr as [Hw _]. roll_events.
Qed.

Lemma Script_roll_single_within draws i data :
  Forall rolls_within (Script.roll_single draws i data).
Proof.
  unfold Script.roll_single.
  destruct (Script.search_teams _ _ _ _) as [[player_team roll_range]|];
    [|roll_events].
  destruct (negb _); [roll_events|].
  destruct (roll_bounds roll_range) as [lo hi].
  destruct (randint draws lo hi) as [rolled|] eqn:Hr; [|roll_events].
  apply randint_within in Hr. roll_events.
Qed.

Lemma Old_roll_single_within draws i data :
  Forall rolls_within (Old.roll_single draws i data).
Proof.
  unfold Old.roll_single.
  destruct (first_match _ _) as [[player|]|]; try (by roll_events).
  destruct (player_bounds player) as [lo hi].
  destruct (randint draws lo hi) as [rolled|] eqn:Hr; [|roll_events].
  apply randint_within in Hr. cbn [mbind result_bind].
  destruct (getitem (Player.Team player)); roll_events.
Qed.

(** X16. Every roll the command reports lies within the bounds reported
    with it, for the single roll and for each line of a team roll, whatever
    the random generator yields.  Both files. *)
Theorem reported_rolls_within_bounds (draws : list nat) (i : Interaction)
    (team : option string) (w : World) :
  Forall rolls_within (Script.roll_command draws i team w)
  /\ Forall rolls_within (Old.roll_command draws i team w).
Proof.
  split.
  - unfold Script.roll_command.
    destruct (PyStr.truthy _); [apply roll_for_team_within | apply Script_roll_single_within].
  - unfold Old.roll_command.
    destruct (_ ≫= _); [|roll_events].
    destruct (Old.parse_data _); [|roll_events].
    destruct (PyStr.truthy _); [apply roll_for_team_within | apply Old_roll_single_within].
Qed.

Lemma roll_team_reversed members player : forall team_players draws,
  player ∈ team_players ->
  (player_bounds player).2 < (player_bounds player).1 ->
  exists e, roll_team draws members team_players = Raise e.
Proof.
  induction team_players as [|p rest IH]; intros draws Hin Hrev;
    [by apply elem_of_nil in Hin|].
  cbn [roll_team]. destruct (player_bounds p) as [lo hi] eqn:Hb.
  destruct (randint draws lo hi) as [rolled|] eqn:Hr; [|by eexists].
  cbn [mbind result_bind].
  destruct (getitem (Player.Name p)) as [name|]; [|by eexists].
  cbn [mbind result_bind].
  apply elem_of_cons in Hin as [->|Hin].
  - rewrite Hb in Hrev. cbn in Hrev. rewrite randint_reversed in Hr by done. done.
  - destruct (IH rolled.2 Hin Hrev) as [e ->]. by eexists.
Qed.

Lemma team_list_in_teams data team player :
  player ∈ team_list data team -> in_teams team = true.
Proof.
  unfold team_list, in_teams, TEAMS. cbn [existsb].
  destruct (String.eqb team "red"); [done|].
  destruct (String.eqb team "blue"); [done|].
  destruct (String.eqb team "green"); [done|].
  destruct (String.eqb team "yellow"); [done|].
  by intros ?%elem_of_nil.
Qed.

Lemma roll_for_team_reversed blank_line draws i team data player :
  player ∈ team_list data (PyStr.lower team) ->
  (player_bounds player).2 < (player_bounds player).1 ->
  roll_for_team blank_line draws i team data = [RollDefer; RollFollowup RollWentWrong true].
Proof.
  intros Hin Hrev. unfold roll_for_team.
  rewrite (team_list_in_teams _ _ _ Hin). cbn [negb].
  destruct (team_list data (PyStr.lower team)) as [|p ps] eqn:Hl;
    [by apply elem_of_nil in Hin|].
  by destruct (roll_team_reversed (guild_members i) player (p :: ps) draws Hin Hrev) as [e ->].
Qed.

(** X17. One reversed range spoils the team roll: when a member of the
    team has a roll text whose lower bound exceeds the upper one, such as
    "10-5", the command reports none of the rolls and answers only that
    something went wrong.  Both files. *)
Theorem reversed_range_fails_team_roll (draws : list nat) (i : Interaction)
    (team : string) (w : World) (player : Player.t) :
  team <> "" ->
  (player_bounds player).2 < (player_bounds player).1 ->
  (player ∈ team_list (Script.parse_sheet_data (default [] (worksheets w !! 1)))
                      (PyStr.lower team) ->
   Script.roll_command draws i (Some team) w = [RollDefer; RollFollowup RollWentWrong true])
  /\ (forall n rows data,
         current_sheet w = Some n -> worksheets w !! n = Some rows ->
         Old.parse_data rows = Ok data ->
         player ∈ team_list data (PyStr.lower team) ->
         Old.roll_command draws i (Some team) w = [RollDefer; RollFollowup RollWentWrong true]).
Proof.
  intros Hteam Hrev.
  assert (PyStr.truthy (default "" (Some team)) = true) as Ht by (by destruct team).
  split.
  - intros Hin. unfold Script.roll_command. rewrite Ht.
    by apply (roll_for_team_reversed _ _ _ _ _ player).
  - intros n rows data Hcs Hws Hparse Hin. unfold Old.roll_command.
    assert (current_sheet w ≫= (fun n => worksheets w !! n) = Some rows) as ->
      by (by rewrite Hcs).
    rewrite Hparse, Ht. by apply (roll_for_team_reversed _ _ _ _ _ player).
Qed.

Lemma reversed_range_fails_team_roll_witness :
  let w := mkWorld None None (Some 1) []
             {[1 := [["Red / Blue"]; ["Alice"; "red"; "10-20"]; ["Bob"; "red"; "10-5"]]]}
             ∅ 1000 ∅ [] in
  Script.roll_command [3%nat; 4%nat] guest (Some "Red") w
  = [RollDefer; RollFollowup RollWentWrong true].
Proof.
  intros w.
  apply (reversed_range_fails_team_roll [3%nat; 4%nat] guest "Red" w
           (Player.mk (Some "Bob") (Some "red") (Some "10-5") (Some "0") (Some "")));
    [discriminate | vm_compute; reflexivity | vm_compute; right; left].
Defined.

Lemma lower_char_idemp c : PyStr.lower_char (PyStr.lower_char c) = PyStr.lower_char c.
Proof. destruct c as [[] [] [] [] [] [] [] []]; reflexivity. Qed.

Lemma lower_idemp s : PyStr.lower (PyStr.lower s) = PyStr.lower s.
Proof.
  induction s as [|c s IH]; [done|]. cbn [PyStr.lower]. by rewrite lower_char_idemp, IH.
Qed.

Lemma truthy_lower s : PyStr.truthy (PyStr.lower s) = PyStr.truthy s.
Proof. by destruct s. Qed.

(** X18. The team argument of the roll command is read without regard to
    case, and a text that names none of the four teams is turned down
    before any roll: script.py then answers "Invalid team!", and so does
    old.py once [parse_data] has returned.  *)
Theorem roll_team_argument (draws : list nat) (i : Interaction) (team : string) (w : World) :
  (Script.roll_command draws i (Some team) w
   = Script.roll_command draws i (Some (PyStr.lower team)) w
   /\ Old.roll_command draws i (Some team) w
      = Old.roll_command draws i (Some (PyStr.lower team)) w)
  /\ (team <> "" -> in_teams (PyStr.lower team) = false ->
      Script.roll_command draws i (Some team) w = [RollDefer; RollFollowup InvalidTeam false]
      /\ forall n rows data,
           current_sheet w = Some n -> worksheets w !! n = Some rows ->
           Old.parse_data rows = Ok data ->
           Old.roll_command draws i (Some team) w
           = [RollDefer; RollFollowup InvalidTeam false]).
Proof.
  split.
  - unfold Script.roll_command, Old.roll_command, roll_for_team. cbn [from_option id].
    by rewrite truthy_lower, lower_idemp.
  - intros Hteam Hin.
    assert (PyStr.truthy (default "" (Some team)) = true) as Ht by (by destruct team).
    split.
    + unfold Script.roll_command, roll_for_team. rewrite Ht. cbn [from_option id].
      by rewrite Hin.
    + intros n rows data Hcs Hws Hparse. unfold Old.roll_command, roll_for_team.
      assert (current_sheet w ≫= (fun n => worksheets w !! n) = Some rows) as ->
        by (by rewrite Hcs).
      rewrite Hparse, Ht. cbn [from_option id]. by rewrite Hin.
Qed.

Lemma roll_team_argument_witness :
  Script.roll_command [] guest (Some "Purple") fresh_world
  = [RollDefer; RollFollowup InvalidTeam false].
Proof.
  apply (proj2 (roll_team_argument [] guest "Purple" fresh_world));
    [discriminate | reflexivity].
Defined.

Lemma first_match_app player_name a b :
  first_match player_name (a ++ b) =
  match first_match player_name a with
  | Ok None => first_match player_name b
  | r => r
  end.
Proof.
  induction a as [|p a IH]; cbn [first_match app]; [done|].
  destruct (getitem (Player.Name p)) as [name|]; [|done]. cbn [mbind result_bind].
  by destruct (PyStr.contains _ _).
Qed.

Lemma first_match_elem player_name : forall team_players p,
  first_match player_name team_players = Ok (Some p) -> p ∈ team_players.
Proof.
  induction team_players as [|q rest IH]; intros p; cbn [first_match]; [done|].
  destruct (getitem (Player.Name q)) as [name|]; [|done]. cbn [mbind result_bind].
  destruct (PyStr.contains _ _).
  - intros [= <-]. left.
  - intros H. right. by apply IH.
Qed.

(** On rosters whose records have a team and a roll text, the nested
    search of script.py finds the first match of the four lists in a row. *)
Lemma search_teams_first_match player_name : forall teams player_team roll_range,
  Forall (Forall (fun p => exists t, player_ok t p /\ t <> "")) teams ->
  PyStr.truthy (default "" player_team) = false ->
  Script.search_teams player_name teams player_team roll_range =
  match first_match player_name (concat teams) with
  | Ok (Some p) => Ok (Player.Team p, default "" (Player.Roll p))
  | Ok None => Ok (player_team, roll_range)
  | Raise e => Raise e
  end.
Proof.
  induction teams as [|ps teams IH]; intros pt rr Hok Hpt; [done|].
  apply Forall_cons_1 in Hok as [Hps Hteams].
  cbn [Script.search_teams concat]. rewrite first_match_app.
  destruct (first_match player_name ps) as [[p|]|] eqn:Hfm;
    cbn [mbind result_bind mret result_ret fst snd].
  - apply first_match_elem in Hfm. rewrite Forall_forall in Hps.
    destruct (Hps p Hfm) as (t & (Ht & _ & [r Hr] & _) & Hne).
    rewrite Ht, Hr. cbn. by destruct t.
  - rewrite Hpt. by apply IH.
  - done.
Qed.

Lemma data_ok_teams data :
  data_ok data ->
  Forall (Forall (fun p => exists t, player_ok t p /\ t <> ""))
         [red_team data; blue_team data; green_team data; yellow_team data].
Proof.
  intros (Hr & Hb & Hg & Hy & _).
  repeat (apply Forall_cons_2); [| | | | apply Forall_nil_2];
    (eapply Forall_impl; [eassumption|]); intros p Hp; by eexists.
Qed.

Lemma roll_single_agree draws i data :
  data_ok data -> Script.roll_single draws i data = Old.roll_single draws i data.
Proof.
  intros Hd. unfold Script.roll_single, Old.roll_single.
  rewrite (search_teams_first_match _ _ _ _ (data_ok_teams data Hd)) by done.
  cbn [concat]. rewrite app_nil_r.
  destruct (first_match _ _) as [[p|]|] eqn:Hfm; [|done|done].
  apply first_match_elem in Hfm.
  assert (exists t, player_ok t p /\ t <> "") as (t & (Ht & _ & [r Hr] & _) & Hne).
  { pose proof (data_ok_teams data Hd) as Hall.
    rewrite !elem_of_app in Hfm.
    repeat (apply Forall_cons_1 in Hall as [? Hall]).
    destruct Hfm as [?|[?|[?|?]]];
      match goal with
      | H : Forall _ ?l, Hin : p ∈ ?l |- _ => rewrite Forall_forall in H; by apply H
      end. }
  unfold player_bounds. rewrite Ht, Hr. cbn [from_option id].
  assert (PyStr.truthy t = true) as -> by (by destruct t). cbn [negb].
  destruct (roll_bounds r) as [lo hi].
  by destruct (randint draws lo hi).
Qed.

Lemma roll_for_team_layout blank_line draws i team data :
  without_blank_line <$> roll_for_team blank_line draws i team data
  = roll_for_team false draws i team data.
Proof.
  unfold roll_for_team. destruct (negb _); [done|].
  destruct (team_list data (PyStr.lower team)); [done|].
  by destruct (roll_team _ _ _).
Qed.

Lemma roll_for_team_flag blank_line draws i team data t b results ephemeral :
  RollFollowup (TeamRollResults t b results) ephemeral
    ∈ roll_for_team blank_line draws i team data ->
  b = blank_line.
Proof.
  unfold roll_for_team. destruct (negb _); [by not_in_list|].
  destruct (team_list data (PyStr.lower team)); [by not_in_list|].
  destruct (roll_team _ _ _); [|by not_in_list].
  intros [H|H]%elem_of_cons; [discriminate|].
  apply elem_of_cons in H as [[= _ -> _ _]|H]; [done | by apply elem_of_nil in H].
Qed.

Lemma Script_roll_single_no_team_results draws i data t b results ephemeral :
  RollFollowup (TeamRollResults t b results) ephemeral ∉ Script.roll_single draws i data.
Proof.
  unfold Script.roll_single.
  destruct (Script.search_teams _ _ _ _) as [[player_team roll_range]|]; [|by not_in_list].
  destruct (negb _); [by not_in_list|].
  destruct (roll_bounds roll_range) as [lo hi].
  destruct (randint draws lo hi); by not_in_list.
Qed.

Lemma Old_roll_single_no_team_results draws i data t b results ephemeral :
  RollFollowup (TeamRollResults t b results) ephemeral ∉ Old.roll_single draws i data.
Proof.
  unfold Old.roll_single.
  destruct (first_match _ _) as [[player|]|]; try (by not_in_list).
  destruct (player_bounds player) as [lo hi].
  destruct (randint draws lo hi); [|by not_in_list]. cbn [mbind result_bind].
  destruct (getitem (Player.Team player)); by not_in_list.
Qed.

(** X19. When both files read the same sheet and the sheet is consistent
    (every data row of a team-pair block names a team of its block), their
    roll commands give the same answer but for the layout of the team-roll
    result message: the answer of old.py is the answer of script.py without
    the empty line after the header of that message, which script.py always
    has and old.py never.  For a single roll the answers are equal: the
    nested search loops of script.py pick the player that the single search
    of old.py picks. *)
Theorem roll_commands_agree (draws : list nat) (i : Interaction) (team : option string)
    (w : World) (rows : list RawRow) (data : Data) :
  current_sheet w = Some 1 -> worksheets w !! 1 = Some rows ->
  pair_consistent None rows = true ->
  Old.parse_data rows = Ok data ->
  Old.roll_command draws i team w
  = without_blank_line <$> Script.roll_command draws i team w
  /\ (forall t b results ephemeral,
        RollFollowup (TeamRollResults t b results) ephemeral
          ∈ Script.roll_command draws i team w -> b = true)
  /\ (forall t b results ephemeral,
        RollFollowup (TeamRollResults t b results) ephemeral
          ∈ Old.roll_command draws i team w -> b = false)
  /\ (PyStr.truthy (default "" team) = false ->
      Script.roll_command draws i team w = Old.roll_command draws i team w).
Proof.
  intros Hcs Hws Hok Hparse. unfold Script.roll_command, Old.roll_command.
  assert (current_sheet w ≫= (fun n => worksheets w !! n) = Some rows) as ->
    by (by rewrite Hcs).
  rewrite Hws, Hparse. cbn [from_option id].
  unfold Script.parse_sheet_data. rewrite (parse_try_agree rows Hok), Hparse.
  pose proof (Old_parse_data_ok rows data Hparse) as Hd.
  destruct (PyStr.truthy _).
  - split; [by rewrite roll_for_team_layout|].
    split; [intros t b results e; apply roll_for_team_flag|].
    split; [intros t b results e; apply roll_for_team_flag | done].
  - rewrite (roll_single_agree draws i data Hd).
    split.
    { assert (forall evs : list RollEvent,
                (forall t b results e, RollFollowup (TeamRollResults t b results) e ∉ evs) ->
                evs = without_blank_line <$> evs) as Hsame.
      { induction evs as [|ev evs IH]; [done|]. intros Hno. cbn [fmap list_fmap].
        rewrite <- IH by (intros t b r e Hin; apply (Hno t b r e); by right).
        f_equal. destruct ev as [|[] e]; try done.
        exfalso. eapply Hno. by left. }
      apply Hsame. intros t b results e. apply Old_roll_single_no_team_results. }
    split; [intros t b results e Hin; by apply Old_roll_single_no_team_results in Hin|].
    split; [intros t b results e Hin; by apply Old_roll_single_no_team_results in Hin|].
    done.
Qed.

Lemma roll_commands_agree_witness :
  Old.roll_command [5%nat] guest (Some "red") fresh_world
  = [RollDefer;
     RollFollowup (TeamRollResults "red" false [mkRollLine "Alice" 15 10 20]) false]
  /\ Script.roll_command [5%nat] guest (Some "red") fresh_world
     = [RollDefer;
        RollFollowup (TeamRollResults "red" true [mkRollLine "Alice" 15 10 20]) false].
Proof.
  destruct (roll_commands_agree [5%nat] guest (Some "red") fresh_world scenario_rows_one_cell
              (mkData [alice] [] [] [] [alice_entry])) as (Hold & _);
    [reflexivity | reflexivity | reflexivity | reflexivity |].
  split; [rewrite Hold|]; vm_compute; reflexivity.
Defined.

(** ** Numbers written to the sheet and read back *)

Lemma int_digits_of_uint d : forall acc,
  PyStr.int_digits acc true (NilEmpty.string_of_uint d) = Some (uint_value d acc).
Proof.
  induction d; intros acc; cbn [NilEmpty.string_of_uint uint_value]; [done|..];
    cbn [PyStr.int_digits];
    match goal with
    | |- context [Ascii.eqb ?c "_"] =>
        change (Ascii.eqb c "_") with false;
        change (PyStr.isdecimal_char c) with true;
        cbv beta iota
    end;
    match goal with
    | |- PyStr.int_digits ?a true _ = Some (uint_value _ ?b) =>
        replace a with b by (vm_compute (Z.of_N _); lia)
    end; apply IHd.
Qed.

Lemma int_digits_of_uint_start d :
  d <> Decimal.Nil ->
  PyStr.int_digits 0 false (NilEmpty.string_of_uint d) = Some (uint_value d 0).
Proof.
  intros Hd. destruct d; [done|..];
    cbn [NilEmpty.string_of_uint uint_value PyStr.int_digits];
    match goal with
    | |- context [Ascii.eqb ?c "_"] =>
        change (Ascii.eqb c "_") with false;
        change (PyStr.isdecimal_char c) with true;
        cbv beta iota
    end;
    match goal with
    | |- PyStr.int_digits ?a true _ = Some (uint_value _ ?b) =>
        replace a with b by (vm_compute (Z.of_N _); lia)
    end; apply int_digits_of_uint.
Qed.

Lemma uint_value_of_uint_acc d : forall p,
  Z.pos (Pos.of_uint_acc d p) = uint_value d (Z.pos p).
Proof.
  induction d; intros p; cbn [Pos.of_uint_acc uint_value]; [done|..];
    rewrite IHd; f_equal; lia.
Qed.

Lemma uint_value_of_uint d : Z.of_N (Pos.of_uint d) = uint_value d 0.
Proof.
  induction d; cbn [Pos.of_uint uint_value]; [done | exact IHd |..];
    cbn [Z.of_N]; by rewrite uint_value_of_uint_acc.
Qed.

Lemma digits_of_uint d :
  PyStr.all_chars PyStr.isdecimal_char (NilEmpty.string_of_uint d) = true.
Proof. induction d; cbn [NilEmpty.string_of_uint PyStr.all_chars]; [done|..]; exact IHd. Qed.

Lemma decimal_not_space c : PyStr.isdecimal_char c = true -> PyStr.isspace c = false.
Proof. destruct c as [[] [] [] [] [] [] [] []]; try discriminate; reflexivity. Qed.

Lemma rstrip_digits s :
  PyStr.all_chars PyStr.isdecimal_char s = true -> PyStr.rstrip s = s.
Proof.
  induction s as [|c s IH]; [done|]. cbn [PyStr.all_chars PyStr.rstrip].
  intros [Hc Hs]%andb_prop. rewrite (IH Hs), (decimal_not_space c Hc). by destruct s.
Qed.

Lemma strip_digits s :
  PyStr.all_chars PyStr.isdecimal_char s = true -> PyStr.strip s = s.
Proof.
  intros Hs. unfold PyStr.strip.
  assert (PyStr.lstrip s = s) as ->; [|by apply rstrip_digits].
  destruct s as [|c s]; [done|]. cbn [PyStr.all_chars] in Hs.
  apply andb_prop in Hs as [Hc _]. cbn [PyStr.lstrip]. by rewrite (decimal_not_space c Hc).
Qed.

Lemma str_pos p :
  PyStr.str (Z.pos p) = NilEmpty.string_of_uint (Pos.to_uint p)
  /\ NilEmpty.string_of_uint (Pos.to_uint p) <> "".
Proof.
  unfold PyStr.str. cbn [Z.to_int NilZero.string_of_int].
  pose proof (DecimalPos.Unsigned.to_uint_nonnil p) as Hnn.
  unfold NilZero.string_of_uint. destruct (Pos.to_uint p); [done|..]; by split.
Qed.

Lemma decimal_not_int_space c :
  PyStr.isdecimal_char c = true -> PyStr.int_isspace c = false.
Proof. destruct c as [[] [] [] [] [] [] [] []]; try discriminate; reflexivity. Qed.

Lemma int_rstrip_digits s :
  PyStr.all_chars PyStr.isdecimal_char s = true -> PyStr.int_rstrip s = s.
Proof.
  induction s as [|c s IH]; [done|]. cbn [PyStr.all_chars PyStr.int_rstrip].
  intros [Hc Hs]%andb_prop. rewrite (IH Hs), (decimal_not_int_space c Hc). by destruct s.
Qed.

Lemma int_strip_digits s :
  PyStr.all_chars PyStr.isdecimal_char s = true -> PyStr.int_strip s = s.
Proof.
  intros Hs. unfold PyStr.int_strip.
  assert (PyStr.int_lstrip s = s) as ->; [|by apply int_rstrip_digits].
  destruct s as [|c s]; [done|]. cbn [PyStr.all_chars] in Hs.
  apply andb_prop in Hs as [Hc _]. cbn [PyStr.int_lstrip].
  by rewrite (decimal_not_int_space c Hc).
Qed.

Lemma int_of_digits s :
  s <> "" -> PyStr.all_chars PyStr.isdecimal_char s = true ->
  PyStr.int s = PyStr.int_literal s.
Proof.
  intros Hne Hs. unfold PyStr.int. rewrite (int_strip_digits s Hs).
  destruct s as [|ch r]; [done|]. cbn [PyStr.all_chars] in Hs.
  apply andb_prop in Hs as [Hch _].
  destruct ch as [[] [] [] [] [] [] [] []]; try discriminate Hch; reflexivity.
Qed.

Lemma int_digits_to_uint p :
  PyStr.int_digits 0 false (NilEmpty.string_of_uint (Pos.to_uint p)) = Some (Z.pos p).
Proof.
  rewrite int_digits_of_uint_start by apply DecimalPos.Unsigned.to_uint_nonnil.
  by rewrite <- uint_value_of_uint, DecimalPos.Unsigned.of_to.
Qed.

(** [int(str(z)) == z], unless [z] has more digits than [int] reads. *)
Lemma int_str z :
  PyStr.int (PyStr.str z) =
  if (PyStr.max_str_digits <? PyStr.count_digits (PyStr.str z))%N then None else Some z.
Proof.
  destruct z as [|p|p]; [done| |].
  - destruct (str_pos p) as [-> Hne].
    rewrite int_of_digits by (done || apply digits_of_uint).
    unfold PyStr.int_literal. destruct (_ <? _)%N; [done|].
    apply int_digits_to_uint.
  - unfold PyStr.str. cbn [Z.to_int NilZero.string_of_int].
    pose proof (str_pos p) as [Hstr Hne]. unfold PyStr.str in Hstr.
    cbn [Z.to_int NilZero.string_of_int] in Hstr. rewrite Hstr.
    set (s := NilEmpty.string_of_uint (Pos.to_uint p)) in *.
    assert (PyStr.int_strip (String "-" s) = String "-" s) as Hstrip.
    { unfold PyStr.int_strip. cbn [PyStr.int_lstrip].
      change (PyStr.int_isspace "-") with false. cbv iota. cbn [PyStr.int_rstrip].
      rewrite (int_rstrip_digits s) by apply digits_of_uint.
      destruct s; [done | reflexivity]. }
    unfold PyStr.int. rewrite Hstrip. cbv iota beta.
    change (PyStr.count_digits (String "-" s)) with (0 + PyStr.count_digits s)%N.
    rewrite N.add_0_l. unfold PyStr.int_literal. destruct (_ <? _)%N; [done|].
    change (Some (Z.neg p)) with (Z.opp <$> Some (Z.pos p)).
    f_equal. apply int_digits_to_uint.
Qed.

Lemma int_str_short z :
  (PyStr.count_digits (PyStr.str z) <= PyStr.max_str_digits)%N ->
  PyStr.int (PyStr.str z) = Some z.
Proof. intros H. rewrite int_str. by apply N.ltb_ge in H as ->. Qed.

(** What [int] reads from [str(z)] is [z]. *)
Lemma int_str_inv z z' : PyStr.int (PyStr.str z) = Some z' -> z' = z.
Proof. rewrite int_str. destruct (_ <? _)%N; [done|]. by intros [= <-]. Qed.

Lemma isdigit_str z : 0 <= z -> PyStr.isdigit (PyStr.str z) = true.
Proof.
  intros Hz. destruct z as [|p|p]; [done | | lia].
  destruct (str_pos p) as [-> Hne]. unfold PyStr.isdigit.
  pose proof (digits_of_uint (Pos.to_uint p)) as Hd.
  destruct (NilEmpty.string_of_uint (Pos.to_uint p)) as [|c s] eqn:Hs; [done|].
  clear Hne Hs. revert Hd. generalize (String c s). intros s'.
  induction s' as [|c' s' IH]; [done|]. cbn [PyStr.all_chars].
  intros [Hc Hs']%andb_prop. rewrite (IH Hs'), andb_true_r.
  unfold PyStr.isdigit_char. unfold PyStr.isdecimal_char in Hc. by rewrite Hc.
Qed.

Lemma strip_str z : 0 <= z -> PyStr.strip (PyStr.str z) = PyStr.str z.
Proof.
  intros Hz. destruct z as [|p|p]; [done | | lia].
  destruct (str_pos p) as [-> _]. apply strip_digits, digits_of_uint.
Qed.

(** ** Points on the cards *)

Lemma isdigit_str_max z : (if PyStr.isdigit (PyStr.str z) then z else 0) = Z.max 0 z.
Proof.
  destruct (PyStr.isdigit (PyStr.str z)) eqn:Hd.
  - apply isdigit_str_nonneg in Hd. lia.
  - destruct (Z.le_gt_cases 0 z) as [Hz|Hz]; [|lia].
    by rewrite (isdigit_str z Hz) in Hd.
Qed.

(** X9. The points on a card are those of the last leaderboard entry for
    the player's lower-cased name.  old.py copies them as they are;
    script.py shows 0 in their place when they are negative, their decimal
    text being then not all digits.  So no card of script.py shows negative
    points, for any roster, and no card of old.py does for a roster that
    its parser built. *)
Theorem scoreboard_points_not_negative :
  (forall data c,
      c ∈ (snd <$> Script.generate_scoreboard_image data) -> 0 <= Card.points c)
  /\ (forall rows data c,
         Old.parse_data rows = Ok data ->
         c ∈ (snd <$> Old.generate_scoreboard data) -> 0 <= Card.points c)
  /\ (forall (l1 : list Entry.t) (e : Entry.t) (l2 : list Entry.t) (c : string)
             (player : Player.t),
         Entry.Combatant e = Some c ->
         PyStr.lower c = PyStr.lower (default "" (Player.Name player)) ->
         (forall e' c', e' ∈ l2 -> Entry.Combatant e' = Some c' ->
                        PyStr.lower c' <> PyStr.lower c) ->
         Card.points (Script.card (Script.leaderboard_dict (l1 ++ e :: l2)) player)
           = Z.max 0 (default 0 (Entry.Points e))
         /\ Card.points (Old.card (Old.leaderboard_dict (l1 ++ e :: l2)) player)
           = default 0 (Entry.Points e)).
Proof.
  split; [|split].
  - intros data c Hc. apply Script_card_of_image in Hc as (player & _ & ->).
    unfold Script.card. cbn [Card.points].
    destruct (Script.leaderboard_dict (leaderboard data) !! _) as [v|] eqn:Hv; [|done].
    apply (dict_values Script.standing) in Hv as [Hv | (e & _ & ->)];
      [by rewrite lookup_empty in Hv|].
    apply Script_standing_nonneg.
  - intros rows data c Hparse Hc.
    apply Old_card_of_image in Hc as (player & _ & ->).
    unfold Old.card. cbn [Card.points].
    destruct (Old.leaderboard_dict (leaderboard data) !! _) as [v|] eqn:Hv; [|done].
    apply (dict_values Old.standing) in Hv as [Hv | (e & He & ->)];
      [by rewrite lookup_empty in Hv|].
    apply Old_parse_data_ok in Hparse as (_ & _ & _ & _ & Hl).
    rewrite Forall_forall in Hl. destruct (Hl e He) as (_ & _ & _ & pts & Hpts & Hnn).
    unfold Old.standing. cbn [st_points]. by rewrite Hpts.
  - intros l1 e l2 c player Hc Hname Hno. split.
    + unfold Script.card, Script.leaderboard_dict. cbn [Card.points].
      rewrite <- Hname.
      rewrite (dict_last_match Script.standing l1 e l2 c) by done.
      unfold Script.standing. cbn [fmap option_fmap option_map from_option id st_points].
      apply isdigit_str_max.
    + unfold Old.card, Old.leaderboard_dict. cbn [Card.points].
      rewrite <- Hname.
      by rewrite (dict_last_match Old.standing l1 e l2 c) by done.
Qed.

(** "Al" with five points below zero: 0 on the card of script.py, -5 on the
    card of old.py. *)
Lemma scoreboard_points_not_negative_witness :
  let al := Player.mk (Some "Al") (Some "red") (Some "1-6") (Some "0") (Some "") in
  let entries := [Entry.mk (Some "1") (Some "red") (Some "AL") (Some (-5))] in
  Card.points (Script.card (Script.leaderboard_dict entries) al) = 0
  /\ Card.points (Old.card (Old.leaderboard_dict entries) al) = -5.
Proof.
  intros al entries.
  apply (proj2 (proj2 scoreboard_points_not_negative) []
           (Entry.mk (Some "1") (Some "red") (Some "AL") (Some (-5))) [] "AL" al);
    [reflexivity | reflexivity | intros e' c' Hin; by apply elem_of_nil in Hin].
Defined.

(** ** The configuration sheet *)

Lemma config_dict_get key rows : config_dict rows !! key = config_get key rows.
Proof.
  unfold config_dict, config_get.
  assert (forall (d : gmap string string) (found : option string), d !! key = found ->
            foldl (fun (d : gmap string string) row =>
                     match row with
                     | c0 :: c1 :: _ => <[PyStr.lower (PyStr.strip c0) := PyStr.strip c1]> d
                     | _ => d
                     end) d rows !! key
            = foldl (fun found row =>
                       match row with
                       | c0 :: c1 :: _ =>
                           if decide (PyStr.lower (PyStr.strip c0) = key)
                           then Some (PyStr.strip c1) else found
                       | _ => found
                       end) found rows) as H.
  { induction rows as [|row rows IH]; intros d found Hd; [done|].
    cbn [foldl]. apply IH. destruct row as [|c0 [|c1 rest]]; [done | done |].
    case_decide as Hk.
    - rewrite Hk. apply lookup_insert_eq.
    - by rewrite lookup_insert_ne. }
  by apply H.
Qed.

Lemma config_get_app key a b :
  config_get key (a ++ b) =
  match config_get key b with
  | Some v => Some v
  | None => config_get key a
  end.
Proof.
  unfold config_get. rewrite foldl_app. generalize (foldl
    (fun found row =>
       match row with
       | c0 :: c1 :: _ =>
           if decide (PyStr.lower (PyStr.strip c0) = key) then Some (PyStr.strip c1)
           else found
       | _ => found
       end) None a). intros start.
  revert start. induction b as [|row b IH] using rev_ind; intros start.
  - cbn. by destruct start.
  - rewrite !foldl_app. cbn [foldl]. destruct row as [|c0 [|c1 rest]]; try apply IH.
    by case_decide.
Qed.

Lemma config_get_no_match key rows :
  Forall (fun row => Old.key_matches key row = false) rows ->
  config_get (PyStr.lower key) rows = None.
Proof.
  induction rows as [|row rows IH] using rev_ind; [done|].
  intros [Hrows Hrow]%Forall_app. apply Forall_cons_1 in Hrow as [Hrow _].
  rewrite config_get_app, (IH Hrows). unfold config_get. cbn [foldl].
  destruct row as [|c0 [|c1 rest]]; [done | done |].
  case_decide as Hk; [|done].
  unfold Old.key_matches in Hrow. rewrite Hk in Hrow.
  by rewrite String.eqb_refl in Hrow.
Qed.

Lemma config_get_written key value rest :
  PyStr.strip key = key ->
  config_get (PyStr.lower key) [key :: value :: rest] = Some (PyStr.strip value).
Proof.
  intros Hkey. unfold config_get. cbn [foldl]. rewrite Hkey. by case_decide.
Qed.

(** The rows after the first matching one do not match when at most one
    row matches. *)
Lemma no_match_after_first key l1 row l2 :
  key_at_most_once key (l1 ++ row :: l2) -> Old.key_matches key row = true ->
  Forall (fun r => Old.key_matches key r = false) l2.
Proof.
  unfold key_at_most_once. rewrite filter_app, filter_cons, length_app.
  intros Hlen Hrow. rewrite decide_True in Hlen by done. cbn [length] in Hlen.
  assert (filter (fun r => Old.key_matches key r = true) l2 = []) as Hnil
    by (apply length_zero_iff_nil; lia).
  apply Forall_forall. intros r Hr.
  destruct (Old.key_matches key r) eqn:Hm; [|done].
  assert (r ∈ filter (fun r => Old.key_matches key r = true) l2) as Hin
    by (by apply list_elem_of_filter).
  rewrite Hnil in Hin. by apply elem_of_nil in Hin.
Qed.

Lemma update_config_rows key value w :
  (exists l1 row l2,
      config_sheet w = (l1 ++ row :: l2)%list
      /\ Forall (fun r => Old.key_matches key r = false) l1
      /\ Old.key_matches key row = true
      /\ config_sheet (Old._update_config key value w)
         = (l1 ++ (key :: value :: drop 2 row) :: l2)%list)
  \/ (Forall (fun r => Old.key_matches key r = false) (config_sheet w)
      /\ config_sheet (Old._update_config key value w)
         = (config_sheet w ++ [[key; value]])%list).
Proof.
  unfold Old._update_config.
  destruct (list_find _ (config_sheet w)) as [[row_index row]|] eqn:Hfind.
  - left. apply list_find_Some in Hfind as (Hrow & Hm & Hbefore).
    exists (take row_index (config_sheet w)), row, (drop (S row_index) (config_sheet w)).
    split; [by rewrite take_drop_middle|]. split; [|split; [done|]].
    + apply Forall_forall. intros r Hr.
      apply list_elem_of_lookup in Hr as [j Hj].
      pose proof (lookup_lt_Some _ _ _ Hj) as Hlt. rewrite length_take in Hlt.
      rewrite lookup_take_lt in Hj by lia.
      destruct (Old.key_matches key r) eqn:Hr; [|done].
      exfalso. apply (Hbefore j r); [done | lia | done].
    + cbn [config_sheet set_config]. apply insert_take_drop.
      by apply lookup_lt_Some in Hrow.
  - right. apply list_find_None in Hfind. split; [|done].
    eapply Forall_impl; [exact Hfind|]. intros r Hr. cbn in Hr.
    by destruct (Old.key_matches key r).
Qed.

Lemma update_config_get key value w :
  PyStr.strip key = key ->
  key_at_most_once key (config_sheet w) ->
  config_get (PyStr.lower key) (config_sheet (Old._update_config key value w))
  = Some (PyStr.strip value).
Proof.
  intros Hkey Honce.
  destruct (update_config_rows key value w)
    as [(l1 & row & l2 & Hcfg & _ & Hrow & ->) | [_ ->]].
  - rewrite Hcfg in Honce. pose proof (no_match_after_first _ _ _ _ Honce Hrow) as Hl2.
    rewrite config_get_app.
    change ((key :: value :: drop 2 row) :: l2) with ([key :: value :: drop 2 row] ++ l2)%list.
    rewrite config_get_app, (config_get_no_match key l2 Hl2).
    by rewrite config_get_written.
  - rewrite config_get_app. by rewrite config_get_written.
Qed.

(** X20. A value written with [_update_config] is what the configuration
    dictionary holds afterwards under the lower-cased key, trimmed, when
    the key has no outer blanks and at most one row of the sheet carries
    it.  (The dictionary takes the last row of a key, the update rewrites
    the first.) *)
Theorem update_config_read_back (key value : string) (w : World) :
  PyStr.strip key = key ->
  key_at_most_once key (config_sheet w) ->
  config_dict (config_sheet (Old._update_config key value w)) !! PyStr.lower key
  = Some (PyStr.strip value).
Proof.
  intros Hkey Honce. rewrite config_dict_get. by apply update_config_get.
Qed.

Lemma update_config_read_back_witness :
  let w := set_config [["Message_ID "; "17"]; ["channel_id"; "55"]] fresh_world in
  config_dict (config_sheet (Old._update_config "message_id" " 1000" w)) !! "message_id"
  = Some "1000".
Proof.
  intros w. apply (update_config_read_back "message_id" " 1000" w); [reflexivity|].
  vm_compute. lia.
Defined.

Lemma config_get_single_other key k' c0 rest :
  PyStr.lower (PyStr.strip c0) = PyStr.lower key -> k' <> PyStr.lower key ->
  config_get k' [c0 :: rest] = None.
Proof.
  intros Hc0 Hk. unfold config_get. cbn [foldl]. destruct rest as [|c1 rest]; [done|].
  case_decide; [congruence | done].
Qed.

Lemma update_config_get_other key value k' w :
  PyStr.strip key = key -> k' <> PyStr.lower key ->
  config_get k' (config_sheet (Old._update_config key value w))
  = config_get k' (config_sheet w).
Proof.
  intros Hkey Hk.
  destruct (update_config_rows key value w)
    as [(l1 & row & l2 & -> & _ & Hrow & ->) | [_ ->]].
  - change ((key :: value :: drop 2 row) :: l2)
      with ([key :: value :: drop 2 row] ++ l2)%list.
    change (row :: l2) with ([row] ++ l2)%list.
    rewrite !config_get_app.
    rewrite (config_get_single_other key k' key) by (by rewrite ?Hkey).
    destruct row as [|c0 rest]; [done|].
    rewrite (config_get_single_other key k' c0); [done | | done].
    unfold Old.key_matches in Hrow. by apply String.eqb_eq in Hrow.
  - rewrite config_get_app.
    by rewrite (config_get_single_other key k' key) by (by rewrite ?Hkey).
Qed.

(** X21. For a key given without surrounding white space,
    [_update_config] leaves every other key of the configuration dictionary
    as it was. *)
Theorem update_config_keeps_other_keys (key value other : string) (w : World) :
  PyStr.strip key = key -> other <> PyStr.lower key ->
  config_dict (config_sheet (Old._update_config key value w)) !! other
  = config_dict (config_sheet w) !! other.
Proof.
  intros Hkey Hother. rewrite !config_dict_get. by apply update_config_get_other.
Qed.

Lemma update_config_keeps_other_keys_witness :
  let w := set_config [["message_id"; "17"]; ["current_round"; "2"]] fresh_world in
  config_dict (config_sheet (Old._update_config "message_id" "1000" w)) !! "current_round"
  = config_dict (config_sheet w) !! "current_round".
Proof.
  intros w.
  apply (update_config_keeps_other_keys "message_id" "1000" "current_round" w);
    [reflexivity | discriminate].
Defined.

Lemma update_config_keeps_once k1 value k2 w :
  PyStr.strip k1 = k1 -> PyStr.lower k1 <> PyStr.lower k2 ->
  key_at_most_once k2 (config_sheet w) ->
  key_at_most_once k2 (config_sheet (Old._update_config k1 value w)).
Proof.
  intros Hk1 Hne. unfold key_at_most_once.
  assert (forall c0 rest, PyStr.lower (PyStr.strip c0) = PyStr.lower k1 ->
            Old.key_matches k2 (c0 :: rest) = false) as Hother.
  { intros c0 rest Hc0. unfold Old.key_matches. rewrite Hc0. by apply String.eqb_neq. }
  destruct (update_config_rows k1 value w)
    as [(l1 & row & l2 & -> & _ & Hrow & ->) | [_ ->]].
  - rewrite !filter_app, !filter_cons.
    rewrite (decide_False (P := Old.key_matches k2 (k1 :: _) = true))
      by (rewrite Hother; [done | by rewrite Hk1]).
    destruct row as [|c0 rest]; [done|].
    rewrite (decide_False (P := Old.key_matches k2 (c0 :: rest) = true)); [done|].
    rewrite Hother; [done|]. unfold Old.key_matches in Hrow. by apply String.eqb_eq in Hrow.
  - rewrite filter_app, filter_cons.
    rewrite (decide_False (P := Old.key_matches k2 [k1; value] = true))
      by (rewrite Hother; [done | by rewrite Hk1]).
    by rewrite filter_nil, app_nil_r.
Qed.

Lemma read_id_written config key z :
  0 <= z -> (PyStr.count_digits (PyStr.str z) <= PyStr.max_str_digits)%N ->
  config !! key = Some (PyStr.str z) -> read_id config key = Ok (Some z).
Proof.
  intros Hz Hshort Hcfg. unfold read_id, int. rewrite Hcfg. cbn [from_option id].
  by rewrite isdigit_str, int_str_short.
Qed.

(** What [read_id] returns for a written id, if it returns, is that id. *)
Lemma read_id_written_inv config key z o :
  0 <= z -> config !! key = Some (PyStr.str z) -> read_id config key = Ok o -> o = Some z.
Proof.
  intros Hz Hcfg. unfold read_id, int. rewrite Hcfg. cbn [from_option id].
  rewrite isdigit_str by done.
  destruct (PyStr.int (PyStr.str z)) as [z'|] eqn:Hint; [|done].
  apply int_str_inv in Hint as ->. by intros [= <-].
Qed.

Lemma Old_set_round_ids n w w' :
  Old.set_round n w = Ok w' ->
  message_id w' = message_id w /\ channel_id w' = channel_id w
  /\ current_sheet w' = Some n /\ is_Some (worksheets w !! n).
Proof.
  unfold Old.set_round. destruct (worksheets w !! n) eqn:Hn; [|done].
  intros [= <-].
  destruct (Old_update_config_frame "current_round" (PyStr.str n) (set_current_sheet n w))
    as (-> & -> & _ & _ & -> & _ & _).
  by repeat split.
Qed.

Lemma Old_update_stats_created i w :
  (Old.update_stats i w).2 = [Defer true; Followup CreatedNewBoard true] ->
  (Old.update_stats i w).1
  = Old._update_config "channel_id" (PyStr.str (channel i))
      (Old._update_config "message_id" (PyStr.str (next_message_id w))
         (set_ids (next_message_id w) (channel i)
            (channel_send (channel i)
               (match current_sheet w ≫= (fun n => worksheets w !! n) with
                | Some rows =>
                    match Old.parse_data rows with
                    | Ok data => Old.generate_scoreboard data
                    | Raise _ => []
                    end
                | None => []
                end) w).2)).
Proof.
  unfold Old.update_stats.
  destruct (current_sheet w ≫= _) as [rows|]; [|done].
  destruct (Old.parse_data rows) as [data|]; [|done].
  destruct (some_nonzero (message_id w) && some_nonzero (channel_id w)); [|done].
  destruct (channels w !! _) as [msgs|]; [|done].
  by destruct (msgs !! _).
Qed.

(** X22. Ids posted by old.py survive a restart: after [update] has
    created a new board, [load_config] on the resulting state, when it
    returns, yields the same message and channel ids, provided the ids are
    not negative and the sheet had at most one row for each of the two
    keys. *)
Theorem old_posted_ids_survive_restart (i : Interaction) (w w'' : World) :
  (Old.update_stats i w).2 = [Defer true; Followup CreatedNewBoard true] ->
  0 <= next_message_id w -> 0 <= channel i ->
  key_at_most_once "message_id" (config_sheet w) ->
  key_at_most_once "channel_id" (config_sheet w) ->
  Old.load_config (Old.update_stats i w).1 = Ok w'' ->
  message_id w'' = message_id (Old.update_stats i w).1
  /\ channel_id w'' = channel_id (Old.update_stats i w).1
  /\ message_id w'' = Some (next_message_id w)
  /\ channel_id w'' = Some (channel i).
Proof.
  intros Hev Hmid Hc Hm1 Hc1. rewrite (Old_update_stats_created i w Hev).
  set (file := match current_sheet w ≫= _ with Some _ => _ | None => _ end).
  set (w1 := set_ids (next_message_id w) (channel i) (channel_send (channel i) file w).2).
  set (w2 := Old._update_config "message_id" (PyStr.str (next_message_id w)) w1).
  set (w3 := Old._update_config "channel_id" (PyStr.str (channel i)) w2).
  assert (config_sheet w1 = config_sheet w) as Hcfg1 by done.
  assert (message_id w3 = Some (next_message_id w) /\ channel_id w3 = Some (channel i))
    as [Hid3 Hch3].
  { destruct (Old_update_config_frame "channel_id" (PyStr.str (channel i)) w2)
      as (Ha & Hb & _).
    destruct (Old_update_config_frame "message_id" (PyStr.str (next_message_id w)) w1)
      as (Ha' & Hb' & _).
    fold w2 in Ha', Hb'. fold w3 in Ha, Hb. by rewrite Ha, Hb, Ha', Hb'. }
  assert (config_dict (config_sheet w3) !! "message_id" = Some (PyStr.str (next_message_id w)))
    as Hget_m.
  { rewrite config_dict_get. subst w3.
    rewrite (update_config_get_other "channel_id" _ "message_id") by done.
    subst w2. rewrite (update_config_get "message_id") by (by rewrite ?Hcfg1).
    by rewrite strip_str. }
  assert (config_dict (config_sheet w3) !! "channel_id" = Some (PyStr.str (channel i)))
    as Hget_c.
  { rewrite config_dict_get. subst w3.
    rewrite (update_config_get "channel_id");
      [by rewrite strip_str | done |].
    subst w2. apply update_config_keeps_once; [done | done | by rewrite Hcfg1]. }
  unfold Old.load_config.
  destruct (read_id _ "message_id") as [mid|] eqn:Em; [|done].
  apply (read_id_written_inv _ _ _ _ Hmid Hget_m) in Em as ->.
  cbn [mbind result_bind].
  destruct (read_id _ "channel_id") as [c|] eqn:Ec; [|done].
  apply (read_id_written_inv _ _ _ _ Hc Hget_c) in Ec as ->.
  cbn [mbind result_bind].
  destruct (int _) as [n|]; [|done]. cbn [mbind result_bind].
  intros Hset. apply Old_set_round_ids in Hset as (-> & -> & _).
  cbn [set_id_options message_id channel_id]. by rewrite Hid3, Hch3.
Qed.

Lemma old_posted_ids_survive_restart_witness :
  let agent := with_roles ["Agent of Chaos"] guest in
  exists w'', Old.load_config (Old.update_stats agent fresh_world).1 = Ok w''
    /\ message_id w'' = Some 1000 /\ channel_id w'' = Some 55.
Proof.
  intros agent.
  destruct (Old.load_config (Old.update_stats agent fresh_world).1) as [w''|] eqn:Hload;
    [|vm_compute in Hload; discriminate].
  exists w''. split; [reflexivity|].
  destruct (old_posted_ids_survive_restart agent fresh_world w'') as (_ & _ & Hm & Hc);
    try done; try (vm_compute; lia); try (vm_compute; discriminate).
Defined.

Lemma config_get_undefined key rows :
  Forall (fun row => defines_key key row = false) rows -> config_get key rows = None.
Proof.
  induction rows as [|row rows IH] using rev_ind; [done|].
  intros [Hrows Hrow]%Forall_app. apply Forall_cons_1 in Hrow as [Hrow _].
  rewrite config_get_app, (IH Hrows). unfold config_get. cbn [foldl].
  destruct row as [|c0 [|c1 rest]]; [done | done |].
  case_decide as Hk; [|done]. cbn [defines_key] in Hrow.
  rewrite Hk, String.eqb_refl in Hrow. done.
Qed.

Lemma Script_update_stats_posted i w :
  (Script.update_stats i w).2 <> [Defer true; Followup StatsUpdated true] ->
  exists c,
    (Script.update_stats i w).1
    = Script.post_new c (Script.generate_scoreboard_image
                           (Script.parse_sheet_data (default [] (worksheets w !! 1)))) w
    /\ (c = channel i \/ channel_id w = Some c).
Proof.
  unfold Script.update_stats.
  destruct (some_nonzero (message_id w) && some_nonzero (channel_id w)) eqn:Hids;
    [|intros _; exists (channel i); by split; [|left]].
  apply andb_prop in Hids as [_ Hc].
  destruct (some_nonzero_true _ Hc) as (c & Hcid & _). rewrite Hcid. cbn [from_option id].
  destruct (channels w !! c) as [msgs|]; [|intros _; exists (channel i); by split; [|left]].
  destruct (msgs !! _); [done|].
  intros _. exists c. by split; [|right].
Qed.

(** X23. Ids posted by script.py survive a restart: after [update] has
    posted a new message, [setup_hook] on the resulting state finds the same
    message and channel ids, provided the worksheet "Round 1" exists, the
    ids are not negative and have no more digits than [int] reads, and no
    row of the configuration sheet below the second defines either key. *)
Theorem script_posted_ids_survive_restart (i : Interaction) (w : World) :
  let readable z := 0 <= z /\ (PyStr.count_digits (PyStr.str z) <= PyStr.max_str_digits)%N in
  (Script.update_stats i w).2 <> [Defer true; Followup StatsUpdated true] ->
  is_Some (worksheets w !! 1) ->
  readable (next_message_id w) -> readable (channel i) ->
  (forall c, channel_id w = Some c -> readable c) ->
  Forall (fun row => defines_key "message_id" row = false
                     /\ defines_key "channel_id" row = false)
         (drop 2 (config_sheet w)) ->
  message_id (Script.setup_hook (Script.update_stats i w).1)
    = message_id (Script.update_stats i w).1
  /\ channel_id (Script.setup_hook (Script.update_stats i w).1)
    = channel_id (Script.update_stats i w).1.
Proof.
  intros readable Hev [rows Hws] [Hmid Hmid_short] Hci Hstored Hrest.
  destruct (Script_update_stats_posted i w Hev) as (c & -> & Hc).
  assert (readable c) as [Hc0 Hc_short]
    by (destruct Hc as [->|Hc]; [done | by apply Hstored]).
  set (file := Script.generate_scoreboard_image _).
  unfold Script.setup_hook, Script.post_new, channel_send.
  cbn [worksheets set_config set_ids config_sheet message_id channel_id].
  rewrite Hws. unfold Script.config_update, Script.write_pair.
  set (row0 := "message_id" :: PyStr.str (next_message_id w) :: _).
  set (row1 := "channel_id" :: PyStr.str c :: _).
  match goal with |- context [config_dict ?rows] => set (config := rows) end.
  assert (config = [row0] ++ [row1] ++ drop 2 (config_sheet w))%list as Hconfig by done.
  assert (Forall (fun row => defines_key "message_id" row = false) (drop 2 (config_sheet w))
          /\ Forall (fun row => defines_key "channel_id" row = false) (drop 2 (config_sheet w)))
    as [Hrm Hrc].
  { split; (eapply Forall_impl; [exact Hrest|]); by intros row [? ?]. }
  assert (config_dict config !! "message_id"
          = Some (PyStr.str (next_message_id w))) as Hm.
  { rewrite config_dict_get, Hconfig.
    rewrite !config_get_app, (config_get_undefined _ _ Hrm).
    subst row0 row1. unfold config_get. cbn [foldl].
    change (PyStr.lower (PyStr.strip "message_id")) with "message_id".
    change (PyStr.lower (PyStr.strip "channel_id")) with "channel_id".
    rewrite decide_False by done. rewrite decide_True by done. by rewrite strip_str. }
  assert (config_dict config !! "channel_id"
          = Some (PyStr.str c)) as Hcd.
  { rewrite config_dict_get, Hconfig.
    rewrite !config_get_app, (config_get_undefined _ _ Hrc).
    subst row0 row1. unfold config_get. cbn [foldl].
    change (PyStr.lower (PyStr.strip "channel_id")) with "channel_id".
    rewrite decide_True by done. by rewrite strip_str. }
  pose proof (read_id_written _ _ _ Hmid Hmid_short Hm) as Em.
  pose proof (read_id_written _ _ _ Hc0 Hc_short Hcd) as Ec.
  clearbody config file.
  rewrite Em. cbn [mbind result_bind]. rewrite Ec. by cbn.
Qed.

Lemma script_posted_ids_survive_restart_witness :
  message_id (Script.setup_hook (Script.update_stats guest fresh_world).1) = Some 1000
  /\ channel_id (Script.setup_hook (Script.update_stats guest fresh_world).1) = Some 55.
Proof.
  destruct (script_posted_ids_survive_restart guest fresh_world) as [-> ->];
    [vm_compute; discriminate | by eexists
     | split; vm_compute; discriminate
     | split; vm_compute; discriminate
     | intros c Hc; vm_compute in Hc; discriminate
     | apply Forall_nil_2 | split; reflexivity].
Defined.

Lemma strip_str_any z : PyStr.strip (PyStr.str z) = PyStr.str z.
Proof.
  destruct z as [|p|p]; [done | by apply strip_str |].
  unfold PyStr.str. cbn [Z.to_int NilZero.string_of_int].
  destruct (str_pos p) as [Hstr Hne]. unfold PyStr.str in Hstr.
  cbn [Z.to_int NilZero.string_of_int] in Hstr. rewrite Hstr.
  set (s := NilEmpty.string_of_uint (Pos.to_uint p)) in *.
  unfold PyStr.strip. cbn [PyStr.lstrip].
  change (PyStr.isspace "-") with false. cbv iota. cbn [PyStr.rstrip].
  rewrite (rstrip_digits s) by apply digits_of_uint.
  destruct s; [done | reflexivity].
Qed.

(** X24. The round chosen with the round command survives a restart: after
    a successful switch to round [n], [load_config] on the resulting state,
    when it returns, makes "Round n" the current sheet again, provided the
    configuration sheet had at most one row for the key. *)
Theorem old_round_survives_restart (i : Interaction) (n : Z) (w w'' : World) :
  (Old.round_command i n w).2 = [Defer true; Followup (Switched n) true] ->
  key_at_most_once "current_round" (config_sheet w) ->
  Old.load_config (Old.round_command i n w).1 = Ok w'' ->
  current_sheet w'' = Some n /\ is_Some (worksheets w'' !! n).
Proof.
  intros Hev Honce.
  assert ((Old.round_command i n w).1
          = Old._update_config "current_round" (PyStr.str n) (set_current_sheet n w)) as ->.
  { revert Hev. unfold Old.round_command, Old.set_round.
    destruct (negb _); [done|]. by destruct (worksheets w !! n). }
  set (w1 := Old._update_config _ _ _).
  assert (config_dict (config_sheet w1) !! "current_round" = Some (PyStr.str n)) as Hget.
  { rewrite config_dict_get. subst w1.
    rewrite (update_config_get "current_round") by done. by rewrite strip_str_any. }
  unfold Old.load_config.
  destruct (read_id _ "message_id") as [mid|]; [|done]. cbn [mbind result_bind].
  destruct (read_id _ "channel_id") as [c|]; [|done]. cbn [mbind result_bind].
  rewrite Hget. cbn [from_option id]. unfold int at 1. rewrite int_str.
  destruct (_ <? _)%N; [done|]. cbn [mbind result_bind].
  intros Hset. pose proof Hset as Hws.
  apply Old_set_round_ids in Hset as (_ & _ & Hcs & Hex). split; [done|].
  unfold Old.set_round in Hws. destruct (worksheets _ !! n) eqn:Hn; [|done].
  injection Hws as <-.
  destruct (Old_update_config_frame "current_round" (PyStr.str n)
              (set_current_sheet n (set_id_options mid c w1))) as (_ & _ & _ & _ & _ & -> & _).
  cbn [set_current_sheet worksheets set_id_options] in *. by rewrite Hn.
Qed.

Lemma old_round_survives_restart_witness :
  let agent := with_roles ["Agent of Chaos"] guest in
  let w := mkWorld None None (Some 1) [["current_round"; "1"]]
             {[1 := scenario_rows_one_cell; 2 := []]} ∅ 1000 ∅ [] in
  exists w'', Old.load_config (Old.round_command agent 2 w).1 = Ok w''
    /\ current_sheet w'' = Some 2.
Proof.
  intros agent w.
  destruct (Old.load_config (Old.round_command agent 2 w).1) as [w''|] eqn:Hload;
    [|vm_compute in Hload; discriminate].
  exists w''. split; [reflexivity|].
  destruct (old_round_survives_restart agent 2 w w'') as [H _];
    [reflexivity | vm_compute; lia | exact Hload | exact H].
Defined.

(** X25. [load_config] returns only with a current sheet that exists: the
    text under "current_round" ("1" when the key is missing) is then an
    integer literal naming an existing worksheet, which becomes the current
    sheet; a text that [int] rejects makes [load_config] raise. *)
Theorem load_config_needs_existing_round (w : World) :
  let text := default "1" (config_dict (config_sheet w) !! "current_round") in
  (forall w', Old.load_config w = Ok w' ->
     exists n, PyStr.int text = Some n
               /\ is_Some (worksheets w !! n) /\ current_sheet w' = Some n)
  /\ (PyStr.int text = None -> exists e, Old.load_config w = Raise e).
Proof.
  intros text. unfold Old.load_config. fold text. split.
  - intros w'.
    destruct (read_id _ "message_id") as [mid|]; [|done]. cbn [mbind result_bind].
    destruct (read_id _ "channel_id") as [c|]; [|done]. cbn [mbind result_bind].
    unfold int at 1. destruct (PyStr.int text) as [n|]; [|done].
    cbn [mbind result_bind]. intros Hset.
    apply Old_set_round_ids in Hset as (_ & _ & Hcs & Hex). by exists n.
  - intros Hint.
    destruct (read_id _ "message_id") as [mid|]; [|by eexists]. cbn [mbind result_bind].
    destruct (read_id _ "channel_id") as [c|]; [|by eexists]. cbn [mbind result_bind].
    unfold int at 1. rewrite Hint. by eexists.
Qed.

Lemma load_config_needs_existing_round_witness :
  let w := set_config [["current_round"; "two"]] fresh_world in
  exists e, Old.load_config w = Raise e.
Proof.
  intros w. apply (proj2 (load_config_needs_existing_round w)). reflexivity.
Defined.
